(** * SASHIMI: topological features of labelled point patterns

    A shallow embedding of [src/features/topological.py] (class
    [TopoFeature]) and the properties of it that the specification states.

    Conventions of the embedding.
    - A [np.float64] is a [float64]: a real number or one of [nan], [+inf],
      [-inf].  Arithmetic on finite values is the arithmetic of the reals:
      neither rounding nor overflow is modelled.
    - A Python exception is a [Raise]; functions that can raise return a
      [result].
    - Calls into pandas' file reader, scipy's kernel density estimator, gudhi
      and [print] are requests of a program tree ([prog]); a [handler]
      answers them.  Everything else is a function. *)

From Stdlib Require Import String Ascii ZArith Arith Bool Lia.
From Stdlib Require Import Reals Lra.
From Stdlib Require Import DecimalString.
From Stdlib Require FinFun DecimalZ.
From Stdlib Require Import List.
Import ListNotations.

Local Open Scope list_scope.
Local Open Scope string_scope.
Local Open Scope nat_scope.

(* ================================================================= *)
(** ** Values *)

(** [np.float64]. *)
Inductive float64 : Type :=
| NaN
| PInf
| NInf
| Fin (r : R).

Definition np_isinf (x : float64) : bool :=
  match x with
  | PInf | NInf => true
  | _ => false
  end.

Definition np_isnan (x : float64) : bool :=
  match x with
  | NaN => true
  | _ => false
  end.

Definition fneg (x : float64) : float64 :=
  match x with
  | NaN => NaN
  | PInf => NInf
  | NInf => PInf
  | Fin r => Fin (- r)
  end.

Definition fadd (x y : float64) : float64 :=
  match x, y with
  | NaN, _ | _, NaN => NaN
  | PInf, NInf | NInf, PInf => NaN
  | PInf, _ | _, PInf => PInf
  | NInf, _ | _, NInf => NInf
  | Fin a, Fin b => Fin (a + b)
  end.

Definition fsub (x y : float64) : float64 := fadd x (fneg y).

(** The sign of a non-zero real as an infinity. *)
Definition inf_of_sign (r : R) : float64 :=
  if Rlt_dec 0 r then PInf else NInf.

Definition fmul (x y : float64) : float64 :=
  match x, y with
  | NaN, _ | _, NaN => NaN
  | Fin a, Fin b => Fin (a * b)
  | Fin a, i | i, Fin a =>
      if Req_dec_T a 0 then NaN
      else if Rlt_dec 0 a then i else fneg i
  | PInf, PInf | NInf, NInf => PInf
  | PInf, NInf | NInf, PInf => NInf
  end.

Definition fdiv (x y : float64) : float64 :=
  match x, y with
  | NaN, _ | _, NaN => NaN
  | Fin a, Fin b =>
      if Req_dec_T b 0 then
        if Req_dec_T a 0 then NaN else inf_of_sign a
      else Fin (a / b)
  | Fin _, _ => Fin 0
  | i, Fin b => if Rlt_dec b 0 then fneg i else i
  | _, _ => NaN
  end.

Definition fsqrt (x : float64) : float64 :=
  match x with
  | NaN | NInf => NaN
  | PInf => PInf
  | Fin r => if Rlt_dec r 0 then NaN else Fin (sqrt r)
  end.

(** [x <= y] of IEEE 754: false as soon as one side is [nan]. *)
Definition fle (x y : float64) : bool :=
  match x, y with
  | NaN, _ | _, NaN => false
  | NInf, _ | _, PInf => true
  | PInf, _ | _, NInf => false
  | Fin a, Fin b => if Rle_dec a b then true else false
  end.

Definition flt (x y : float64) : bool :=
  match x, y with
  | NaN, _ | _, NaN => false
  | PInf, _ | _, NInf => false
  | NInf, _ | _, PInf => true
  | Fin a, Fin b => if Rlt_dec a b then true else false
  end.

(** A Python exception, by its message. *)
Definition exn := string.

Inductive result (A : Type) : Type :=
| Ok (a : A)
| Raise (e : exn).
Arguments Ok {A} a.
Arguments Raise {A} e.

(** Statements that may raise, without external calls. *)
Definition rbind {A B : Type} (r : result A) (f : A -> result B) : result B :=
  match r with
  | Ok a => f a
  | Raise e => Raise e
  end.

(** A 2-D point, one row of the [points] array. *)
Definition point : Type := float64 * float64.

(** One entry [(dim, (birth, death))] of a gudhi persistence diagram. *)
Definition interval : Type := Z * (float64 * float64).
Definition diagram : Type := list interval.

(** One field of the input file as pandas converts it: its [np.float64]
    value when it has one, and its [str] form. *)
Record field : Type := mkField {
  as_float64 : option float64;
  as_str : string
}.

(** The objects of scipy and gudhi, by the arguments they are built from. *)
Record gaussian_kde_obj : Type := mkKde {
  dataset : list point;
  bw_method : R
}.

Record CubicalComplex_obj : Type := mkCubical {
  dimensions : list nat;
  top_dimensional_cells : list float64
}.

Record EuclideanWitnessComplex_obj : Type := mkWitness {
  witnesses : list point;
  landmarks : list point
}.

Record SimplexTree_obj : Type := mkSimplexTree {
  of_complex : EuclideanWitnessComplex_obj;
  max_alpha_square : R;
  limit_dimension : nat
}.

(* ================================================================= *)
(** ** External calls *)

Inductive request : Type :=
| csv_records (path : string)
| gaussian_kde (pts : list point) (bw : R)
| kde_evaluate (kde : gaussian_kde_obj) (grid : list point)
| CubicalComplex (dims : list nat) (cells : list float64)
| cubical_persistence (c : CubicalComplex_obj)
| pick_n_random_points (pts : list point) (nb_points : nat)
| EuclideanWitnessComplex (wit lm : list point)
| create_simplex_tree (w : EuclideanWitnessComplex_obj) (alpha2 : R) (dim : nat)
| simplex_tree_persistence (t : SimplexTree_obj)
| print (msg : string).

Definition answer (q : request) : Type :=
  match q with
  | csv_records _ => result (list (list field))
  | gaussian_kde _ _ => result gaussian_kde_obj
  | kde_evaluate _ _ => result (list float64)
  | CubicalComplex _ _ => result CubicalComplex_obj
  | cubical_persistence _ => result diagram
  | pick_n_random_points _ _ => result (list point)
  | EuclideanWitnessComplex _ _ => result EuclideanWitnessComplex_obj
  | create_simplex_tree _ _ _ => result SimplexTree_obj
  | simplex_tree_persistence _ => result diagram
  | print _ => unit
  end.

(** A program: a tree of external calls ending in a value. *)
Inductive prog (A : Type) : Type :=
| Ret (a : A)
| Call (q : request) (k : answer q -> prog A).
Arguments Ret {A} a.
Arguments Call {A} q k.

Fixpoint bind {A B : Type} (p : prog A) (f : A -> prog B) : prog B :=
  match p with
  | Ret a => f a
  | Call q k => Call q (fun x => bind (k x) f)
  end.

(** Programs that may raise: an exception skips the rest. *)
Definition eprog (A : Type) : Type := prog (result A).

Definition eret {A : Type} (a : A) : eprog A := Ret (Ok a).

Definition raise {A : Type} (e : exn) : eprog A := Ret (Raise e).

Definition ebind {A B : Type} (p : eprog A) (f : A -> eprog B) : eprog B :=
  bind p (fun r => match r with
                   | Ok a => f a
                   | Raise e => Ret (Raise e)
                   end).

Definition lift {A : Type} (r : result A) : eprog A := Ret r.

(** An external call whose exception propagates. *)
Definition call {A : Type} (q : request) (get : answer q -> result A) : eprog A :=
  Call q (fun x => Ret (get x)).

(** [try: body  except Exception as e: handler e]. *)
Definition try_except {A : Type} (body : eprog A) (handler : exn -> eprog A)
  : eprog A :=
  bind body (fun r => match r with
                      | Ok a => Ret (Ok a)
                      | Raise e => handler e
                      end).

Declare Scope prog_scope.
Delimit Scope prog_scope with prog.
Notation "x <- c ;; k" := (ebind c (fun x => k))
  (at level 61, c at next level, right associativity) : prog_scope.
Notation "' pat <- c ;; k" := (ebind c (fun x => match x with pat => k end))
  (at level 61, pat pattern, c at next level, right associativity) : prog_scope.
Notation "c ;;; k" := (ebind c (fun _ => k))
  (at level 61, right associativity) : prog_scope.

(** Running a program against a library that answers every call, carrying
    its own state (the random generator, the file system, the console). *)
Definition handler (S : Type) : Type := forall q : request, S -> answer q * S.

Fixpoint run {S A : Type} (h : handler S) (p : prog A) (s : S) : A * S :=
  match p with
  | Ret a => (a, s)
  | Call q k => let (x, s') := h q s in run h (k x) s'
  end.

(** [post C p Q]: [Q] holds of the value of [p] whatever the answers are,
    as long as each answer [x] to a call [q] satisfies [C q x]. *)
Fixpoint post {A : Type} (C : forall q, answer q -> Prop) (p : prog A)
  (Q : A -> Prop) : Prop :=
  match p with
  | Ret a => Q a
  | Call q k => forall x, C q x -> post C (k x) Q
  end.

Definition any_answer : forall q, answer q -> Prop := fun _ _ => True.

Definition obeys {S : Type} (h : handler S) (C : forall q, answer q -> Prop)
  : Prop :=
  forall q s, C q (fst (h q s)).

(* ================================================================= *)
(** ** numpy and pandas helpers *)

Fixpoint map2 {A B C : Type} (f : A -> B -> C) (l1 : list A) (l2 : list B)
  : list C :=
  match l1, l2 with
  | a :: l1', b :: l2' => f a b :: map2 f l1' l2'
  | _, _ => []
  end.

(** [labels == label]. *)
Definition label_mask (labels : list string) (label : string) : list bool :=
  map (fun l => String.eqb l label) labels.

(** [xs[mask]] for a boolean mask: numpy refuses a mask of another length. *)
Fixpoint select_rows {A : Type} (xs : list A) (mask : list bool)
  : result (list A) :=
  match xs, mask with
  | [], [] => Ok []
  | x :: xs', b :: mask' =>
      rbind (select_rows xs' mask')
            (fun r => Ok (if b then x :: r else r))
  | _, _ => Raise "IndexError: boolean index did not match indexed array"
  end.

(** [np.minimum] and [np.maximum], as numpy's loops compute them: a [nan]
    on either side is the result. *)
Definition fmin (a b : float64) : float64 :=
  if flt a b || np_isnan a then a else b.

Definition fmax (a b : float64) : float64 :=
  if fle b a || np_isnan a then a else b.

(** [np.min], [np.max], [np.mean], [np.std] of a 1-D array.  numpy raises on
    an empty array for the first two; the one caller never passes one. *)
Definition np_min (xs : list float64) : float64 :=
  match xs with
  | [] => NaN
  | x :: r => fold_left fmin r x
  end.

Definition np_max (xs : list float64) : float64 :=
  match xs with
  | [] => NaN
  | x :: r => fold_left fmax r x
  end.

Definition np_sum (xs : list float64) : float64 :=
  fold_left fadd xs (Fin 0).

Definition np_mean (xs : list float64) : float64 :=
  fdiv (np_sum xs) (Fin (INR (length xs))).

Definition np_std (xs : list float64) : float64 :=
  let arrmean := np_mean xs in
  let x := map (fun v => fsub v arrmean) xs in
  let x := map (fun v => fmul v v) x in
  fsqrt (fdiv (np_sum x) (Fin (INR (length xs)))).

(** [np.argmax] of a 1-D array: the first [nan] if there is one, else the
    first maximum (numpy raises on an empty array; the one caller passes
    columns of three values). *)
Fixpoint argmax_from (mp : float64) (max_ind i : nat) (ip : list float64)
  : nat :=
  match ip with
  | [] => max_ind
  | x :: ip' =>
      if fle x mp then argmax_from mp max_ind (S i) ip'
      else if np_isnan x then i
           else argmax_from x i (S i) ip'
  end.

Definition np_argmax (ip : list float64) : nat :=
  match ip with
  | [] => 0
  | x :: ip' => if np_isnan x then 0 else argmax_from x 0 1 ip'
  end.

(** [np.linspace(0, 1, n)]. *)
Definition linspace01 (n : nat) : list float64 :=
  map (fun i => Fin (INR i / INR (n - 1))) (seq 0 n).

(** [a.reshape((rows, cols))] of a flat array of [rows * cols] entries. *)
Fixpoint reshape {A : Type} (rows cols : nat) (l : list A) : list (list A) :=
  match rows with
  | O => []
  | S r => firstn cols l :: reshape r cols (skipn cols l)
  end.

(** A Python value of the statistics dictionaries. *)
Inductive pyval : Type :=
| PyFloat (x : float64)
| PyInt (n : Z).

(** A Python [dict] with [str] keys, in insertion order. *)
Definition dict : Type := list (string * pyval).

Fixpoint dict_set (d : dict) (k : string) (v : pyval) : dict :=
  match d with
  | [] => [(k, v)]
  | (k', v') :: d' =>
      if String.eqb k' k then (k', v) :: d'
      else (k', v') :: dict_set d' k v
  end.

Fixpoint dict_get (d : dict) (k : string) : option pyval :=
  match d with
  | [] => None
  | (k', v') :: d' => if String.eqb k' k then Some v' else dict_get d' k
  end.

(** [d.update(other)]. *)
Definition dict_update (d other : dict) : dict :=
  fold_left (fun acc kv => dict_set acc (fst kv) (snd kv)) other d.

(** A dictionary display [{k1: v1, ...}]. *)
Definition dict_of (items : list (string * pyval)) : dict :=
  dict_update [] items.

Definition keys (d : dict) : list string := map fst d.

(** [f'{n}'] for an [int]. *)
Definition str_of_int (n : Z) : string :=
  NilZero.string_of_int (Z.to_int n).

(** A pandas frame read from a file: column labels, and the rows. *)
Record DataFrame : Type := mkFrame {
  columns : list string;
  rows : list (list field)
}.

(** A field missing from a short row. *)
Definition missing_field : field :=
  {| as_float64 := Some NaN; as_str := "nan" |}.

Definition pad_row (n : nat) (row : list field) : list field :=
  (row ++ repeat missing_field (n - length row))%list.

(** The number of fields the tokenizer expects of a record: that of the
    header, or that of the first record after it when that one is longer. *)
Definition table_width (header : list field) (data : list (list field))
  : nat :=
  match data with
  | [] => length header
  | first :: _ => Nat.max (length header) (length first)
  end.

(** [pd.read_csv(path)] with its defaults, on the records of the file: the
    first record is the header ([header='infer'] without [names]) and gives
    the columns their number; a shorter record is filled with missing
    values; the fields by which the first record after the header exceeds
    the header are leading columns, which become the index and are no
    column of the frame; a later record with more fields than that is the
    parser's error. *)
Definition pd_read_csv (path : string) : eprog DataFrame :=
  (records <- call (csv_records path) (fun x => x) ;;
   match records with
   | [] => raise "EmptyDataError: No columns to parse from file"
   | header :: data =>
       let table_width := table_width header data in
       let leading_cols := table_width - length header in
       if forallb (fun row => length row <=? table_width) data
       then eret {| columns := map as_str header;
                    rows := map (fun row =>
                                   skipn leading_cols (pad_row table_width row))
                                data |}
       else raise "ParserError: Error tokenizing data"
   end)%prog.

(** [df.columns = names]. *)
Definition set_columns (df : DataFrame) (names : list string)
  : result DataFrame :=
  if length names =? length (columns df)
  then Ok {| columns := names; rows := rows df |}
  else Raise "ValueError: Length mismatch".

(** One row of [df.iloc[:, 0:2].values.astype(np.float64)]. *)
Definition row_point (row : list field) : result point :=
  match as_float64 (nth 0 row missing_field),
        as_float64 (nth 1 row missing_field) with
  | Some x, Some y => Ok (x, y)
  | _, _ => Raise "ValueError: could not convert string to float"
  end.

Fixpoint rmap {A B : Type} (f : A -> result B) (l : list A) : result (list B) :=
  match l with
  | [] => Ok []
  | a :: l' => rbind (f a) (fun b => rbind (rmap f l') (fun bs => Ok (b :: bs)))
  end.

(** The position of a column label. *)
Fixpoint column_index (names : list string) (name : string) : option nat :=
  match names with
  | [] => None
  | n :: names' =>
      if String.eqb n name then Some 0
      else option_map S (column_index names' name)
  end.

(** [df[name].astype(str)]. *)
Definition column_str (df : DataFrame) (name : string) : result (list string) :=
  match column_index (columns df) name with
  | Some j => Ok (map (fun row => as_str (nth j row missing_field)) (rows df))
  | None => Raise "KeyError"
  end.

(* ================================================================= *)
(** ** class TopoFeature *)

Definition ordered_celltype : list string := ["immune"; "stromal"; "tumor"].

Definition cell_pairs : list (string * string) :=
  [("tumor", "immune"); ("tumor", "stromal"); ("immune", "stromal")].

(** *** read_img *)

Definition read_img (img_dir : string) : eprog (list point * list string) :=
  (df <- pd_read_csv img_dir ;;
   df <- lift (set_columns df ["x"; "y"; "type"]) ;;
   points <- lift (rmap row_point (rows df)) ;;
   labels <- lift (column_str df "type") ;;
   eret (points, labels))%prog.

(** *** compute_kde *)

Definition grid_res : nat := 100.

(** [np.vstack([xx.ravel(), yy.ravel()])] for [xx, yy = np.meshgrid(x, y)]:
    entry [r * grid_res + c] is [(x[c], y[r])]. *)
Definition grid_coords : list point :=
  flat_map (fun yv => map (fun xv => (xv, yv)) (linspace01 grid_res))
           (linspace01 grid_res).

(** [densities[i] = vals]: a row of the right length, or one value that
    numpy broadcasts. *)
Definition assign_row (n : nat) (vals : list float64) : result (list float64) :=
  if length vals =? n then Ok vals
  else match vals with
       | [v] => Ok (repeat v n)
       | _ => Raise "ValueError: could not broadcast input array"
       end.

(** One turn of the loop over [ordered_celltype]: row [i] of [densities]. *)
Definition density_row (points : list point) (labels : list string)
  (label : string) : eprog (list float64) :=
  (pts <- lift (select_rows points (label_mask labels label)) ;;
   if 0 <? length pts then
     kde <- call (gaussian_kde pts (1 / 2)) (fun x => x) ;;
     vals <- call (kde_evaluate kde grid_coords) (fun x => x) ;;
     lift (assign_row (length grid_coords) vals)
   else eret (repeat (Fin 0) (length grid_coords)))%prog.

Fixpoint emap {A B : Type} (f : A -> eprog B) (l : list A) : eprog (list B) :=
  match l with
  | [] => eret []
  | a :: l' => (b <- f a ;; bs <- emap f l' ;; eret (b :: bs))%prog
  end.

(** The array [densities] after the loop. *)
Definition compute_densities (points : list point) (labels : list string)
  : eprog (list (list float64)) :=
  emap (density_row points labels) ordered_celltype.

(** Column [k] of a 2-D array. *)
Definition column (a : list (list float64)) (k : nat) : list float64 :=
  map (fun row => nth k row NaN) a.

(** [np.argmax(densities, axis = 0)]. *)
Definition argmax_axis0 (densities : list (list float64)) : list Z :=
  map (fun k => Z.of_nat (np_argmax (column densities k)))
      (seq 0 (length grid_coords)).

Definition compute_kde (points : list point) (labels : list string)
  : eprog (list (list Z)) :=
  (densities <- compute_densities points labels ;;
   eret (reshape grid_res grid_res (argmax_axis0 densities)))%prog.

(** *** compute_cubical_complex_pair *)

Definition type_to_idx (cell_type : string) : result Z :=
  if String.eqb cell_type "immune" then Ok 0%Z
  else if String.eqb cell_type "stromal" then Ok 1%Z
  else if String.eqb cell_type "tumor" then Ok 2%Z
  else Raise "KeyError".

(** The cells of a 2-D array with their (row, column) positions. *)
Definition enumerate {A : Type} (l : list A) : list (nat * A) :=
  combine (seq 0 (length l)) l.

Definition cells {A : Type} (g : list (list A)) : list ((nat * nat) * A) :=
  flat_map (fun ir => map (fun jc => ((fst ir, fst jc), snd jc))
                          (enumerate (snd ir)))
           (enumerate g).

Definition sq_dist (p q : nat * nat) : Z :=
  let dr := (Z.of_nat (fst p) - Z.of_nat (fst q))%Z in
  let dc := (Z.of_nat (snd p) - Z.of_nat (snd q))%Z in
  (dr * dr + dc * dc)%Z.

(** The least squared distance from [p] to a position of [bg]. *)
Definition min_sq_dist (p : nat * nat) (bg : list (nat * nat)) : option Z :=
  match bg with
  | [] => None
  | q :: bg' => Some (fold_left (fun m q' => Z.min m (sq_dist p q')) bg'
                                (sq_dist p q))
  end.

(** The positions of the entries that pass a test. *)
Definition positions (g : list (list Z)) (keep : Z -> bool) : list (nat * nat) :=
  map fst (filter (fun pc => keep (snd pc)) (cells g)).

(** The positions of the zero entries: the background. *)
Definition background (input : list (list Z)) : list (nat * nat) :=
  positions input (fun v => Z.eqb v 0).

Definition DBL_MAX : R := IZR (2 ^ 1024 - 2 ^ 971).

(** [distance_transform_bf(input, metric='euclidean')] of scipy.ndimage:
    every non-zero entry becomes its Euclidean distance to the nearest zero
    entry, every zero entry stays zero.  Without any zero entry the search
    for the minimum keeps its start value, the largest double. *)
Definition bf_distance (bg : list (nat * nat)) (p : nat * nat) (v : Z)
  : float64 :=
  if Z.eqb v 0 then Fin 0
  else match min_sq_dist p bg with
       | Some d => Fin (sqrt (IZR d))
       | None => Fin (sqrt DBL_MAX)
       end.

Definition distance_transform_bf (input : list (list Z)) : list (list float64) :=
  let bg := background input in
  map (fun ir => map (fun jc => bf_distance bg (fst ir, fst jc) (snd jc))
                     (enumerate (snd ir)))
      (enumerate input).

(** [(class_grid == idx).astype(np.int32)]. *)
Definition indicator (class_grid : list (list Z)) (idx : Z) : list (list Z) :=
  map (map (fun v => if Z.eqb v idx then 1%Z else 0%Z)) class_grid.

(** [1 - grid]. *)
Definition complement (grid : list (list Z)) : list (list Z) :=
  map (map (fun v => (1 - v)%Z)) grid.

(** [a[class_grid == idx] = v]. *)
Definition mask_assign (a : list (list float64)) (class_grid : list (list Z))
  (idx : Z) (v : float64) : list (list float64) :=
  map2 (map2 (fun x c => if Z.eqb c idx then v else x)) a class_grid.

Definition other_idx (idx1 idx2 : Z) : list Z :=
  filter (fun i => negb (existsb (Z.eqb i) [idx1; idx2])) [0%Z; 1%Z; 2%Z].

(** The array [sedt3] handed to gudhi (lines 134-150). *)
Definition sedt3 (class_map : list (list Z)) (idx1 idx2 : Z)
  : list (list float64) :=
  let class_grid := class_map in
  let grid_type1 := indicator class_grid idx1 in
  let grid_type2 := indicator class_grid idx2 in
  let dist_type1 := distance_transform_bf grid_type1 in
  let dist_type2 := distance_transform_bf (complement grid_type2) in
  let sedt3 := map2 (map2 fsub) dist_type2 dist_type1 in
  fold_left (fun a idx => mask_assign a class_grid idx PInf)
            (other_idx idx1 idx2) sedt3.

(** [a.shape] of a 2-D array. *)
Definition shape {A : Type} (a : list (list A)) : list nat :=
  [length a; length (hd [] a)].

Definition compute_cubical_complex_pair (class_map : list (list Z))
  (cell_type1 cell_type2 : string) : eprog (CubicalComplex_obj * diagram) :=
  (idx1 <- lift (type_to_idx cell_type1) ;;
   idx2 <- lift (type_to_idx cell_type2) ;;
   let sedt3 := sedt3 class_map idx1 idx2 in
   let dims := shape sedt3 in
   let flat_vals := concat sedt3 in
   cubical_complex <- call (CubicalComplex dims flat_vals) (fun x => x) ;;
   diag <- call (cubical_persistence cubical_complex) (fun x => x) ;;
   eret (cubical_complex, diag))%prog.

(** *** compute_witness_complex_pair *)

(** [nb_points] before the two clamps (lines 190-193). *)
Definition nb_points_rule (len1 len2 : nat) : nat :=
  if Nat.max len1 len2 <=? 2000 then Nat.max len1 len2 / 10 else 200.

(** [nb_points] as passed to the sampler (lines 196-197). *)
Definition nb_points_of (len1 len2 : nat) : nat :=
  let nb_points := nb_points_rule len1 len2 in
  let nb_points := Nat.min (Nat.min nb_points len1) len2 in
  Nat.max nb_points 3.

Definition compute_witness_complex_pair (points : list point)
  (labels : list string) (cell_type1 cell_type2 : string)
  : eprog (option EuclideanWitnessComplex_obj * option SimplexTree_obj
           * diagram) :=
  (points_type1 <- lift (select_rows points (label_mask labels cell_type1)) ;;
   points_type2 <- lift (select_rows points (label_mask labels cell_type2)) ;;
   if (length points_type1 <? 3) || (length points_type2 <? 3) then
     eret (None, None, [])
   else
     let nb_points := nb_points_of (length points_type1) (length points_type2) in
     let max_alpha_square := (1 / 10)%R in
     let limit_dimension := 2 in
     landmarks <- call (pick_n_random_points points_type1 nb_points) (fun x => x) ;;
     witnesses <- call (pick_n_random_points points_type2 nb_points) (fun x => x) ;;
     witness_complex <- call (EuclideanWitnessComplex witnesses landmarks)
                             (fun x => x) ;;
     simplex_tree <- call (create_simplex_tree witness_complex max_alpha_square
                                               limit_dimension) (fun x => x) ;;
     diag <- call (simplex_tree_persistence simplex_tree) (fun x => x) ;;
     eret (Some witness_complex, Some simplex_tree, diag))%prog.

(** *** extract_persistence_stats *)

Definition nan_stats (prefix : string) : dict :=
  dict_of
    [ (prefix ++ "_birth_min", PyFloat NaN);
      (prefix ++ "_birth_max", PyFloat NaN);
      (prefix ++ "_birth_mean", PyFloat NaN);
      (prefix ++ "_birth_std", PyFloat NaN);
      (prefix ++ "_death_min", PyFloat NaN);
      (prefix ++ "_death_max", PyFloat NaN);
      (prefix ++ "_death_mean", PyFloat NaN);
      (prefix ++ "_death_std", PyFloat NaN);
      (prefix ++ "_lifetime_min", PyFloat NaN);
      (prefix ++ "_lifetime_max", PyFloat NaN);
      (prefix ++ "_lifetime_mean", PyFloat NaN);
      (prefix ++ "_lifetime_std", PyFloat NaN);
      (prefix ++ "_n_features", PyInt 0) ].

(** One turn of the loop over the diagram (lines 257-268), on the lists
    [births] and [deaths]. *)
Definition stats_step (exclude_infinite : bool)
  (max_finite_value : option float64)
  (acc : list float64 * list float64) (interval : interval)
  : list float64 * list float64 :=
  let '(births, deaths) := acc in
  let '(dim, (birth, death)) := interval in
  if np_isinf death then
    if exclude_infinite then (births, deaths)
    else match max_finite_value with
         | Some v => (births ++ [birth], deaths ++ [v])%list
         | None => (births ++ [birth], deaths ++ [death])%list
         end
  else (births ++ [birth], deaths ++ [death])%list.

Definition extract_persistence_stats (diag : diagram) (prefix : string)
  (exclude_infinite : bool) (max_finite_value : option float64) : dict :=
  match diag with
  | [] => nan_stats prefix
  | _ =>
      let '(births, deaths) :=
        fold_left (stats_step exclude_infinite max_finite_value) diag ([], []) in
      if 0 <? length births then
        let lifetimes := map2 fsub deaths births in
        dict_of
          [ (prefix ++ "_birth_min", PyFloat (np_min births));
            (prefix ++ "_birth_max", PyFloat (np_max births));
            (prefix ++ "_birth_mean", PyFloat (np_mean births));
            (prefix ++ "_birth_std", PyFloat (np_std births));
            (prefix ++ "_death_min", PyFloat (np_min deaths));
            (prefix ++ "_death_max", PyFloat (np_max deaths));
            (prefix ++ "_death_mean", PyFloat (np_mean deaths));
            (prefix ++ "_death_std", PyFloat (np_std deaths));
            (prefix ++ "_lifetime_min", PyFloat (np_min lifetimes));
            (prefix ++ "_lifetime_max", PyFloat (np_max lifetimes));
            (prefix ++ "_lifetime_mean", PyFloat (np_mean lifetimes));
            (prefix ++ "_lifetime_std", PyFloat (np_std lifetimes));
            (prefix ++ "_n_features", PyInt (Z.of_nat (length births))) ]
      else nan_stats prefix
  end.

(** *** compute_all_features *)

(** A [for] loop that updates one variable and may raise. *)
Fixpoint efold {A B : Type} (f : B -> A -> eprog B) (l : list A) (b : B)
  : eprog B :=
  match l with
  | [] => eret b
  | a :: l' => (b' <- f b a ;; efold f l' b')%prog
  end.

(** The first [try] statement of the loop body (lines 343-359), as a
    function of [all_stats]. *)
Definition cubical_features (class_map : list (list Z))
  (cell_type1 cell_type2 : string) (exclude_infinite : bool) (all_stats : dict)
  : eprog dict :=
  let pair_name := cell_type1 ++ "_" ++ cell_type2 in
  try_except
    ('(_, cubical_diag) <-
        compute_cubical_complex_pair class_map cell_type1 cell_type2 ;;
     let cubical_stats :=
       extract_persistence_stats cubical_diag ("cubical_" ++ pair_name)
                                 exclude_infinite None in
     eret (dict_update all_stats cubical_stats))%prog
    (fun e =>
       (call (print ("Error computing cubical complex for " ++ pair_name
                     ++ ": " ++ e)) (fun x => Ok x) ;;;
        let cubical_stats :=
          extract_persistence_stats [] ("cubical_" ++ pair_name)
                                    exclude_infinite None in
        eret (dict_update all_stats cubical_stats))%prog).

(** The second [try] statement of the loop body (lines 362-378). *)
Definition witness_features (points : list point) (labels : list string)
  (cell_type1 cell_type2 : string) (exclude_infinite : bool) (all_stats : dict)
  : eprog dict :=
  let pair_name := cell_type1 ++ "_" ++ cell_type2 in
  try_except
    ('(_, _, witness_diag) <-
        compute_witness_complex_pair points labels cell_type1 cell_type2 ;;
     let witness_stats :=
       extract_persistence_stats witness_diag ("witness_" ++ pair_name)
                                 exclude_infinite None in
     eret (dict_update all_stats witness_stats))%prog
    (fun e =>
       (call (print ("Error computing witness complex for " ++ pair_name
                     ++ ": " ++ e)) (fun x => Ok x) ;;;
        let witness_stats :=
          extract_persistence_stats [] ("witness_" ++ pair_name)
                                    exclude_infinite None in
        eret (dict_update all_stats witness_stats))%prog).

(** The body of the loop over [cell_pairs] (lines 339-378). *)
Definition pair_features (class_map : list (list Z)) (points : list point)
  (labels : list string) (exclude_infinite : bool) (all_stats : dict)
  (pair : string * string) : eprog dict :=
  let '(cell_type1, cell_type2) := pair in
  (all_stats <- cubical_features class_map cell_type1 cell_type2
                                 exclude_infinite all_stats ;;
   witness_features points labels cell_type1 cell_type2
                    exclude_infinite all_stats)%prog.

(** The result is the one row of [pd.DataFrame([all_stats])]. *)
Definition compute_all_features (img_dir : string) (exclude_infinite : bool)
  : eprog dict :=
  ('(points, labels) <- read_img img_dir ;;
   class_map <- compute_kde points labels ;;
   all_stats <- efold (pair_features class_map points labels exclude_infinite)
                      cell_pairs [] ;;
   eret all_stats)%prog.

(** *** compute_features_by_dimension *)

(** [[(d, interval) for d, interval in diag if d == dim]]. *)
Definition filter_dim (diag : diagram) (dim : Z) : diagram :=
  filter (fun di => Z.eqb (fst di) dim) diag.

(** The loop over [dimensions] inside a [try] or an [except] block. *)
Definition stats_by_dimension (diag_of : Z -> diagram) (prefix : string)
  (dimensions : list Z) (exclude_infinite : bool) (all_stats : dict) : dict :=
  fold_left
    (fun all_stats dim =>
       let dim_stats :=
         extract_persistence_stats (diag_of dim)
                                   (prefix ++ "_h" ++ str_of_int dim)
                                   exclude_infinite None in
       dict_update all_stats dim_stats)
    dimensions all_stats.

Definition cubical_features_by_dimension (class_map : list (list Z))
  (cell_type1 cell_type2 : string) (dimensions : list Z)
  (exclude_infinite : bool) (all_stats : dict) : eprog dict :=
  let pair_name := cell_type1 ++ "_" ++ cell_type2 in
  try_except
    ('(_, cubical_diag) <-
        compute_cubical_complex_pair class_map cell_type1 cell_type2 ;;
     eret (stats_by_dimension (filter_dim cubical_diag)
                              ("cubical_" ++ pair_name)
                              dimensions exclude_infinite all_stats))%prog
    (fun e =>
       (call (print ("Error computing cubical complex for " ++ pair_name
                     ++ ": " ++ e)) (fun x => Ok x) ;;;
        eret (stats_by_dimension (fun _ => []) ("cubical_" ++ pair_name)
                                 dimensions exclude_infinite all_stats))%prog).

Definition witness_features_by_dimension (points : list point)
  (labels : list string) (cell_type1 cell_type2 : string)
  (dimensions : list Z) (exclude_infinite : bool) (all_stats : dict)
  : eprog dict :=
  let pair_name := cell_type1 ++ "_" ++ cell_type2 in
  try_except
    ('(_, _, witness_diag) <-
        compute_witness_complex_pair points labels cell_type1 cell_type2 ;;
     eret (stats_by_dimension (filter_dim witness_diag)
                              ("witness_" ++ pair_name)
                              dimensions exclude_infinite all_stats))%prog
    (fun e =>
       (call (print ("Error computing witness complex for " ++ pair_name
                     ++ ": " ++ e)) (fun x => Ok x) ;;;
        eret (stats_by_dimension (fun _ => []) ("witness_" ++ pair_name)
                                 dimensions exclude_infinite all_stats))%prog).

(** The body of the loop over [cell_pairs] (lines 415-462). *)
Definition pair_features_by_dimension (class_map : list (list Z))
  (points : list point) (labels : list string) (dimensions : list Z)
  (exclude_infinite : bool) (all_stats : dict) (pair : string * string)
  : eprog dict :=
  let '(cell_type1, cell_type2) := pair in
  (all_stats <- cubical_features_by_dimension class_map cell_type1 cell_type2
                                              dimensions exclude_infinite
                                              all_stats ;;
   witness_features_by_dimension points labels cell_type1 cell_type2
                                 dimensions exclude_infinite all_stats)%prog.

Definition compute_features_by_dimension (img_dir : string)
  (dimensions : list Z) (exclude_infinite : bool) : eprog dict :=
  ('(points, labels) <- read_img img_dir ;;
   class_map <- compute_kde points labels ;;
   all_stats <- efold (pair_features_by_dimension class_map points labels
                                                  dimensions exclude_infinite)
                      cell_pairs [] ;;
   eret all_stats)%prog.

(* ================================================================= *)
(** ** Notions used to state the properties *)

(** The entry of a 2-D array at a (row, column) position. *)
Definition cell_at {A : Type} (a : list (list A)) (p : nat * nat) : option A :=
  match nth_error a (fst p) with
  | Some row => nth_error row (snd p)
  | None => None
  end.

Definition euclidean (p q : nat * nat) : R := sqrt (IZR (sq_dist p q)).

(** [d] is the Euclidean distance from [p] to the nearest cell of [g] whose
    assigned type satisfies [target]. *)
Definition nearest_distance (g : list (list Z)) (target : Z -> Prop)
  (p : nat * nat) (d : R) : Prop :=
  (exists q c, cell_at g q = Some c /\ target c /\ d = euclidean p q) /\
  (forall q c, cell_at g q = Some c -> target c -> (d <= euclidean p q)%R).

(** The signed field in the words of the specification: the distance to
    the nearest [idx2] cell minus the distance to the nearest [idx1] cell. *)
Definition spec_distance_to_type (g : list (list Z)) (idx : Z) (p : nat * nat)
  : option R :=
  option_map (fun d => sqrt (IZR d))
             (min_sq_dist p (positions g (Z.eqb idx))).

Definition spec_signed_field (g : list (list Z)) (idx1 idx2 : Z)
  (p : nat * nat) : option float64 :=
  match spec_distance_to_type g idx2 p, spec_distance_to_type g idx1 p with
  | Some d2, Some d1 => Some (Fin (d2 - d1))
  | _, _ => None
  end.

(** A class map of the pipeline's resolution: immune on the left half,
    tumor on the right half. *)
Definition half_grid : list (list Z) :=
  repeat (repeat 0%Z 50 ++ repeat 2%Z 50)%list 100.

(** A DensityGrid: every cell holds one of the three type indices. *)
Definition density_grid (g : list (list Z)) : Prop :=
  forall p c, cell_at g p = Some c -> (0 <= c <= 2)%Z.

(** A library that answers every call without failing (except, on demand,
    the cubical persistence), for the file [file]. *)
Definition sample_library (file : list (list field)) (cubical_fails : bool)
  : handler unit :=
  fun q s =>
    match q return answer q * unit with
    | csv_records _ => (Ok file, s)
    | gaussian_kde pts bw => (Ok (mkKde pts bw), s)
    | kde_evaluate kde grid => (Ok (map (fun _ => Fin 1) grid), s)
    | CubicalComplex dims vals => (Ok (mkCubical dims vals), s)
    | cubical_persistence c =>
        (if cubical_fails then Raise "RuntimeError"
         else Ok [(0%Z, (Fin 0, PInf)); (1%Z, (Fin 0, Fin 1))], s)
    | pick_n_random_points pts nb => (Ok (firstn nb pts), s)
    | EuclideanWitnessComplex wit lm => (Ok (mkWitness wit lm), s)
    | create_simplex_tree w a d => (Ok (mkSimplexTree w a d), s)
    | simplex_tree_persistence t => (Ok [(0%Z, (Fin 0, Fin (1 / 10)))], s)
    | print _ => (tt, s)
    end.

Definition num (r : R) (text : string) : field :=
  {| as_float64 := Some (Fin r); as_str := text |}.

Definition txt (text : string) : field :=
  {| as_float64 := None; as_str := text |}.

(** A file of two records, neither of them a header. *)
Definition two_cells_file : list (list field) :=
  [ [num (1 / 10) "0.1"; num (2 / 10) "0.2"; txt "tumor"];
    [num (3 / 10) "0.3"; num (4 / 10) "0.4"; txt "immune"] ].

(** The thirteen statistics of a record, and the record that holds no data:
    the twelve numeric fields missing, the count zero. *)
Definition statistics : list string :=
  [ "birth_min"; "birth_max"; "birth_mean"; "birth_std";
    "death_min"; "death_max"; "death_mean"; "death_std";
    "lifetime_min"; "lifetime_max"; "lifetime_mean"; "lifetime_std";
    "n_features" ].

Definition missing_value (statistic : string) : pyval :=
  if String.eqb statistic "n_features" then PyInt 0 else PyFloat NaN.

Definition all_missing (prefix : string) : dict :=
  map (fun st => (prefix ++ "_" ++ st, missing_value st)) statistics.

(** The keys of a statistics record, whatever its values. *)
Definition stat_keys (prefix : string) : list string :=
  map (fun st => prefix ++ "_" ++ st) statistics.

(** The field names of the output record,
    [{complexType}_{type1}_{type2}_{statistic}]. *)
Definition field_name (complexType type1 type2 statistic : string) : string :=
  complexType ++ "_" ++ type1 ++ "_" ++ type2 ++ "_" ++ statistic.

Definition feature_keys : list string :=
  flat_map (fun pair =>
              flat_map (fun complexType =>
                          map (field_name complexType (fst pair) (snd pair))
                              statistics)
                       ["cubical"; "witness"])
           cell_pairs.

(** The policy for infinite deaths in the words of the specification:
    what an interval contributes to the statistics, if anything. *)
Definition policy (exclude_infinite : bool) (max_finite_value : option float64)
  (iv : interval) : option (float64 * float64) :=
  let '(dim, (birth, death)) := iv in
  if np_isinf death then
    if exclude_infinite then None
    else match max_finite_value with
         | Some v => Some (birth, v)
         | None => Some (birth, death)
         end
  else Some (birth, death).

Definition retained (exclude_infinite : bool)
  (max_finite_value : option float64) (diag : diagram)
  : list (float64 * float64) :=
  flat_map (fun iv => match policy exclude_infinite max_finite_value iv with
                      | Some bd => [bd]
                      | None => []
                      end) diag.

(** The record of a non-empty selection of (birth, death) pairs. *)
Definition summary (prefix : string) (births deaths : list float64) : dict :=
  let lifetimes := map2 fsub deaths births in
  [ (prefix ++ "_birth_min", PyFloat (np_min births));
    (prefix ++ "_birth_max", PyFloat (np_max births));
    (prefix ++ "_birth_mean", PyFloat (np_mean births));
    (prefix ++ "_birth_std", PyFloat (np_std births));
    (prefix ++ "_death_min", PyFloat (np_min deaths));
    (prefix ++ "_death_max", PyFloat (np_max deaths));
    (prefix ++ "_death_mean", PyFloat (np_mean deaths));
    (prefix ++ "_death_std", PyFloat (np_std deaths));
    (prefix ++ "_lifetime_min", PyFloat (np_min lifetimes));
    (prefix ++ "_lifetime_max", PyFloat (np_max lifetimes));
    (prefix ++ "_lifetime_mean", PyFloat (np_mean lifetimes));
    (prefix ++ "_lifetime_std", PyFloat (np_std lifetimes));
    (prefix ++ "_n_features", PyInt (Z.of_nat (length births))) ].

(** Three tumor points followed by three immune points. *)
Definition six_points : list point :=
  [ (Fin 0, Fin 0); (Fin 0, Fin 1); (Fin 1, Fin 0);
    (Fin 5, Fin 5); (Fin 5, Fin 6); (Fin 6, Fin 5) ].

Definition six_labels : list string :=
  [ "tumor"; "tumor"; "tumor"; "immune"; "immune"; "immune" ].

(** A record of three fields whose first two are numbers. *)
Definition numeric_row (row : list field) : bool :=
  match as_float64 (nth 0 row missing_field),
        as_float64 (nth 1 row missing_field) with
  | Some _, Some _ => true
  | _, _ => false
  end.

Definition cell_record (row : list field) : bool :=
  (length row =? 3) && numeric_row row.

Definition density_gridb (g : list (list Z)) : bool :=
  forallb (forallb (fun c => (0 <=? c)%Z && (c <=? 2)%Z)) g.

(** A small class map that holds all three types. *)
Definition three_type_grid : list (list Z) := [[0; 1]; [2; 2]]%Z.

(** What a kernel density estimate can be: never a negative number. *)
Definition not_negative (x : float64) : Prop :=
  match x with
  | Fin r => (0 <= r)%R
  | NInf => False
  | _ => True
  end.

(** The libraries whose density estimates are never negative. *)
Definition kde_not_negative : forall q, answer q -> Prop :=
  fun q =>
    match q return answer q -> Prop with
    | kde_evaluate _ _ =>
        fun x => match x with
                 | Ok vals => Forall not_negative vals
                 | Raise _ => True
                 end
    | _ => fun _ => True
    end.

(** The keys of a dictionary after an assignment and after an update. *)
Definition keys_set (ks : list string) (k : string) : list string :=
  if existsb (fun k' => String.eqb k' k) ks then ks else (ks ++ [k])%list.

Definition keys_update (ks other : list string) : list string :=
  fold_left keys_set other ks.

(** The last character of a string. *)
Fixpoint last_char (s : string) : option ascii :=
  match s with
  | EmptyString => None
  | String c EmptyString => Some c
  | String _ s' => last_char s'
  end.

(** The missing value of a field, read off the last character of its
    name: only [n_features] ends in an s. *)
Definition missing_of_key (k : string) : pyval :=
  match last_char k with
  | Some "s"%char => PyInt 0
  | _ => PyFloat NaN
  end.


(** The keys that one turn of the loop of [compute_all_features] adds. *)
Definition pair_keys (ks : list string) (pair : string * string)
  : list string :=
  let pair_name := fst pair ++ "_" ++ snd pair in
  keys_update (keys_update ks (stat_keys ("cubical_" ++ pair_name)))
              (stat_keys ("witness_" ++ pair_name)).


(** The keys written by the loop over the dimensions. *)
Definition dimension_keys (prefix : string) (dims : list Z) : list string :=
  flat_map (fun dim => stat_keys (prefix ++ "_h" ++ str_of_int dim)) dims.

(** The two prefixes under which a pair writes differ from the start of a
    key. *)
Definition other_prefixes (pair : string * string) (k : string) : Prop :=
  String.prefix ("cubical_" ++ fst pair ++ "_" ++ snd pair) k = false /\
  String.prefix ("witness_" ++ fst pair ++ "_" ++ snd pair) k = false.

(** [all_requests P p]: every external call that [p] can make, whatever
    the answers, satisfies [P]. *)
Fixpoint all_requests {A : Type} (P : request -> Prop) (p : prog A) : Prop :=
  match p with
  | Ret _ => True
  | Call q k => P q /\ forall x, all_requests P (k x)
  end.

(** The labels of the vocabulary, and the rows of a point set that carry
    one. *)
Definition in_vocabulary (label : string) : bool :=
  existsb (fun l => String.eqb label l) ordered_celltype.

Definition known_rows (points : list point) (labels : list string)
  : list (point * string) :=
  filter (fun pl => in_vocabulary (snd pl)) (combine points labels).

(** A file whose second record has a coordinate that is not a number. *)
Definition bad_coordinate_file : list (list field) :=
  [ [txt "x"; txt "y"; txt "type"];
    [num (1 / 10) "0.1"; num (2 / 10) "0.2"; txt "tumor"];
    [txt "abc"; num (4 / 10) "0.4"; txt "immune"] ].

(** A file of two columns. *)
Definition two_column_file : list (list field) :=
  [ [txt "x"; txt "y"];
    [num (1 / 10) "0.1"; num (2 / 10) "0.2"] ].

(** Labels that differ from the vocabulary in case or spelling. *)
Definition mixed_labels : list string :=
  [ "tumor"; "Tumor"; "tumor"; "immune"; "other"; "immune" ].

(** The libraries whose kernel density estimator refuses every data set
    (as scipy does for a data set with a singular covariance matrix, for
    instance a single point). *)
Definition estimator_fails : forall q, answer q -> Prop :=
  fun q =>
    match q return answer q -> Prop with
    | gaussian_kde _ _ => fun x => exists e, x = Raise e
    | _ => fun _ => True
    end.

(** A library whose estimator always raises. *)
Definition singular_library (file : list (list field)) : handler unit :=
  fun q s =>
    match q return answer q * unit with
    | gaussian_kde pts bw => (Raise "LinAlgError: singular matrix", s)
    | q' => sample_library file false q' s
    end.

(** A class map that holds only the two types of the pair (tumor,
    immune). *)
Definition two_type_grid : list (list Z) := [[0; 2; 2]; [0; 0; 2]]%Z.

(** What the pipeline on the file [img_dir] asks of its libraries: the
    requests it may make and the arguments they may carry. *)
Definition library_contract (img_dir : string) (q : request) : Prop :=
  match q with
  | csv_records path => path = img_dir
  | gaussian_kde pts bw => pts <> [] /\ bw = (1 / 2)%R
  | kde_evaluate _ grid => grid = grid_coords
  | CubicalComplex dims cells =>
      dims = [grid_res; grid_res] /\
      length cells = grid_res * grid_res /\
      Forall (fun v => v = PInf \/ exists r, v = Fin r /\ (0 <= r)%R) cells
  | pick_n_random_points pts nb_points =>
      3 <= nb_points <= 200 /\ nb_points <= length pts
  | create_simplex_tree _ alpha2 dim => alpha2 = (1 / 10)%R /\ dim = 2
  | EuclideanWitnessComplex _ _ | cubical_persistence _
  | simplex_tree_persistence _ | print _ => True
  end.

(** A value that is a number or [+inf]: neither [nan] nor [-inf]. *)
Definition number_or_pinf (x : float64) : Prop :=
  match x with
  | Fin _ | PInf => True
  | NaN | NInf => False
  end.

Definition is_number (x : float64) : Prop :=
  match x with
  | Fin _ => True
  | _ => False
  end.

(** A diagram with one class that never dies and one that does. *)
Definition essential_diagram : diagram :=
  [ (0%Z, (Fin 0, PInf)); (1%Z, (Fin (1 / 4), Fin (3 / 4))) ].

(** A string without an underscore, as the decimal form of an [int] is. *)
Fixpoint no_underscore (s : string) : bool :=
  match s with
  | EmptyString => true
  | String c s' => negb (Ascii.eqb c "_") && no_underscore s'
  end.

(** The name of a statistic of a pair in one homology dimension,
    [{complexType}_{type1}_{type2}_h{dim}_{statistic}]. *)
Definition dimension_key (complexType type1 type2 : string) (dim : Z)
  (statistic : string) : string :=
  complexType ++ "_" ++ type1 ++ "_" ++ type2 ++ "_h" ++ str_of_int dim
              ++ "_" ++ statistic.

(** A diagram with classes in dimensions 0 and 1. *)
Definition mixed_diagram : diagram :=
  [ (0%Z, (Fin 0, PInf)); (1%Z, (Fin 0, Fin 1)) ].

(** The count a record holds under a key, 0 when it holds none. *)
Definition count_of (d : dict) (k : string) : Z :=
  match dict_get d k with
  | Some (PyInt n) => n
  | _ => 0%Z
  end.

(** Three cells of each type, no three of them on a line. *)
Definition nine_points : list point :=
  [ (Fin (1 / 10), Fin (1 / 10)); (Fin (1 / 10), Fin (2 / 10));
    (Fin (2 / 10), Fin (1 / 10));
    (Fin (5 / 10), Fin (5 / 10)); (Fin (5 / 10), Fin (6 / 10));
    (Fin (6 / 10), Fin (5 / 10));
    (Fin (8 / 10), Fin (1 / 10)); (Fin (8 / 10), Fin (2 / 10));
    (Fin (9 / 10), Fin (1 / 10)) ].

Definition nine_labels : list string :=
  [ "tumor"; "tumor"; "tumor"; "immune"; "immune"; "immune";
    "stromal"; "stromal"; "stromal" ].

(** The file of those cells, under a header. *)
Definition nine_cells_file : list (list field) :=
  [ [txt "x"; txt "y"; txt "type"];
    [num (1 / 10) "0.1"; num (1 / 10) "0.1"; txt "tumor"];
    [num (1 / 10) "0.1"; num (2 / 10) "0.2"; txt "tumor"];
    [num (2 / 10) "0.2"; num (1 / 10) "0.1"; txt "tumor"];
    [num (5 / 10) "0.5"; num (5 / 10) "0.5"; txt "immune"];
    [num (5 / 10) "0.5"; num (6 / 10) "0.6"; txt "immune"];
    [num (6 / 10) "0.6"; num (5 / 10) "0.5"; txt "immune"];
    [num (8 / 10) "0.8"; num (1 / 10) "0.1"; txt "stromal"];
    [num (8 / 10) "0.8"; num (2 / 10) "0.2"; txt "stromal"];
    [num (9 / 10) "0.9"; num (1 / 10) "0.1"; txt "stromal"] ].





(* ================================================================= *)
(** * Properties *)

(** ** Programs *)

Lemma run_bind {S A B : Type} (h : handler S) (p : prog A) (f : A -> prog B)
  (s : S) :
  run h (bind p f) s = let (a, s') := run h p s in run h (f a) s'.
Proof.
  revert s. induction p as [a | q k IH]; intros s; simpl.
  - reflexivity.
  - destruct (h q s) as [x s']. apply IH.
Qed.

Lemma run_ebind_ok {S A B : Type} (h : handler S) (p : eprog A)
  (f : A -> eprog B) (s s' : S) (a : A) :
  run h p s = (Ok a, s') ->
  run h (ebind p f) s = run h (f a) s'.
Proof.
  intros H. unfold ebind. rewrite run_bind, H. reflexivity.
Qed.

Lemma run_ebind_raise {S A B : Type} (h : handler S) (p : eprog A)
  (f : A -> eprog B) (s s' : S) (e : exn) :
  run h p s = (Raise e, s') ->
  run h (ebind p f) s = (Raise e, s').
Proof.
  intros H. unfold ebind. rewrite run_bind, H. reflexivity.
Qed.

Lemma post_mono {A : Type} (C : forall q, answer q -> Prop) (p : prog A)
  (Q Q' : A -> Prop) :
  (forall a, Q a -> Q' a) -> post C p Q -> post C p Q'.
Proof.
  intros HQ. induction p as [a | q k IH]; simpl.
  - apply HQ.
  - intros H x Hx. apply IH, H, Hx.
Qed.

Lemma post_bind {A B : Type} (C : forall q, answer q -> Prop) (p : prog A)
  (f : A -> prog B) (Q : B -> Prop) :
  post C p (fun a => post C (f a) Q) -> post C (bind p f) Q.
Proof.
  induction p as [a | q k IH]; simpl.
  - trivial.
  - intros H x Hx. apply IH, H, Hx.
Qed.

(** What holds of a program under every answer holds of each of its runs. *)
Lemma run_post {S A : Type} (h : handler S) (C : forall q, answer q -> Prop)
  (p : prog A) (Q : A -> Prop) (s : S) :
  obeys h C -> post C p Q -> Q (fst (run h p s)).
Proof.
  intros Hh. revert s. induction p as [a | q k IH]; intros s; simpl.
  - trivial.
  - intros H. specialize (Hh q s). destruct (h q s) as [x s'].
    apply IH, H, Hh.
Qed.

Lemma ebind_lift_ok {A B : Type} (a : A) (f : A -> eprog B) :
  ebind (lift (Ok a)) f = f a.
Proof. reflexivity. Qed.

Lemma ebind_lift_raise {A B : Type} (e : exn) (f : A -> eprog B) :
  ebind (lift (Raise e)) f = raise e.
Proof. reflexivity. Qed.

Lemma obeys_any {S : Type} (h : handler S) : obeys h any_answer.
Proof. intros q s. exact I. Qed.

(** ** Dictionaries *)

Lemma eqb_prepend (p a b : string) :
  String.eqb (p ++ a) (p ++ b) = String.eqb a b.
Proof.
  induction p as [| c p IH]; simpl.
  - reflexivity.
  - rewrite Ascii.eqb_refl. exact IH.
Qed.

Lemma dict_set_fresh (d : dict) (k : string) (v : pyval) :
  ~ In k (keys d) -> dict_set d k v = (d ++ [(k, v)])%list.
Proof.
  induction d as [| [k' v'] d IH]; simpl; intros Hk.
  - reflexivity.
  - destruct (String.eqb_spec k' k) as [E | _].
    + exfalso. apply Hk. left. exact E.
    + rewrite IH; [reflexivity |]. intros Hin. apply Hk. right. exact Hin.
Qed.

Lemma dict_update_fresh (items d : dict) :
  NoDup (keys (d ++ items)%list) -> dict_update d items = (d ++ items)%list.
Proof.
  unfold dict_update. revert d.
  induction items as [| [k v] items IH]; intros d Hnd; simpl.
  - rewrite app_nil_r. reflexivity.
  - assert (Hd : (d ++ (k, v) :: items = (d ++ [(k, v)]) ++ items)%list)
      by (rewrite <- app_assoc; reflexivity).
    rewrite Hd in Hnd. rewrite dict_set_fresh.
    + rewrite IH by exact Hnd. rewrite <- app_assoc. reflexivity.
    + unfold keys in *. rewrite !map_app in Hnd. simpl in Hnd.
      apply NoDup_app_remove_r in Hnd.
      apply NoDup_remove_2 in Hnd. rewrite app_nil_r in Hnd. exact Hnd.
Qed.

Lemma dict_of_distinct (items : dict) :
  NoDup (keys items) -> dict_of items = items.
Proof. intros H. unfold dict_of. apply (dict_update_fresh items []). exact H. Qed.

Lemma NoDup_prepend (p : string) (l : list string) :
  NoDup l -> NoDup (map (String.append p) l).
Proof.
  intros H. apply Finite.Injective_map_NoDup; [| exact H].
  intros a b E. apply String.eqb_eq. rewrite <- (eqb_prepend p).
  apply String.eqb_eq. exact E.
Qed.

Lemma NoDup_statistics : NoDup (map (String.append "_") statistics).
Proof.
  apply NoDup_prepend. unfold statistics.
  repeat (constructor; [simpl; intuition discriminate |]). constructor.
Qed.

Lemma NoDup_stat_keys (prefix : string) : NoDup (stat_keys prefix).
Proof.
  unfold stat_keys.
  rewrite <- (map_map (String.append "_") (String.append prefix)).
  apply NoDup_prepend, NoDup_statistics.
Qed.

Lemma nan_stats_all_missing (prefix : string) :
  nan_stats prefix = all_missing prefix.
Proof.
  unfold nan_stats. rewrite dict_of_distinct.
  - reflexivity.
  - exact (NoDup_stat_keys prefix).
Qed.

(** ** The witness complex of a pair *)

Lemma nb_points_rule_floor (len1 len2 : nat) :
  let m := Nat.max len1 len2 in
  (m <= 2000 ->
   10 * nb_points_rule len1 len2 <= m < 10 * nb_points_rule len1 len2 + 10) /\
  (2000 < m -> nb_points_rule len1 len2 = 200).
Proof.
  unfold nb_points_rule. cbv zeta. split; intros Hm.
  - destruct (Nat.leb_spec (Nat.max len1 len2) 2000) as [_ | Hgt]; [| lia].
    pose proof (Nat.div_mod_eq (Nat.max len1 len2) 10) as Hdiv.
    pose proof (Nat.mod_upper_bound (Nat.max len1 len2) 10) as Hmod.
    lia.
  - destruct (Nat.leb_spec (Nat.max len1 len2) 2000) as [Hle | _]; [lia |].
    reflexivity.
Qed.

Lemma nb_points_bounds (len1 len2 : nat) :
  3 <= len1 -> 3 <= len2 ->
  3 <= nb_points_of len1 len2 <= Nat.min len1 len2.
Proof. unfold nb_points_of. lia. Qed.

(** C3.  When both labelled subsets hold at least 3 points, the landmarks
    and the witnesses are sampled with one and the same size [nb_points]:
    the first external call asks for [nb_points] points of the first subset
    and the next one for [nb_points] points of the second.  Before the
    clamps the size is floor(m / 10) for m = max of the two subset sizes
    when m <= 2000, and 200 when m > 2000; the size passed on is the clamped
    one, at least 3 and at most the smaller subset size. *)
Theorem witness_sample_size
  (points : list point) (labels : list string) (cell_type1 cell_type2 : string)
  (points_type1 points_type2 : list point) :
  select_rows points (label_mask labels cell_type1) = Ok points_type1 ->
  select_rows points (label_mask labels cell_type2) = Ok points_type2 ->
  3 <= length points_type1 ->
  3 <= length points_type2 ->
  let m := Nat.max (length points_type1) (length points_type2) in
  let rule := nb_points_rule (length points_type1) (length points_type2) in
  let nb_points := nb_points_of (length points_type1) (length points_type2) in
  (exists rest,
      compute_witness_complex_pair points labels cell_type1 cell_type2 =
      (landmarks <- call (pick_n_random_points points_type1 nb_points)
                         (fun x => x) ;;
       witnesses <- call (pick_n_random_points points_type2 nb_points)
                         (fun x => x) ;;
       rest landmarks witnesses)%prog) /\
  (m <= 2000 -> 10 * rule <= m < 10 * rule + 10) /\
  (2000 < m -> rule = 200) /\
  nb_points = Nat.max (Nat.min (Nat.min rule (length points_type1))
                               (length points_type2)) 3 /\
  3 <= nb_points <= Nat.min (length points_type1) (length points_type2).
Proof.
  intros H1 H2 Hlen1 Hlen2 m rule nb_points.
  split; [| split; [| split; [| split]]].
  - unfold compute_witness_complex_pair. rewrite H1, H2. cbn [lift ebind bind].
    destruct (Nat.ltb_spec (length points_type1) 3) as [Hlt | _]; [lia |].
    destruct (Nat.ltb_spec (length points_type2) 3) as [Hlt | _]; [lia |].
    cbn [orb]. eexists. reflexivity.
  - apply (nb_points_rule_floor (length points_type1) (length points_type2)).
  - apply (nb_points_rule_floor (length points_type1) (length points_type2)).
  - reflexivity.
  - apply nb_points_bounds; assumption.
Qed.

Lemma witness_pair_insufficient
  (points : list point) (labels : list string) (cell_type1 cell_type2 : string)
  (points_type1 points_type2 : list point) :
  select_rows points (label_mask labels cell_type1) = Ok points_type1 ->
  select_rows points (label_mask labels cell_type2) = Ok points_type2 ->
  length points_type1 < 3 \/ length points_type2 < 3 ->
  compute_witness_complex_pair points labels cell_type1 cell_type2 =
    Ret (Ok (None, None, [])).
Proof.
  intros H1 H2 Hfew.
  unfold compute_witness_complex_pair. rewrite H1, H2. cbn [lift ebind bind].
  replace ((length points_type1 <? 3) || (length points_type2 <? 3))
    with true; [reflexivity |].
  symmetry. apply Bool.orb_true_iff.
  destruct Hfew as [H | H]; [left | right]; apply Nat.ltb_lt; exact H.
Qed.

(** C7.  When one of the two labelled subsets holds fewer than 3 points,
    the witness computation is the plain return of an empty diagram: it
    makes no external call, so nothing is sampled.  The statistics of an
    empty diagram are the all-missing record: the twelve birth, death and
    lifetime statistics are [nan] and [n_features] is 0. *)
Theorem insufficient_points_empty_diagram
  (points : list point) (labels : list string) (cell_type1 cell_type2 : string)
  (points_type1 points_type2 : list point)
  (prefix : string) (exclude_infinite : bool)
  (max_finite_value : option float64) :
  select_rows points (label_mask labels cell_type1) = Ok points_type1 ->
  select_rows points (label_mask labels cell_type2) = Ok points_type2 ->
  length points_type1 < 3 \/ length points_type2 < 3 ->
  compute_witness_complex_pair points labels cell_type1 cell_type2 =
    Ret (Ok (None, None, [])) /\
  extract_persistence_stats [] prefix exclude_infinite max_finite_value =
    [ (prefix ++ "_birth_min", PyFloat NaN);
      (prefix ++ "_birth_max", PyFloat NaN);
      (prefix ++ "_birth_mean", PyFloat NaN);
      (prefix ++ "_birth_std", PyFloat NaN);
      (prefix ++ "_death_min", PyFloat NaN);
      (prefix ++ "_death_max", PyFloat NaN);
      (prefix ++ "_death_mean", PyFloat NaN);
      (prefix ++ "_death_std", PyFloat NaN);
      (prefix ++ "_lifetime_min", PyFloat NaN);
      (prefix ++ "_lifetime_max", PyFloat NaN);
      (prefix ++ "_lifetime_mean", PyFloat NaN);
      (prefix ++ "_lifetime_std", PyFloat NaN);
      (prefix ++ "_n_features", PyInt 0) ].
Proof.
  intros H1 H2 Hfew. split.
  - exact (witness_pair_insufficient points labels cell_type1 cell_type2
             points_type1 points_type2 H1 H2 Hfew).
  - cbn [extract_persistence_stats]. rewrite nan_stats_all_missing. reflexivity.
Qed.

Lemma witness_sample_size_example :
  exists rest,
    compute_witness_complex_pair six_points six_labels "tumor" "immune" =
    (landmarks <- call (pick_n_random_points (firstn 3 six_points) 3)
                       (fun x => x) ;;
     witnesses <- call (pick_n_random_points (skipn 3 six_points) 3)
                       (fun x => x) ;;
     rest landmarks witnesses)%prog.
Proof.
  destruct (witness_sample_size six_points six_labels "tumor" "immune"
              (firstn 3 six_points) (skipn 3 six_points)) as [H _].
  - reflexivity.
  - reflexivity.
  - simpl. lia.
  - simpl. lia.
  - exact H.
Defined.

Lemma insufficient_points_example :
  compute_witness_complex_pair six_points six_labels "tumor" "stromal" =
    Ret (Ok (None, None, [])).
Proof.
  destruct (insufficient_points_empty_diagram
              six_points six_labels "tumor" "stromal"
              (firstn 3 six_points) [] "witness_tumor_stromal" true None)
    as [H _].
  - reflexivity.
  - reflexivity.
  - right. simpl. lia.
  - exact H.
Defined.

(** ** The statistics of a diagram *)

Lemma stats_step_policy (exclude_infinite : bool)
  (max_finite_value : option float64) (iv : interval)
  (births deaths : list float64) :
  stats_step exclude_infinite max_finite_value (births, deaths) iv =
  match policy exclude_infinite max_finite_value iv with
  | Some bd => ((births ++ [fst bd])%list, (deaths ++ [snd bd])%list)
  | None => (births, deaths)
  end.
Proof.
  destruct iv as [dim [birth death]]. unfold stats_step, policy.
  destruct (np_isinf death); [destruct exclude_infinite;
                              [| destruct max_finite_value] |]; reflexivity.
Qed.

Lemma stats_loop_retained (exclude_infinite : bool)
  (max_finite_value : option float64) (diag : diagram)
  (births deaths : list float64) :
  fold_left (stats_step exclude_infinite max_finite_value) diag (births, deaths)
  = ((births ++ map fst (retained exclude_infinite max_finite_value diag))%list,
     (deaths ++ map snd (retained exclude_infinite max_finite_value diag))%list).
Proof.
  revert births deaths.
  induction diag as [| iv diag IH]; intros births deaths.
  - simpl. rewrite !app_nil_r. reflexivity.
  - cbn [fold_left]. rewrite stats_step_policy.
    unfold retained at 1 2. cbn [flat_map].
    fold (retained exclude_infinite max_finite_value diag).
    destruct (policy exclude_infinite max_finite_value iv) as [bd |];
      rewrite IH; cbn [app map]; rewrite <- ?app_assoc; reflexivity.
Qed.

Lemma summary_keys (prefix : string) (births deaths : list float64) :
  keys (summary prefix births deaths) = stat_keys prefix.
Proof. reflexivity. Qed.

Lemma extract_persistence_stats_retained (diag : diagram) (prefix : string)
  (exclude_infinite : bool) (max_finite_value : option float64) :
  extract_persistence_stats diag prefix exclude_infinite max_finite_value =
  match retained exclude_infinite max_finite_value diag with
  | [] => all_missing prefix
  | kept => summary prefix (map fst kept) (map snd kept)
  end.
Proof.
  destruct diag as [| iv diag].
  - simpl. apply nan_stats_all_missing.
  - unfold extract_persistence_stats.
    rewrite stats_loop_retained. cbn [app].
    destruct (retained exclude_infinite max_finite_value (iv :: diag))
      as [| bd kept].
    + simpl. apply nan_stats_all_missing.
    + cbn [map length Nat.ltb Nat.leb].
      rewrite dict_of_distinct; [reflexivity |].
      exact (NoDup_stat_keys prefix).
Qed.

Lemma np_mean_single (r : R) : np_mean [Fin r] = Fin r.
Proof.
  unfold np_mean, np_sum. cbn [fold_left fadd length INR fdiv].
  destruct (Req_dec_T 1 0) as [E | _]; [lra |].
  f_equal. field.
Qed.

Lemma dict_get_prepend (prefix k k' : string) (v : pyval) (d : dict) :
  dict_get ((prefix ++ k', v) :: d) (prefix ++ k) =
  if String.eqb k' k then Some v else dict_get d (prefix ++ k).
Proof. cbn [dict_get]. rewrite eqb_prepend. reflexivity. Qed.

(** C4.  The loop of [extract_persistence_stats] keeps of every interval
    what the stated policy keeps: an interval with an infinite death is
    dropped when [exclude_infinite] is true; otherwise its death is replaced
    by [max_finite_value] when one is given and stays infinite when none is.
    The record is the all-missing one when nothing is kept and the summary
    of the kept births and deaths otherwise.  On the diagram
    [(0, (0.1, inf))]: with [exclude_infinite] the record is all-missing;
    without it and with [max_finite_value = 1.0], [birth_mean] is 0.1,
    [death_mean] is 1.0, [lifetime_mean] is 0.9 and [n_features] is 1. *)
Theorem infinite_death_policy (diag : diagram) (prefix : string)
  (exclude_infinite : bool) (max_finite_value : option float64) :
  let kept := retained exclude_infinite max_finite_value diag in
  fold_left (stats_step exclude_infinite max_finite_value) diag ([], [])
    = (map fst kept, map snd kept) /\
  extract_persistence_stats diag prefix exclude_infinite max_finite_value
    = match kept with
      | [] => all_missing prefix
      | _ => summary prefix (map fst kept) (map snd kept)
      end /\
  extract_persistence_stats [(0%Z, (Fin (1 / 10), PInf))] prefix true
                            max_finite_value
    = all_missing prefix /\
  let stats := extract_persistence_stats [(0%Z, (Fin (1 / 10), PInf))] prefix
                                         false (Some (Fin 1)) in
  dict_get stats (prefix ++ "_birth_mean") = Some (PyFloat (Fin (1 / 10))) /\
  dict_get stats (prefix ++ "_death_mean") = Some (PyFloat (Fin 1)) /\
  dict_get stats (prefix ++ "_lifetime_mean") = Some (PyFloat (Fin (9 / 10))) /\
  dict_get stats (prefix ++ "_n_features") = Some (PyInt 1).
Proof.
  intros kept. split; [| split; [| split]].
  - apply (stats_loop_retained exclude_infinite max_finite_value diag [] []).
  - subst kept. rewrite extract_persistence_stats_retained.
    destruct (retained exclude_infinite max_finite_value diag); reflexivity.
  - rewrite extract_persistence_stats_retained. reflexivity.
  - intros stats. subst stats. rewrite extract_persistence_stats_retained.
    cbn [retained flat_map policy np_isinf app map fst snd].
    unfold summary. cbn [map2].
    repeat split; rewrite !dict_get_prepend; cbn [String.eqb Ascii.eqb Bool.eqb];
      rewrite ?np_mean_single; try reflexivity.
    unfold fsub. cbn [fneg fadd]. rewrite np_mean_single.
    do 3 f_equal. lra.
Qed.

(** ** Reading the file *)

Lemma pad_row_full (n : nat) (row : list field) :
  length row = n -> pad_row n row = row.
Proof.
  intros H. unfold pad_row. rewrite H, Nat.sub_diag. apply app_nil_r.
Qed.

Lemma table_width_cells (header : list field) (data : list (list field)) :
  length header = 3 ->
  forallb (fun row => length row =? 3) data = true ->
  table_width header data = 3.
Proof.
  intros Hh H. destruct data as [| first data]; [exact Hh |].
  simpl in H. apply andb_prop in H. destruct H as [Hfirst _].
  apply Nat.eqb_eq in Hfirst. cbn [table_width]. rewrite Hh, Hfirst.
  reflexivity.
Qed.

Lemma cell_records_three (data : list (list field)) :
  forallb cell_record data = true ->
  forallb (fun row => length row =? 3) data = true.
Proof.
  intros H. apply forallb_forall. intros row Hin.
  rewrite forallb_forall in H. specialize (H row Hin).
  unfold cell_record in H. apply andb_prop in H. apply H.
Qed.

(** A file of records of three fields is read as it is. *)
Lemma run_pd_read_csv_cells {S : Type} (h : handler S) (s s' : S)
  (path : string) (header : list field) (data : list (list field)) :
  h (csv_records path) s = (Ok (header :: data), s') ->
  length header = 3 ->
  forallb (fun row => length row =? 3) data = true ->
  run h (pd_read_csv path) s
  = (Ok {| columns := map as_str header; rows := data |}, s').
Proof.
  intros Hfile Hh Hrows. unfold pd_read_csv, call. cbn [ebind bind run].
  rewrite Hfile. cbv zeta.
  rewrite (table_width_cells header data Hh Hrows), Hh.
  assert (Hfit : forallb (fun row => length row <=? 3) data = true).
  { apply forallb_forall. intros row Hin.
    rewrite forallb_forall in Hrows. specialize (Hrows row Hin).
    apply Nat.eqb_eq in Hrows. apply Nat.leb_le. lia. }
  assert (Hpad : map (fun row => skipn (3 - 3) (pad_row 3 row)) data = data).
  { clear - Hrows. induction data as [| row data IH]; [reflexivity |].
    simpl in Hrows. apply andb_prop in Hrows. destruct Hrows as [Hr Hd].
    apply Nat.eqb_eq in Hr. cbn [map Nat.sub skipn].
    rewrite pad_row_full by exact Hr.
    cbn [Nat.sub skipn] in IH. rewrite IH by exact Hd. reflexivity. }
  rewrite Hfit, Hpad. reflexivity.
Qed.

Lemma rmap_row_point (data : list (list field)) :
  forallb cell_record data = true ->
  exists points,
    rmap row_point data = Ok points /\
    length points = length data /\
    forall i row, nth_error data i = Some row ->
      exists x y,
        as_float64 (nth 0 row missing_field) = Some x /\
        as_float64 (nth 1 row missing_field) = Some y /\
        nth_error points i = Some (x, y).
Proof.
  induction data as [| row data IH]; simpl; intros H.
  - exists []. repeat split. intros [| i] row' Hi; discriminate.
  - apply andb_prop in H. destruct H as [Hrow Hdata].
    destruct (IH Hdata) as (points & Hpoints & Hlen & Hnth).
    unfold cell_record, numeric_row in Hrow.
    apply andb_prop in Hrow. destruct Hrow as [_ Hnum].
    unfold row_point at 1.
    destruct (as_float64 (nth 0 row missing_field)) as [x |] eqn:Ex;
      [| discriminate].
    destruct (as_float64 (nth 1 row missing_field)) as [y |] eqn:Ey;
      [| discriminate].
    cbn [rbind]. rewrite Hpoints. cbn [rbind].
    exists ((x, y) :: points). repeat split.
    + simpl. rewrite Hlen. reflexivity.
    + intros [| i] row' Hi; simpl in Hi.
      * injection Hi as <-. exists x, y. rewrite Ex, Ey. repeat split.
      * apply Hnth. exact Hi.
Qed.

(** C2, as the code has it.  [pd.read_csv] is called with its defaults, so
    the first record of the file is taken as the header and its names are
    then overwritten by [x], [y], [type].  For a file whose first record has
    three fields and whose other records are three fields with numeric
    first two, [read_img] returns one point and one label per record after
    the first: both arrays have the length of the file minus one, and the
    three columns are read by position. *)
Theorem read_img_after_header {S : Type} (h : handler S) (s s' : S)
  (path : string) (header : list field) (data : list (list field)) :
  h (csv_records path) s = (Ok (header :: data), s') ->
  length header = 3 ->
  forallb cell_record data = true ->
  exists points labels,
    run h (read_img path) s = (Ok (points, labels), s') /\
    length points = length (header :: data) - 1 /\
    length labels = length (header :: data) - 1 /\
    labels = map (fun row => as_str (nth 2 row missing_field)) data /\
    forall i row, nth_error data i = Some row ->
      exists x y,
        as_float64 (nth 0 row missing_field) = Some x /\
        as_float64 (nth 1 row missing_field) = Some y /\
        nth_error points i = Some (x, y).
Proof.
  intros Hfile Hheader Hdata.
  destruct (rmap_row_point data Hdata) as (points & Hpoints & Hlen & Hnth).
  exists points, (map (fun row => as_str (nth 2 row missing_field)) data).
  split; [| split; [| split; [| split]]].
  - unfold read_img.
    rewrite (run_ebind_ok _ _ _ _ _ _
               (run_pd_read_csv_cells h s s' path header data Hfile Hheader
                  (cell_records_three data Hdata))).
    unfold set_columns. cbn [columns rows length].
    rewrite length_map, Hheader. cbn [Nat.eqb].
    rewrite ebind_lift_ok. cbn [rows].
    rewrite Hpoints, ebind_lift_ok.
    reflexivity.
  - simpl. rewrite Nat.sub_0_r. exact Hlen.
  - simpl. rewrite Nat.sub_0_r. apply length_map.
  - reflexivity.
  - exact Hnth.
Qed.

Lemma read_img_after_header_example :
  exists points labels,
    run (sample_library two_cells_file false) (read_img "cells.csv") tt
      = (Ok (points, labels), tt) /\
    length points = 1 /\ length labels = 1.
Proof.
  destruct (read_img_after_header (sample_library two_cells_file false) tt tt
              "cells.csv"
              [num (1 / 10) "0.1"; num (2 / 10) "0.2"; txt "tumor"]
              [[num (3 / 10) "0.3"; num (4 / 10) "0.4"; txt "immune"]])
    as (points & labels & Hrun & Hp & Hl & _).
  - reflexivity.
  - reflexivity.
  - reflexivity.
  - exists points, labels. repeat split; assumption.
Defined.

Lemma sample_read_img (fails : bool) :
  run (sample_library two_cells_file fails) (read_img "cells.csv") tt
  = (Ok ([(Fin (3 / 10), Fin (4 / 10))], ["immune"]), tt).
Proof. reflexivity. Qed.

(** C2 as the specification words it fails: of a file of two records
    without a header, [read_img] returns one point and one label; the first
    record went to the header. *)
Lemma read_img_not_headerless :
  run (sample_library two_cells_file false) (read_img "cells.csv") tt
    = (Ok ([(Fin (3 / 10), Fin (4 / 10))], ["immune"]), tt) /\
  length two_cells_file = 2 /\
  length [(Fin (3 / 10), Fin (4 / 10))] <> length two_cells_file /\
  length ["immune"] <> length two_cells_file.
Proof.
  split; [exact (sample_read_img false) |].
  split; [reflexivity |]. split; simpl; discriminate.
Qed.

(** ** Positions in 2-D arrays *)

Lemma nth_error_combine_seq {A : Type} (l : list A) (k i : nat) :
  nth_error (combine (seq k (length l)) l) i =
  option_map (pair (k + i)) (nth_error l i).
Proof.
  revert k i. induction l as [| x l IH]; intros k i; simpl.
  - destruct i; reflexivity.
  - destruct i as [| i]; simpl.
    + rewrite Nat.add_0_r. reflexivity.
    + rewrite IH. f_equal.
      replace (S k + i) with (k + S i) by lia. reflexivity.
Qed.

Lemma nth_error_enumerate {A : Type} (l : list A) (i : nat) :
  nth_error (enumerate l) i = option_map (pair i) (nth_error l i).
Proof. unfold enumerate. apply (nth_error_combine_seq l 0 i). Qed.

Lemma in_enumerate {A : Type} (l : list A) (i : nat) (x : A) :
  In (i, x) (enumerate l) <-> nth_error l i = Some x.
Proof.
  split.
  - intros Hin. apply In_nth_error in Hin. destruct Hin as [j Hj].
    rewrite nth_error_enumerate in Hj.
    destruct (nth_error l j) as [y |] eqn:E; [| discriminate].
    simpl in Hj. injection Hj as <- <-. exact E.
  - intros H. apply (nth_error_In _ i).
    rewrite nth_error_enumerate, H. reflexivity.
Qed.

Lemma in_cells {A : Type} (g : list (list A)) (p : nat * nat) (v : A) :
  In (p, v) (cells g) <-> cell_at g p = Some v.
Proof.
  destruct p as [r c]. unfold cells, cell_at. cbn [fst snd].
  rewrite in_flat_map. split.
  - intros [[i row] [Hrow Hin]]. cbn [fst snd] in Hin.
    apply in_map_iff in Hin. destruct Hin as [[j x] [E Hj]].
    cbn [fst snd] in E. injection E as <- <- <-.
    apply in_enumerate in Hrow. apply in_enumerate in Hj.
    rewrite Hrow. exact Hj.
  - intros H. destruct (nth_error g r) as [row |] eqn:Er; [| discriminate].
    exists (r, row). split.
    + apply in_enumerate. exact Er.
    + cbn [fst snd]. apply in_map_iff. exists (c, v). split; [reflexivity |].
      apply in_enumerate. exact H.
Qed.

Lemma in_positions (g : list (list Z)) (keep : Z -> bool) (q : nat * nat) :
  In q (positions g keep) <->
  exists c, cell_at g q = Some c /\ keep c = true.
Proof.
  unfold positions. rewrite in_map_iff. split.
  - intros [[q' c] [E Hin]]. cbn [fst] in E. subst q'.
    apply filter_In in Hin. destruct Hin as [Hin Hkeep].
    exists c. split; [apply in_cells; exact Hin | exact Hkeep].
  - intros [c [Hc Hkeep]]. exists (q, c). split; [reflexivity |].
    apply filter_In. split; [apply in_cells; exact Hc | exact Hkeep].
Qed.

Lemma cell_at_map {A B : Type} (f : A -> B) (g : list (list A))
  (p : nat * nat) :
  cell_at (map (map f) g) p = option_map f (cell_at g p).
Proof.
  unfold cell_at. rewrite nth_error_map.
  destruct (nth_error g (fst p)) as [row |]; simpl; [| reflexivity].
  apply nth_error_map.
Qed.

Lemma nth_error_map2 {A B C : Type} (f : A -> B -> C) (l1 : list A)
  (l2 : list B) (i : nat) :
  nth_error (map2 f l1 l2) i =
  match nth_error l1 i, nth_error l2 i with
  | Some a, Some b => Some (f a b)
  | _, _ => None
  end.
Proof.
  revert l2 i. induction l1 as [| a l1 IH]; intros l2 i; simpl.
  - destruct i; reflexivity.
  - destruct l2 as [| b l2]; simpl.
    + destruct i as [| i]; simpl; [reflexivity |].
      destruct (nth_error l1 i); reflexivity.
    + destruct i as [| i]; simpl; [reflexivity | apply IH].
Qed.

Lemma cell_at_map2 {A B C : Type} (f : A -> B -> C) (a : list (list A))
  (b : list (list B)) (p : nat * nat) (x : A) (y : B) :
  cell_at a p = Some x -> cell_at b p = Some y ->
  cell_at (map2 (map2 f) a b) p = Some (f x y).
Proof.
  unfold cell_at. rewrite nth_error_map2. intros Ha Hb.
  destruct (nth_error a (fst p)) as [ra |]; [| discriminate].
  destruct (nth_error b (fst p)) as [rb |]; [| discriminate].
  rewrite nth_error_map2, Ha, Hb. reflexivity.
Qed.

Lemma cell_at_distance_transform_bf (input : list (list Z)) (p : nat * nat) :
  cell_at (distance_transform_bf input) p =
  option_map (bf_distance (background input) p) (cell_at input p).
Proof.
  destruct p as [r c]. unfold distance_transform_bf, cell_at. cbn [fst snd].
  rewrite nth_error_map, nth_error_enumerate.
  destruct (nth_error input r) as [row |]; simpl; [| reflexivity].
  rewrite nth_error_map, nth_error_enumerate.
  destruct (nth_error row c); reflexivity.
Qed.

Lemma cell_at_masks (a : list (list float64)) (g : list (list Z))
  (l : list Z) (p : nat * nat) (x : float64) (c : Z) :
  cell_at a p = Some x -> cell_at g p = Some c ->
  cell_at (fold_left (fun a idx => mask_assign a g idx PInf) l a) p =
  Some (if existsb (Z.eqb c) l then PInf else x).
Proof.
  revert a x. induction l as [| idx l IH]; intros a x Ha Hg; simpl.
  - exact Ha.
  - rewrite (IH _ (if Z.eqb c idx then PInf else x)).
    + destruct (Z.eqb c idx); simpl; [| reflexivity].
      destruct (existsb (Z.eqb c) l); reflexivity.
    + unfold mask_assign.
      apply (cell_at_map2 (fun x c => if Z.eqb c idx then PInf else x));
        assumption.
    + exact Hg.
Qed.

(** The value of [sedt3] at a cell, read off the code. *)
Lemma cell_at_sedt3 (class_map : list (list Z)) (idx1 idx2 : Z)
  (p : nat * nat) (c : Z) :
  cell_at class_map p = Some c ->
  cell_at (sedt3 class_map idx1 idx2) p =
  Some (if existsb (Z.eqb c) (other_idx idx1 idx2) then PInf
        else fsub
               (bf_distance
                  (background (complement (indicator class_map idx2))) p
                  (1 - (if Z.eqb c idx2 then 1 else 0))%Z)
               (bf_distance
                  (background (indicator class_map idx1)) p
                  (if Z.eqb c idx1 then 1 else 0)%Z)).
Proof.
  intros Hc. unfold sedt3.
  apply cell_at_masks; [| exact Hc].
  apply cell_at_map2.
  - rewrite cell_at_distance_transform_bf. unfold complement, indicator.
    rewrite !cell_at_map, Hc. reflexivity.
  - rewrite cell_at_distance_transform_bf. unfold indicator.
    rewrite cell_at_map, Hc. reflexivity.
Qed.

(** ** The signed field *)

Lemma in_background_indicator (g : list (list Z)) (idx : Z) (q : nat * nat) :
  In q (background (indicator g idx)) <->
  exists c, cell_at g q = Some c /\ c <> idx.
Proof.
  unfold background. rewrite in_positions. unfold indicator.
  split.
  - intros [v [Hv Hz]]. rewrite cell_at_map in Hv.
    destruct (cell_at g q) as [c |]; [| discriminate].
    exists c. split; [reflexivity |]. simpl in Hv. injection Hv as <-.
    destruct (Z.eqb_spec c idx); [discriminate | assumption].
  - intros [c [Hc Hne]]. exists 0%Z. rewrite cell_at_map, Hc. simpl.
    destruct (Z.eqb_spec c idx); [contradiction | split; reflexivity].
Qed.

Lemma in_background_complement (g : list (list Z)) (idx : Z) (q : nat * nat) :
  In q (background (complement (indicator g idx))) <->
  cell_at g q = Some idx.
Proof.
  unfold background. rewrite in_positions. unfold complement, indicator.
  split.
  - intros [v [Hv Hz]]. rewrite !cell_at_map in Hv.
    destruct (cell_at g q) as [c |]; [| discriminate].
    simpl in Hv. injection Hv as <-.
    destruct (Z.eqb_spec c idx); [subst; reflexivity | discriminate].
  - intros Hc. exists 0%Z. rewrite !cell_at_map, Hc. simpl.
    rewrite Z.eqb_refl. split; reflexivity.
Qed.

Lemma fold_min_spec (p : nat * nat) (bg : list (nat * nat)) (m0 : Z) :
  let m := fold_left (fun m q' => Z.min m (sq_dist p q')) bg m0 in
  (m = m0 \/ exists q, In q bg /\ m = sq_dist p q) /\
  (m <= m0)%Z /\
  (forall q, In q bg -> (m <= sq_dist p q)%Z).
Proof.
  revert m0. induction bg as [| q bg IH]; intros m0; cbn [fold_left].
  - repeat split; [left; reflexivity | lia | intros q []].
  - destruct (IH (Z.min m0 (sq_dist p q))) as (Hin & Hle & Hall).
    repeat split.
    + destruct Hin as [E | [q' [Hq' E]]].
      * destruct (Z.min_spec m0 (sq_dist p q)) as [[_ Em] | [_ Em]].
        -- left. rewrite E. exact Em.
        -- right. exists q. split; [left; reflexivity |].
           rewrite E. exact Em.
      * right. exists q'. split; [right; exact Hq' | exact E].
    + lia.
    + intros q' [<- | Hq']; [lia | apply Hall, Hq'].
Qed.

Lemma min_sq_dist_spec (p : nat * nat) (bg : list (nat * nat)) (d : Z) :
  min_sq_dist p bg = Some d ->
  (exists q, In q bg /\ d = sq_dist p q) /\
  (forall q, In q bg -> (d <= sq_dist p q)%Z).
Proof.
  destruct bg as [| q bg]; [discriminate |]. unfold min_sq_dist.
  intros E. injection E as <-.
  destruct (fold_min_spec p bg (sq_dist p q)) as (Hin & Hle & Hall).
  split.
  - destruct Hin as [E | [q' [Hq' E]]].
    + exists q. split; [left; reflexivity | exact E].
    + exists q'. split; [right; exact Hq' | exact E].
  - intros q' [<- | Hq']; [exact Hle | apply Hall, Hq'].
Qed.

Lemma min_sq_dist_some (p q : nat * nat) (bg : list (nat * nat)) :
  In q bg -> exists d, min_sq_dist p bg = Some d.
Proof.
  destruct bg as [| q' bg]; [intros [] |]. intros _. eexists. reflexivity.
Qed.

Lemma euclidean_self (p : nat * nat) : euclidean p p = 0%R.
Proof.
  unfold euclidean, sq_dist. rewrite !Z.sub_diag. simpl. apply sqrt_0.
Qed.

Lemma euclidean_nonneg (p q : nat * nat) : (0 <= euclidean p q)%R.
Proof. apply sqrt_pos. Qed.

(** The least squared distance to a set of positions gives the distance to
    the nearest cell of the types the set stands for. *)
Lemma nearest_of_min (g : list (list Z)) (target : Z -> Prop)
  (bg : list (nat * nat)) (p : nat * nat) (d : Z) :
  (forall q, In q bg <-> exists c, cell_at g q = Some c /\ target c) ->
  min_sq_dist p bg = Some d ->
  nearest_distance g target p (sqrt (IZR d)).
Proof.
  intros Hbg Hmin. apply min_sq_dist_spec in Hmin.
  destruct Hmin as [[q [Hq E]] Hall]. split.
  - apply Hbg in Hq. destruct Hq as [c [Hc Ht]].
    exists q, c. repeat split; [exact Hc | exact Ht |].
    unfold euclidean. rewrite E. reflexivity.
  - intros q' c Hc Ht. unfold euclidean. apply sqrt_le_1_alt, IZR_le, Hall.
    apply Hbg. exists c. split; assumption.
Qed.

Lemma other_idx_spec (idx1 idx2 c : Z) :
  existsb (Z.eqb c) (other_idx idx1 idx2) = true <->
  (0 <= c <= 2)%Z /\ c <> idx1 /\ c <> idx2.
Proof.
  rewrite existsb_exists. unfold other_idx. split.
  - intros [x [Hin E]]. apply Z.eqb_eq in E. subst x.
    apply filter_In in Hin. destruct Hin as [Hin Hf].
    apply Bool.negb_true_iff in Hf. cbn [existsb] in Hf.
    rewrite Bool.orb_false_r in Hf. apply Bool.orb_false_iff in Hf.
    destruct Hf as [H1 H2]. apply Z.eqb_neq in H1, H2.
    repeat split; try assumption; simpl in Hin; lia.
  - intros (Hr & H1 & H2). exists c. split; [| apply Z.eqb_refl].
    apply filter_In. split.
    + simpl. lia.
    + apply Bool.negb_true_iff. cbn [existsb].
      apply Z.eqb_neq in H1, H2. rewrite H1, H2. reflexivity.
Qed.

Lemma bf_distance_fin (bg : list (nat * nat)) (p : nat * nat) (v : Z) :
  exists r, bf_distance bg p v = Fin r.
Proof.
  unfold bf_distance. destruct (Z.eqb v 0); [eexists; reflexivity |].
  destruct (min_sq_dist p bg); eexists; reflexivity.
Qed.

Lemma density_gridb_spec (g : list (list Z)) :
  density_gridb g = true -> density_grid g.
Proof.
  unfold density_gridb, density_grid, cell_at. intros H p c Hc.
  destruct (nth_error g (fst p)) as [row |] eqn:Er; [| discriminate].
  rewrite forallb_forall in H. specialize (H row (nth_error_In _ _ Er)).
  rewrite forallb_forall in H. specialize (H c (nth_error_In _ _ Hc)).
  lia.
Qed.

(** C6.  In the array [sedt3] built from a class map whose cells hold type
    indices 0, 1 or 2, for any two type indices (distinct or not): a cell
    assigned neither of the two types holds [+inf], and a cell assigned one
    of the two holds a value that is not infinite. *)
Theorem other_cells_infinite (class_map : list (list Z)) (idx1 idx2 : Z)
  (p : nat * nat) (c : Z) :
  density_grid class_map ->
  cell_at class_map p = Some c ->
  exists v,
    cell_at (sedt3 class_map idx1 idx2) p = Some v /\
    (c <> idx1 -> c <> idx2 -> v = PInf) /\
    (c = idx1 \/ c = idx2 -> np_isinf v = false).
Proof.
  intros Hgrid Hc. rewrite (cell_at_sedt3 _ _ _ _ _ Hc).
  eexists. split; [reflexivity |]. split.
  - intros H1 H2.
    replace (existsb (Z.eqb c) (other_idx idx1 idx2)) with true; [reflexivity |].
    symmetry. apply other_idx_spec. repeat split; try assumption;
      apply (Hgrid p c Hc).
  - intros H12.
    destruct (existsb (Z.eqb c) (other_idx idx1 idx2)) eqn:E.
    + apply other_idx_spec in E. destruct E as (_ & H1 & H2).
      destruct H12; contradiction.
    + destruct (bf_distance_fin
                  (background (complement (indicator class_map idx2))) p
                  (1 - (if Z.eqb c idx2 then 1 else 0))%Z) as [r2 E2].
      destruct (bf_distance_fin
                  (background (indicator class_map idx1)) p
                  (if Z.eqb c idx1 then 1 else 0)%Z) as [r1 E1].
      rewrite E2, E1. reflexivity.
Qed.

Lemma other_cells_infinite_example :
  cell_at (sedt3 three_type_grid 2 0) (0, 1) = Some PInf /\
  exists v, cell_at (sedt3 three_type_grid 2 0) (1, 0) = Some v /\
            np_isinf v = false.
Proof.
  split.
  - destruct (other_cells_infinite three_type_grid 2 0 (0, 1) 1)
      as (v & Hv & Hinf & _);
      [apply density_gridb_spec; reflexivity | reflexivity |].
    rewrite Hv, Hinf; [reflexivity | lia | lia].
  - destruct (other_cells_infinite three_type_grid 2 0 (1, 0) 2)
      as (v & Hv & _ & Hfin);
      [apply density_gridb_spec; reflexivity | reflexivity |].
    exists v. split; [exact Hv | apply Hfin; left; reflexivity].
Defined.

(** What the code computes.  On a class map that holds at least one cell
    of the second type, at every cell assigned one of the two (distinct)
    types, [sedt3] is [d2 - d1] with the exact Euclidean metric, where [d2]
    is the distance from the cell to the nearest cell of the second type
    and [d1] is the distance transform of the first type's indicator grid:
    the distance from a cell of the first type to the nearest cell that is
    not of the first type, and 0 at every other cell.  So the field is 0 on
    the cells of the second type and never negative on those of the
    first. *)
Theorem signed_field_value (class_map : list (list Z)) (idx1 idx2 : Z)
  (p : nat * nat) (c : Z) :
  idx1 <> idx2 ->
  (exists q, cell_at class_map q = Some idx2) ->
  cell_at class_map p = Some c ->
  c = idx1 \/ c = idx2 ->
  exists d2 d1 : R,
    cell_at (sedt3 class_map idx1 idx2) p = Some (Fin (d2 - d1)) /\
    nearest_distance class_map (fun t => t = idx2) p d2 /\
    (c = idx1 -> nearest_distance class_map (fun t => t <> idx1) p d1) /\
    (c <> idx1 -> d1 = 0%R) /\
    (0 <= d2 - d1)%R /\
    (c = idx2 -> (d2 - d1)%R = 0%R).
Proof.
  intros Hne [q2 Hq2] Hc H12.
  rewrite (cell_at_sedt3 _ _ _ _ _ Hc).
  replace (existsb (Z.eqb c) (other_idx idx1 idx2)) with false.
  2:{ symmetry. apply Bool.not_true_is_false. intros E.
      apply other_idx_spec in E. destruct E as (_ & H1 & H2).
      destruct H12; contradiction. }
  assert (Hbg2 : In q2 (background (complement (indicator class_map idx2))))
    by (apply in_background_complement; exact Hq2).
  assert (Hbg1 : In q2 (background (indicator class_map idx1)))
    by (apply in_background_indicator; exists idx2; split;
        [exact Hq2 | congruence]).
  destruct (min_sq_dist_some p q2 _ Hbg2) as [m2 Hm2].
  destruct (min_sq_dist_some p q2 _ Hbg1) as [m1 Hm1].
  assert (Hn2 : nearest_distance class_map (fun t => t = idx2) p
                                 (sqrt (IZR m2))).
  { refine (nearest_of_min _ _ _ _ _ _ Hm2).
    intros q. rewrite in_background_complement. split.
    - intros H. exists idx2. split; [exact H | reflexivity].
    - intros [t [H ->]]. exact H. }
  assert (Hn1 : nearest_distance class_map (fun t => t <> idx1) p
                                 (sqrt (IZR m1))).
  { refine (nearest_of_min _ _ _ _ _ _ Hm1).
    intros q. apply in_background_indicator. }
  unfold bf_distance. rewrite Hm2, Hm1.
  destruct H12 as [-> | ->].
  - (* a cell of the first type *)
    rewrite Z.eqb_refl.
    replace (Z.eqb idx1 idx2) with false
      by (symmetry; apply Z.eqb_neq; exact Hne).
    cbn [Z.sub Z.eqb Z.opp Z.add Z.pos_sub].
    exists (sqrt (IZR m2)), (sqrt (IZR m1)).
    split; [reflexivity |]. split; [exact Hn2 |].
    split; [intros _; exact Hn1 |]. split; [intros H; contradiction |].
    split; [| intros H; contradiction].
    destruct Hn2 as [[q [t [Hq [Ht E]]]] _]. destruct Hn1 as [_ Hall].
    subst t. specialize (Hall q idx2 Hq (not_eq_sym Hne)). lra.
  - (* a cell of the second type *)
    rewrite Z.eqb_refl.
    replace (Z.eqb idx2 idx1) with false
      by (symmetry; apply Z.eqb_neq; congruence).
    cbn [Z.sub Z.eqb Z.opp Z.add Z.pos_sub].
    exists 0%R, 0%R.
    split; [reflexivity |]. split.
    + split.
      * exists p, idx2. rewrite euclidean_self. repeat split. exact Hc.
      * intros q t _ _. apply euclidean_nonneg.
    + split; [intros H; congruence |]. split; [reflexivity |].
      split; [lra | intros _; lra].
Qed.


Lemma signed_field_value_example :
  exists d2 d1 : R,
    cell_at (sedt3 three_type_grid 2 0) (1, 0) = Some (Fin (d2 - d1)) /\
    (0 <= d2 - d1)%R.
Proof.
  destruct (signed_field_value three_type_grid 2 0 (1, 0) 2)
    as (d2 & d1 & Hv & _ & _ & _ & Hpos & _).
  - lia.
  - exists (0, 0). reflexivity.
  - reflexivity.
  - left. reflexivity.
  - exists d2, d1. split; assumption.
Defined.

Lemma half_grid_cells :
  cell_at half_grid (0, 0) = Some 0%Z /\
  cell_at half_grid (0, 99) = Some 2%Z /\
  cell_at half_grid (0, 49) = Some 0%Z.
Proof. repeat split. Qed.

Lemma half_grid_nearest_tumor :
  min_sq_dist (0, 0) (positions half_grid (Z.eqb 2)) = Some 2500%Z.
Proof. vm_compute. reflexivity. Qed.

Lemma half_grid_nearest_immune :
  min_sq_dist (0, 0) (positions half_grid (Z.eqb 0)) = Some 0%Z.
Proof. vm_compute. reflexivity. Qed.

Lemma half_grid_tumor_to_immune :
  min_sq_dist (0, 99) (background (complement (indicator half_grid 0)))
  = Some 2500%Z.
Proof. vm_compute. reflexivity. Qed.

Lemma half_grid_tumor_to_edge :
  min_sq_dist (0, 99) (background (indicator half_grid 2)) = Some 2500%Z.
Proof. vm_compute. reflexivity. Qed.

Lemma sqrt_2500 : sqrt (IZR 2500) = 50%R.
Proof.
  replace (IZR 2500) with (50 * 50)%R by lra. apply sqrt_square. lra.
Qed.

Lemma half_grid_corner_to_immune :
  min_sq_dist (0, 99) (positions half_grid (Z.eqb 0)) = Some 2500%Z.
Proof. vm_compute. reflexivity. Qed.

Lemma half_grid_corner_to_tumor :
  min_sq_dist (0, 99) (positions half_grid (Z.eqb 2)) = Some 0%Z.
Proof. vm_compute. reflexivity. Qed.

(** C1.  The field that the code calls SEDT3, signed, has no sign.  On the
    class map that is immune on the left half and tumor on the right, for
    the pair (tumor, immune): the distance to the nearest immune cell minus
    the distance to the nearest tumor cell is -50 at the immune corner
    (0, 0) and +50 at the tumor corner (0, 99); the field of the code is 0
    at both, as deep inside either region as a cell can be.  Line 141 takes
    the distance transform of the indicator of the first type and line 142
    that of the complement of the indicator of the second, so the two terms
    of the difference measure the same distance at a cell of the first type
    and both vanish at a cell of the second. *)
Lemma signed_field_not_distance_difference :
  cell_at (sedt3 half_grid 2 0) (0, 0) = Some (Fin 0) /\
  spec_signed_field half_grid 2 0 (0, 0) = Some (Fin (-50)) /\
  cell_at (sedt3 half_grid 2 0) (0, 0) <> spec_signed_field half_grid 2 0 (0, 0) /\
  cell_at (sedt3 half_grid 2 0) (0, 99) = Some (Fin 0) /\
  spec_signed_field half_grid 2 0 (0, 99) = Some (Fin 50) /\
  cell_at (sedt3 half_grid 2 0) (0, 99)
  <> spec_signed_field half_grid 2 0 (0, 99).
Proof.
  destruct half_grid_cells as (Himmune & Htumor & _).
  assert (Hcode : cell_at (sedt3 half_grid 2 0) (0, 0) = Some (Fin 0)).
  { rewrite (cell_at_sedt3 _ _ _ _ _ Himmune).
    change (other_idx 2 0) with [1%Z].
    cbn [existsb Z.eqb orb Z.sub Z.opp Z.add Z.pos_sub].
    unfold bf_distance. cbn [Z.eqb fsub fneg fadd]. do 2 f_equal. lra. }
  assert (Hspec : spec_signed_field half_grid 2 0 (0, 0) = Some (Fin (-50))).
  { unfold spec_signed_field, spec_distance_to_type.
    rewrite half_grid_nearest_tumor, half_grid_nearest_immune.
    cbn [option_map]. rewrite sqrt_2500, sqrt_0. do 2 f_equal. lra. }
  assert (Hcode' : cell_at (sedt3 half_grid 2 0) (0, 99) = Some (Fin 0)).
  { rewrite (cell_at_sedt3 _ _ _ _ _ Htumor).
    change (other_idx 2 0) with [1%Z].
    cbn [existsb Z.eqb Pos.eqb orb Z.sub Z.opp Z.add Z.pos_sub].
    unfold bf_distance. cbn [Z.eqb].
    rewrite half_grid_tumor_to_immune, half_grid_tumor_to_edge.
    cbn [fsub fneg fadd]. do 2 f_equal. lra. }
  assert (Hspec' : spec_signed_field half_grid 2 0 (0, 99) = Some (Fin 50)).
  { unfold spec_signed_field, spec_distance_to_type.
    rewrite half_grid_corner_to_immune, half_grid_corner_to_tumor.
    cbn [option_map]. rewrite sqrt_2500, sqrt_0. do 2 f_equal. lra. }
  split; [exact Hcode |]. split; [exact Hspec |]. split.
  { rewrite Hcode, Hspec. intros E. injection E as E. lra. }
  split; [exact Hcode' |]. split; [exact Hspec' |].
  rewrite Hcode', Hspec'. intros E. injection E as E. lra.
Qed.

(** ** The density classifier *)

Lemma run_ebind_inv {S A B : Type} (h : handler S) (p : eprog A)
  (f : A -> eprog B) (s s' : S) (b : B) :
  run h (ebind p f) s = (Ok b, s') ->
  exists a s1, run h p s = (Ok a, s1) /\ run h (f a) s1 = (Ok b, s').
Proof.
  unfold ebind. rewrite run_bind.
  destruct (run h p s) as [[a | e] s1]; cbn [run]; intros H.
  - exists a, s1. split; [reflexivity | exact H].
  - discriminate.
Qed.

Lemma run_emap_ok {S A B : Type} (h : handler S) (f : A -> eprog B)
  (l : list A) (s s' : S) (bs : list B) :
  run h (emap f l) s = (Ok bs, s') ->
  Forall2 (fun a b => exists s1 s2, run h (f a) s1 = (Ok b, s2)) l bs.
Proof.
  revert s bs. induction l as [| a l IH]; intros s bs; cbn [emap].
  - intros H. injection H as <- _. constructor.
  - intros H. apply run_ebind_inv in H. destruct H as (b & s1 & Hb & H).
    apply run_ebind_inv in H. destruct H as (bs' & s2 & Hbs & H).
    cbn [eret run] in H. injection H as <- <-. constructor.
    + exists s, s1. exact Hb.
    + apply (IH s1). exact Hbs.
Qed.

Lemma not_negative_zeros (n : nat) : Forall not_negative (repeat (Fin 0) n).
Proof.
  induction n as [| n IH]; simpl; constructor; [simpl; lra | exact IH].
Qed.

Lemma assign_row_ok (n : nat) (vals row : list float64) :
  Forall not_negative vals ->
  assign_row n vals = Ok row ->
  length row = n /\ Forall not_negative row.
Proof.
  intros Hvals. unfold assign_row.
  destruct (Nat.eqb_spec (length vals) n) as [E | _].
  - intros H. injection H as <-. split; assumption.
  - destruct vals as [| v [| w vals]]; try discriminate.
    intros H. injection H as <-. split; [apply repeat_length |].
    apply Forall_forall. intros x Hx. apply repeat_spec in Hx. subst x.
    inversion Hvals. assumption.
Qed.

Lemma density_row_ok {S : Type} (h : handler S) (points : list point)
  (labels : list string) (label : string) (s s' : S) (row : list float64) :
  obeys h kde_not_negative ->
  run h (density_row points labels label) s = (Ok row, s') ->
  length row = length grid_coords /\
  Forall not_negative row /\
  (select_rows points (label_mask labels label) = Ok [] ->
   row = repeat (Fin 0) (length grid_coords)).
Proof.
  intros Hh. unfold density_row.
  generalize (length grid_coords) as n. intros n.
  destruct (select_rows points (label_mask labels label)) as [pts | e];
    [| discriminate].
  rewrite ebind_lift_ok.
  destruct (Nat.ltb_spec 0 (length pts)) as [Hpos | Hzero].
  - intros H. apply run_ebind_inv in H. destruct H as (kde & s1 & _ & H).
    apply run_ebind_inv in H. destruct H as (vals & s2 & Hvals & H).
    assert (Hnn : Forall not_negative vals).
    { pose proof (Hh (kde_evaluate kde grid_coords) s1) as Hq.
      unfold call in Hvals. cbn [run] in Hvals.
      destruct (h (kde_evaluate kde grid_coords) s1) as [x s1'].
      cbn [run fst kde_not_negative] in *. injection Hvals as -> _.
      exact Hq. }
    cbn [lift run] in H. injection H as H _.
    destruct (assign_row_ok _ _ _ Hnn H) as [Hlen Hrow].
    repeat split; try assumption.
    intros E. injection E as ->. simpl in Hpos. lia.
  - intros H. cbn [eret run] in H. injection H as <- _.
    split; [apply repeat_length |].
    split; [apply not_negative_zeros | reflexivity].
Qed.

Lemma fle_zero_not_negative (x mp : float64) :
  np_isnan mp = false -> not_negative mp -> fle x mp = false -> x <> Fin 0.
Proof.
  intros Hnan Hmp Hle E. subst x.
  destruct mp as [| | | m]; simpl in *; try discriminate; try contradiction.
  destruct (Rle_dec 0 m); [discriminate | contradiction].
Qed.

Lemma fle_zero_eq (x : float64) :
  not_negative x -> fle x (Fin 0) = true -> x = Fin 0.
Proof.
  destruct x as [| | | r]; simpl; try discriminate; try contradiction.
  intros Hpos H. destruct (Rle_dec r 0); [| discriminate].
  f_equal. lra.
Qed.

(** Where the scan for the maximum ends: at its start position with nothing
    larger behind it, or at a later entry that is not a zero. *)
Lemma argmax_from_zero (ip : list float64) (mp : float64) (max_ind i : nat) :
  np_isnan mp = false -> not_negative mp -> Forall not_negative ip ->
  let r := argmax_from mp max_ind i ip in
  (r = max_ind /\ Forall (fun x => fle x mp = true) ip) \/
  (i <= r /\ exists x, nth_error ip (r - i) = Some x /\ x <> Fin 0).
Proof.
  revert mp max_ind i.
  induction ip as [| x ip IH]; intros mp max_ind i Hnan Hmp Hip;
    cbn [argmax_from].
  - left. split; [reflexivity | constructor].
  - inversion Hip as [| ? ? Hx Hip']; subst.
    destruct (fle x mp) eqn:Hle.
    + destruct (IH mp max_ind (S i) Hnan Hmp Hip') as [[E Hall] | [Hr Hex]].
      * left. split; [exact E | constructor; assumption].
      * right. split; [lia |]. destruct Hex as [y [Hy Hne]].
        exists y. split; [| exact Hne].
        replace (argmax_from mp max_ind (S i) ip - i)
          with (S (argmax_from mp max_ind (S i) ip - S i)) by lia.
        exact Hy.
    + destruct (np_isnan x) eqn:Hxnan.
      * right. split; [lia |]. exists x. rewrite Nat.sub_diag.
        split; [reflexivity |]. intros E. subst x. discriminate.
      * destruct (IH x i (S i) Hxnan Hx Hip') as [[E Hall] | [Hr Hex]].
        -- right. split; [lia |]. exists x. rewrite E, Nat.sub_diag.
           split; [reflexivity |].
           apply (fle_zero_not_negative x mp); assumption.
        -- right. split; [lia |]. destruct Hex as [y [Hy Hne]].
           exists y. split; [| exact Hne].
           replace (argmax_from x i (S i) ip - i)
             with (S (argmax_from x i (S i) ip - S i)) by lia.
           exact Hy.
Qed.

(** Among values none of which is negative, a zero wins the argmax only
    at position 0 and only when every value is zero. *)
Lemma np_argmax_zero (l : list float64) :
  Forall not_negative l ->
  nth_error l (np_argmax l) = Some (Fin 0) ->
  np_argmax l = 0 /\ Forall (fun x => x = Fin 0) l.
Proof.
  destruct l as [| x0 ip]; [discriminate |].
  intros Hl. inversion Hl as [| ? ? Hx0 Hip]; subst.
  unfold np_argmax. destruct (np_isnan x0) eqn:Hnan.
  - simpl. intros E. injection E as ->. discriminate.
  - destruct (argmax_from_zero ip x0 0 1 Hnan Hx0 Hip) as [[E Hall] | [Hr Hex]].
    + rewrite E. simpl. intros E0. injection E0 as ->.
      split; [reflexivity |]. constructor; [reflexivity |].
      rewrite Forall_forall in *. intros x Hx.
      apply fle_zero_eq; [apply Hip, Hx | apply Hall, Hx].
    + destruct Hex as [y [Hy Hne]]. intros E0.
      destruct (argmax_from x0 0 1 ip) as [| r]; [lia |].
      simpl in E0, Hy. rewrite Nat.sub_0_r in Hy. congruence.
Qed.

Lemma argmax_from_all_zero (ip : list float64) (max_ind i : nat) :
  Forall (fun x => x = Fin 0) ip ->
  argmax_from (Fin 0) max_ind i ip = max_ind.
Proof.
  revert i. induction ip as [| x ip IH]; intros i H; cbn [argmax_from].
  - reflexivity.
  - inversion H as [| ? ? Hx Hip]; subst. cbn [fle].
    destruct (Rle_dec 0 0) as [_ | Hn]; [apply IH, Hip | exfalso; lra].
Qed.

Lemma np_argmax_all_zero (l : list float64) :
  Forall (fun x => x = Fin 0) l -> np_argmax l = 0.
Proof.
  destruct l as [| x ip]; [reflexivity |]. intros H.
  inversion H as [| ? ? Hx Hip]; subst. cbn [np_argmax np_isnan].
  apply argmax_from_all_zero, Hip.
Qed.

(** ** Flat arrays and their 2-D shape *)

Lemma length_linspace01 (n : nat) : length (linspace01 n) = n.
Proof. unfold linspace01. rewrite length_map. apply length_seq. Qed.

Lemma length_flat_map_const {A B : Type} (f : A -> list B) (l : list A)
  (n : nat) :
  (forall a, length (f a) = n) -> length (flat_map f l) = length l * n.
Proof.
  intros Hf. induction l as [| a l IH]; simpl.
  - reflexivity.
  - rewrite length_app, Hf, IH. reflexivity.
Qed.

Lemma length_grid_coords : length grid_coords = grid_res * grid_res.
Proof.
  unfold grid_coords.
  rewrite (length_flat_map_const _ _ grid_res).
  - rewrite length_linspace01. reflexivity.
  - intros a. rewrite length_map. apply length_linspace01.
Qed.

Lemma nth_error_reshape {A : Type} (rows cols : nat) (l : list A) (r : nat) :
  r < rows ->
  nth_error (reshape rows cols l) r = Some (firstn cols (skipn (r * cols) l)).
Proof.
  revert l r. induction rows as [| rows IH]; intros l r Hr; [lia |].
  cbn [reshape]. destruct r as [| r]; simpl.
  - reflexivity.
  - rewrite IH by lia. rewrite skipn_skipn.
    replace (r * cols + cols) with (cols + r * cols) by lia. reflexivity.
Qed.

Lemma cell_at_reshape {A : Type} (rows cols : nat) (l : list A) (r c : nat) :
  r < rows -> c < cols ->
  cell_at (reshape rows cols l) (r, c) = nth_error l (r * cols + c).
Proof.
  intros Hr Hc. unfold cell_at. cbn [fst snd].
  rewrite nth_error_reshape by exact Hr.
  rewrite nth_error_firstn.
  destruct (Nat.ltb_spec c cols) as [_ | Hge]; [| lia].
  apply nth_error_skipn.
Qed.

Lemma Forall2_nth_error_l {A B : Type} (R : A -> B -> Prop) (l : list A)
  (l' : list B) (i : nat) (a : A) :
  Forall2 R l l' -> nth_error l i = Some a ->
  exists b, nth_error l' i = Some b /\ R a b.
Proof.
  intros H. revert i. induction H as [| x y l l' Hxy _ IH]; intros i Hi.
  - destruct i; discriminate.
  - destruct i as [| i]; simpl in *.
    + injection Hi as <-. exists y. split; [reflexivity | exact Hxy].
    + apply IH, Hi.
Qed.

Lemma Forall2_Forall_r {A B : Type} (R : A -> B -> Prop) (Q : B -> Prop)
  (l : list A) (l' : list B) :
  (forall a b, R a b -> Q b) -> Forall2 R l l' -> Forall Q l'.
Proof.
  intros HRQ H. induction H as [| x y l l' Hxy _ IH]; constructor.
  - apply (HRQ x y Hxy).
  - exact IH.
Qed.

Local Opaque grid_res grid_coords.

Lemma nth_error_argmax_axis0 (densities : list (list float64)) (k : nat) :
  k < length grid_coords ->
  nth_error (argmax_axis0 densities) k =
  Some (Z.of_nat (np_argmax (column densities k))).
Proof.
  intros Hk. unfold argmax_axis0.
  generalize dependent (length grid_coords). intros n Hk.
  rewrite nth_error_map, nth_error_seq.
  destruct (Nat.ltb_spec k n) as [_ | Hge]; [reflexivity | lia].
Qed.

Lemma column_not_negative (densities : list (list float64)) (n k : nat) :
  k < n ->
  Forall (fun row => length row = n /\ Forall not_negative row) densities ->
  Forall not_negative (column densities k).
Proof.
  intros Hk H. unfold column. apply Forall_map.
  apply (Forall_impl _ (P := fun row => length row = n
                                        /\ Forall not_negative row));
    [| exact H].
  intros row [Hlen Hrow]. rewrite Forall_forall in Hrow. apply Hrow.
  apply nth_In. lia.
Qed.

Lemma run_compute_kde {S : Type} (h : handler S) (s s' : S)
  (points : list point) (labels : list string)
  (densities : list (list float64)) :
  run h (compute_densities points labels) s = (Ok densities, s') ->
  run h (compute_kde points labels) s
  = (Ok (reshape grid_res grid_res (argmax_axis0 densities)), s').
Proof.
  intros Hrun. unfold compute_kde.
  rewrite (run_ebind_ok _ _ _ _ _ _ Hrun). reflexivity.
Qed.

(** C5.  Let a cell type have no point.  Then, for every library whose
    density estimates are never negative, the row of [densities] of that
    type is zero over the whole grid, and the class map assigns that type
    to a cell only if it is type 0 (immune) and the densities of all types
    are zero at that cell; where all densities are zero, type 0 is
    assigned. *)
Theorem empty_type_never_wins {S : Type} (h : handler S) (s s' : S)
  (points : list point) (labels : list string) (i : nat) (label : string)
  (densities : list (list float64)) :
  obeys h kde_not_negative ->
  nth_error ordered_celltype i = Some label ->
  select_rows points (label_mask labels label) = Ok [] ->
  run h (compute_densities points labels) s = (Ok densities, s') ->
  let class_map := reshape grid_res grid_res (argmax_axis0 densities) in
  run h (compute_kde points labels) s = (Ok class_map, s') /\
  nth_error densities i = Some (repeat (Fin 0) (grid_res * grid_res)) /\
  forall r c, r < grid_res -> c < grid_res ->
    let k := r * grid_res + c in
    (cell_at class_map (r, c) = Some (Z.of_nat i) ->
     i = 0 /\ Forall (fun row => nth k row NaN = Fin 0) densities) /\
    (Forall (fun row => nth k row NaN = Fin 0) densities ->
     cell_at class_map (r, c) = Some 0%Z).
Proof.
  intros Hh Hlabel Hempty Hrun class_map.
  pose proof (run_emap_ok _ _ _ _ _ _ Hrun) as Hrows.
  assert (Hshape : Forall (fun row => length row = grid_res * grid_res
                                      /\ Forall not_negative row) densities).
  { refine (Forall2_Forall_r _ _ _ _ _ Hrows).
    intros a row (s1 & s2 & Hrow).
    destruct (density_row_ok h points labels a s1 s2 row Hh Hrow)
      as (Hlen & Hnn & _).
    rewrite length_grid_coords in Hlen. split; assumption. }
  assert (Hzero : nth_error densities i
                  = Some (repeat (Fin 0) (grid_res * grid_res))).
  { destruct (Forall2_nth_error_l _ _ _ _ _ Hrows Hlabel)
      as (row & Hrow & s1 & s2 & Hrun_row).
    destruct (density_row_ok h points labels label s1 s2 row Hh Hrun_row)
      as (_ & _ & Hz).
    rewrite Hrow, (Hz Hempty), length_grid_coords. reflexivity. }
  split; [| split; [exact Hzero |]].
  - apply run_compute_kde, Hrun.
  - intros r c Hr Hc k.
    assert (Hk : k < grid_res * grid_res) by (subst k; nia).
    assert (Hcell : cell_at class_map (r, c)
                    = Some (Z.of_nat (np_argmax (column densities k)))).
    { subst class_map. rewrite cell_at_reshape by assumption.
      apply nth_error_argmax_axis0. rewrite length_grid_coords. exact Hk. }
    pose proof (column_not_negative densities _ k Hk Hshape) as Hcol.
    rewrite Hcell. split.
    + intros E. injection E as E. apply Nat2Z.inj in E.
      assert (Hi : nth_error (column densities k)
                             (np_argmax (column densities k)) = Some (Fin 0)).
      { rewrite E. unfold column. rewrite nth_error_map, Hzero.
        cbn [option_map]. f_equal.
        apply nth_error_nth, nth_error_repeat, Hk. }
      destruct (np_argmax_zero _ Hcol Hi) as [Ezero Hall].
      split; [congruence |]. apply Forall_map in Hall. exact Hall.
    + intros Hall. rewrite np_argmax_all_zero; [reflexivity |].
      unfold column. apply Forall_map. exact Hall.
Qed.

Lemma sample_library_not_negative (file : list (list field)) (fails : bool) :
  obeys (sample_library file fails) kde_not_negative.
Proof.
  intros q s. destruct q; simpl; trivial.
  apply Forall_map, Forall_forall. intros x _. simpl. lra.
Qed.

Lemma sample_densities :
  run (sample_library [] false) (compute_densities six_points six_labels) tt
  = (Ok [ map (fun _ => Fin 1) grid_coords;
          repeat (Fin 0) (length grid_coords);
          map (fun _ => Fin 1) grid_coords ], tt).
Proof. vm_compute. reflexivity. Qed.

Local Transparent grid_res.

Lemma empty_type_never_wins_example :
  exists densities,
    run (sample_library [] false) (compute_densities six_points six_labels) tt
      = (Ok densities, tt) /\
    nth_error densities 1 = Some (repeat (Fin 0) (grid_res * grid_res)) /\
    (cell_at (reshape grid_res grid_res (argmax_axis0 densities)) (0, 0)
       = Some 1%Z -> 1 = 0).
Proof.
  eexists. split; [exact sample_densities |].
  destruct (empty_type_never_wins (sample_library [] false) tt tt
              six_points six_labels 1 "stromal" _
              (sample_library_not_negative [] false)
              eq_refl eq_refl sample_densities) as (_ & Hzero & Hcells).
  split; [exact Hzero |].
  intros Hcell.
  destruct (Hcells 0 0) as [Hwin _]; [unfold grid_res; lia ..|].
  apply Hwin, Hcell.
Defined.

(** ** Keys and lookups of updated dictionaries *)

Lemma keys_dict_set (d : dict) (k : string) (v : pyval) :
  keys (dict_set d k v) = keys_set (keys d) k.
Proof.
  unfold keys_set. induction d as [| [k' v'] d IH]; simpl.
  - reflexivity.
  - destruct (String.eqb k' k); simpl; [reflexivity |].
    rewrite IH. destruct (existsb (fun k'0 => String.eqb k'0 k) (keys d));
      reflexivity.
Qed.

Lemma keys_dict_update (d other : dict) :
  keys (dict_update d other) = keys_update (keys d) (keys other).
Proof.
  unfold dict_update, keys_update. revert d.
  induction other as [| [k v] other IH]; intros d; simpl.
  - reflexivity.
  - rewrite IH, keys_dict_set. reflexivity.
Qed.

Lemma dict_get_set (d : dict) (k k' : string) (v : pyval) :
  dict_get (dict_set d k v) k' =
  if String.eqb k k' then Some v else dict_get d k'.
Proof.
  induction d as [| [k0 v0] d IH]; simpl.
  - reflexivity.
  - destruct (String.eqb_spec k0 k) as [-> | Hne]; simpl.
    + destruct (String.eqb k k'); reflexivity.
    + rewrite IH. destruct (String.eqb_spec k0 k') as [-> | _];
        [| reflexivity].
      destruct (String.eqb_spec k k') as [-> | _]; [contradiction |].
      reflexivity.
Qed.

Lemma dict_get_update_other (other d : dict) (k : string) :
  ~ In k (keys other) -> dict_get (dict_update d other) k = dict_get d k.
Proof.
  unfold dict_update. revert d.
  induction other as [| [k0 v0] other IH]; intros d Hk; simpl.
  - reflexivity.
  - rewrite IH by (intros H; apply Hk; right; exact H).
    rewrite dict_get_set.
    destruct (String.eqb_spec k0 k) as [-> | _]; [| reflexivity].
    exfalso. apply Hk. left. reflexivity.
Qed.

Lemma dict_get_update_missing (other d : dict) (k : string) :
  Forall (fun kv => snd kv = missing_of_key (fst kv)) other ->
  In k (keys other) ->
  dict_get (dict_update d other) k = Some (missing_of_key k).
Proof.
  unfold dict_update. revert d.
  induction other as [| [k0 v0] other IH]; intros d Hall Hk; [destruct Hk |].
  inversion Hall as [| ? ? Hv Hall']; subst. cbn [fst snd] in Hv.
  cbn [fold_left fst snd].
  destruct (in_dec string_dec k (keys other)) as [Hin | Hout].
  - apply IH; assumption.
  - fold (dict_update (dict_set d k0 v0) other).
    rewrite dict_get_update_other by exact Hout.
    rewrite dict_get_set. destruct Hk as [E | Hin]; [| contradiction].
    simpl in E. subst k0. rewrite String.eqb_refl, Hv. reflexivity.
Qed.

Lemma keys_all_missing (prefix : string) :
  keys (all_missing prefix) = stat_keys prefix.
Proof. unfold keys, all_missing, stat_keys. apply map_map. Qed.

Lemma keys_extract_persistence_stats (diag : diagram) (prefix : string)
  (exclude_infinite : bool) (max_finite_value : option float64) :
  keys (extract_persistence_stats diag prefix exclude_infinite max_finite_value)
  = stat_keys prefix.
Proof.
  rewrite extract_persistence_stats_retained.
  destruct (retained exclude_infinite max_finite_value diag).
  - apply keys_all_missing.
  - apply summary_keys.
Qed.

(** ** The pipeline *)

Lemma post_ebind {A B : Type} (C : forall q, answer q -> Prop) (p : eprog A)
  (f : A -> eprog B) (Q : result B -> Prop) :
  post C p (fun r => match r with
                     | Ok a => post C (f a) Q
                     | Raise e => Q (Raise e)
                     end) ->
  post C (ebind p f) Q.
Proof.
  intros H. unfold ebind. apply post_bind.
  eapply post_mono; [| exact H]. intros [a | e] Hr; exact Hr.
Qed.

Lemma post_try_except {A : Type} (C : forall q, answer q -> Prop)
  (body : eprog A) (handler : exn -> eprog A) (Q : result A -> Prop) :
  post C body (fun r => match r with
                        | Ok a => Q (Ok a)
                        | Raise e => post C (handler e) Q
                        end) ->
  post C (try_except body handler) Q.
Proof.
  intros H. unfold try_except. apply post_bind.
  eapply post_mono; [| exact H]. intros [a | e] Hr; exact Hr.
Qed.

Lemma post_true {A : Type} (C : forall q, answer q -> Prop) (p : prog A) :
  post C p (fun _ => True).
Proof. induction p as [a | q k IH]; simpl; auto. Qed.

Lemma post_forall {A : Type} (C : forall q, answer q -> Prop) (p : prog A)
  (Q : A -> Prop) :
  (forall a, Q a) -> post C p Q.
Proof. intros H. apply (post_mono C p (fun _ => True)); [auto | apply post_true]. Qed.

(** Each [try] statement of [compute_all_features] ends without an
    exception, in [all_stats] updated with one record of its prefix. *)
Lemma post_cubical_features (class_map : list (list Z))
  (cell_type1 cell_type2 : string) (exclude_infinite : bool) (all_stats : dict) :
  post any_answer
       (cubical_features class_map cell_type1 cell_type2 exclude_infinite
                         all_stats)
       (fun r => exists d,
            r = Ok d /\
            exists diag,
              d = dict_update all_stats
                    (extract_persistence_stats
                       diag ("cubical_" ++ cell_type1 ++ "_" ++ cell_type2)
                       exclude_infinite None)).
Proof.
  unfold cubical_features. apply post_try_except, post_ebind, post_forall.
  intros [[c diag] | e].
  - simpl. eexists. split; [reflexivity |]. exists diag. reflexivity.
  - simpl. intros _ _. eexists. split; [reflexivity |]. exists [].
    reflexivity.
Qed.

Lemma post_witness_features (points : list point) (labels : list string)
  (cell_type1 cell_type2 : string) (exclude_infinite : bool) (all_stats : dict) :
  post any_answer
       (witness_features points labels cell_type1 cell_type2 exclude_infinite
                         all_stats)
       (fun r => exists d,
            r = Ok d /\
            exists diag,
              d = dict_update all_stats
                    (extract_persistence_stats
                       diag ("witness_" ++ cell_type1 ++ "_" ++ cell_type2)
                       exclude_infinite None)).
Proof.
  unfold witness_features. apply post_try_except, post_ebind, post_forall.
  intros [[[w t] diag] | e].
  - simpl. eexists. split; [reflexivity |]. exists diag. reflexivity.
  - simpl. intros _ _. eexists. split; [reflexivity |]. exists [].
    reflexivity.
Qed.

Lemma post_pair_features (class_map : list (list Z)) (points : list point)
  (labels : list string) (exclude_infinite : bool) (all_stats : dict)
  (pair : string * string) :
  post any_answer
       (pair_features class_map points labels exclude_infinite all_stats pair)
       (fun r => exists d, r = Ok d /\ keys d = pair_keys (keys all_stats) pair).
Proof.
  destruct pair as [cell_type1 cell_type2]. unfold pair_features.
  apply post_ebind.
  refine (post_mono any_answer _ _ _ _
            (post_cubical_features class_map cell_type1 cell_type2
                                   exclude_infinite all_stats)).
  intros r (d1 & -> & diag & ->).
  refine (post_mono any_answer _ _ _ _
            (post_witness_features points labels cell_type1 cell_type2
                                   exclude_infinite _)).
  intros r (d2 & -> & diag' & ->). eexists. split; [reflexivity |].
  rewrite !keys_dict_update, !keys_extract_persistence_stats.
  unfold pair_keys. cbn [fst snd]. reflexivity.
Qed.

Lemma efold_cons {A B : Type} (f : B -> A -> eprog B) (a : A) (l : list A)
  (b : B) :
  efold f (a :: l) b = ebind (f b a) (fun b' => efold f l b').
Proof. reflexivity. Qed.

Lemma fold_left_cons {A B : Type} (f : B -> A -> B) (a : A) (l : list A)
  (b : B) :
  fold_left f (a :: l) b = fold_left f l (f b a).
Proof. reflexivity. Qed.

Lemma post_features_loop (class_map : list (list Z)) (points : list point)
  (labels : list string) (exclude_infinite : bool)
  (pairs : list (string * string)) (all_stats : dict) :
  post any_answer
       (efold (pair_features class_map points labels exclude_infinite)
              pairs all_stats)
       (fun r => exists d,
            r = Ok d /\ keys d = fold_left pair_keys pairs (keys all_stats)).
Proof.
  revert all_stats. induction pairs as [| pair pairs IH]; intros all_stats.
  - exists all_stats. split; reflexivity.
  - rewrite efold_cons. apply post_ebind.
    refine (post_mono any_answer _ _ _ _
              (post_pair_features class_map points labels exclude_infinite
                                  all_stats pair)).
    intros r (d & -> & Hd).
    refine (post_mono any_answer _ _ _ _ (IH d)).
    intros r (d' & -> & Hd'). exists d'. split; [reflexivity |].
    rewrite Hd', Hd. symmetry. apply fold_left_cons.
Qed.

Lemma feature_keys_loop : fold_left pair_keys cell_pairs [] = feature_keys.
Proof. vm_compute. reflexivity. Qed.

Lemma feature_keys_count : length feature_keys = 78.
Proof. reflexivity. Qed.

Lemma feature_keys_distinct : NoDup feature_keys.
Proof.
  apply (NoDup_count_occ' string_dec). intros k Hk.
  repeat (destruct Hk as [<- | Hk]; [vm_compute; reflexivity |]).
  destruct Hk.
Qed.

(** Once the file is read and the class map computed, the record is
    produced, with the fixed keys. *)
Lemma run_compute_all_features {S : Type} (h : handler S) (s s1 s2 : S)
  (img_dir : string) (exclude_infinite : bool) (points : list point)
  (labels : list string) (class_map : list (list Z)) :
  run h (read_img img_dir) s = (Ok (points, labels), s1) ->
  run h (compute_kde points labels) s1 = (Ok class_map, s2) ->
  exists stats s3,
    run h (compute_all_features img_dir exclude_infinite) s = (Ok stats, s3) /\
    keys stats = feature_keys.
Proof.
  intros Hread Hkde. unfold compute_all_features.
  rewrite (run_ebind_ok _ _ _ _ _ _ Hread).
  rewrite (run_ebind_ok _ _ _ _ _ _ Hkde).
  pose proof (run_post h any_answer _ _ s2 (obeys_any h)
                (post_features_loop class_map points labels exclude_infinite
                                    cell_pairs [])) as Hloop.
  destruct Hloop as (d & Hd & Hkeys).
  destruct (run h (efold (pair_features class_map points labels
                                        exclude_infinite) cell_pairs []) s2)
    as [r s3] eqn:Hrun.
  cbn [fst] in Hd. subst r.
  exists d, s3. split.
  - rewrite (run_ebind_ok _ _ _ _ _ _ Hrun). reflexivity.
  - rewrite Hkeys. apply feature_keys_loop.
Qed.

(** C10.  Whenever [read_img] and [compute_kde] succeed, and whatever the
    libraries answer afterwards (diagrams of any size, or exceptions),
    [compute_all_features] returns a record whose keys are exactly the 78
    names [{cubical|witness}_{type1}_{type2}_{statistic}]: the 13 statistics
    for each of the two complex types of each of the three pairs, all
    distinct. *)
Theorem feature_record_keys {S : Type} (h : handler S) (s s1 s2 : S)
  (img_dir : string) (exclude_infinite : bool) (points : list point)
  (labels : list string) (class_map : list (list Z)) :
  run h (read_img img_dir) s = (Ok (points, labels), s1) ->
  run h (compute_kde points labels) s1 = (Ok class_map, s2) ->
  exists stats s3,
    run h (compute_all_features img_dir exclude_infinite) s = (Ok stats, s3) /\
    keys stats = feature_keys /\
    length (keys stats) = 78 /\
    NoDup (keys stats).
Proof.
  intros Hread Hkde.
  destruct (run_compute_all_features h s s1 s2 img_dir exclude_infinite
              points labels class_map Hread Hkde) as (stats & s3 & Hrun & Hk).
  exists stats, s3. rewrite Hk.
  repeat split; [exact Hrun | exact feature_keys_distinct].
Qed.

Lemma sample_compute_kde (fails : bool) :
  exists class_map,
    run (sample_library two_cells_file fails)
        (compute_kde [(Fin (3 / 10), Fin (4 / 10))] ["immune"]) tt
    = (Ok class_map, tt).
Proof.
  eexists. apply run_compute_kde.
  instantiate (1 := [ map (fun _ => Fin 1) grid_coords;
                      repeat (Fin 0) (length grid_coords);
                      repeat (Fin 0) (length grid_coords) ]).
  vm_compute. reflexivity.
Qed.

Lemma feature_record_keys_example :
  exists stats s3,
    run (sample_library two_cells_file false)
        (compute_all_features "cells.csv" true) tt = (Ok stats, s3) /\
    keys stats = feature_keys.
Proof.
  destruct (sample_compute_kde false) as [class_map Hkde].
  destruct (feature_record_keys (sample_library two_cells_file false)
              tt tt tt "cells.csv" true _ _ class_map
              (sample_read_img false) Hkde)
    as (stats & s3 & Hrun & Hkeys & _).
  exists stats, s3. split; assumption.
Defined.

(** ** Failures of one pair *)

Lemma run_print_then {S A : Type} (h : handler S) (msg : string) (a : A)
  (s : S) :
  exists s', run h (call (print msg) (fun x => Ok x) ;;; eret a)%prog s
             = (Ok a, s').
Proof.
  unfold call, ebind. cbn [bind run].
  destruct (h (print msg) s) as [x s']. exists s'. reflexivity.
Qed.

Lemma run_cubical_features_raise {S : Type} (h : handler S)
  (class_map : list (list Z)) (cell_type1 cell_type2 : string)
  (exclude_infinite : bool) (all_stats : dict) (s s1 : S) (e : exn) :
  run h (compute_cubical_complex_pair class_map cell_type1 cell_type2) s
    = (Raise e, s1) ->
  exists s2,
    run h (cubical_features class_map cell_type1 cell_type2 exclude_infinite
                            all_stats) s
    = (Ok (dict_update all_stats
             (all_missing ("cubical_" ++ cell_type1 ++ "_" ++ cell_type2))),
       s2).
Proof.
  intros Hraise. unfold cubical_features, try_except.
  rewrite run_bind, (run_ebind_raise _ _ _ _ _ _ Hraise).
  cbn [extract_persistence_stats]. rewrite nan_stats_all_missing.
  apply run_print_then.
Qed.

Lemma run_witness_features_raise {S : Type} (h : handler S)
  (points : list point) (labels : list string)
  (cell_type1 cell_type2 : string)
  (exclude_infinite : bool) (all_stats : dict) (s s1 : S) (e : exn) :
  run h (compute_witness_complex_pair points labels cell_type1 cell_type2) s
    = (Raise e, s1) ->
  exists s2,
    run h (witness_features points labels cell_type1 cell_type2
                            exclude_infinite all_stats) s
    = (Ok (dict_update all_stats
             (all_missing ("witness_" ++ cell_type1 ++ "_" ++ cell_type2))),
       s2).
Proof.
  intros Hraise. unfold witness_features, try_except.
  rewrite run_bind, (run_ebind_raise _ _ _ _ _ _ Hraise).
  cbn [extract_persistence_stats]. rewrite nan_stats_all_missing.
  apply run_print_then.
Qed.

Lemma string_app_assoc (a b c : string) : (a ++ b) ++ c = a ++ (b ++ c).
Proof. induction a as [| x a IH]; simpl; [reflexivity | rewrite IH; reflexivity]. Qed.

Lemma prefix_app (p x : string) : String.prefix p (p ++ x) = true.
Proof.
  induction p as [| c p IH]; simpl.
  - destruct x; reflexivity.
  - destruct (Ascii.ascii_dec c c) as [_ | Hne]; [exact IH | contradiction].
Qed.

Lemma last_char_app (a b : string) :
  b <> "" -> last_char (a ++ b) = last_char b.
Proof.
  intros Hb. induction a as [| c a IH]; simpl; [reflexivity |].
  rewrite IH. destruct (a ++ b) eqn:E; [| reflexivity].
  destruct a; [simpl in E; contradiction | discriminate].
Qed.

Lemma missing_of_stat_key (prefix st : string) :
  In st statistics ->
  missing_of_key (prefix ++ "_" ++ st) = missing_value st.
Proof.
  intros Hst. unfold missing_of_key.
  rewrite last_char_app by discriminate.
  unfold statistics in Hst.
  repeat (destruct Hst as [<- | Hst]; [reflexivity |]). destruct Hst.
Qed.

Lemma all_missing_entries (prefix : string) :
  Forall (fun kv => snd kv = missing_of_key (fst kv)) (all_missing prefix).
Proof.
  unfold all_missing. apply Forall_map, Forall_forall. intros st Hst.
  cbn [fst snd]. symmetry. apply missing_of_stat_key, Hst.
Qed.

Lemma run_of_post {S A : Type} (h : handler S) (p : eprog A)
  (Q : A -> Prop) (s : S) :
  post any_answer p (fun r => exists a, r = Ok a /\ Q a) ->
  exists a s', run h p s = (Ok a, s') /\ Q a.
Proof.
  intros H.
  destruct (run_post h any_answer p _ s (obeys_any h) H) as (a & Ha & HQ).
  destruct (run h p s) as [r s']. cbn [fst] in Ha. subst r.
  exists a, s'. split; [reflexivity | exact HQ].
Qed.

Lemma run_ebind_eret {S A : Type} (h : handler S) (p : eprog A) (s : S) :
  run h (ebind p (fun a => eret a)) s = run h p s.
Proof.
  unfold ebind. rewrite run_bind.
  destruct (run h p s) as [[a | e] s']; reflexivity.
Qed.

Lemma run_efold_cons {S A B : Type} (h : handler S) (f : B -> A -> eprog B)
  (a : A) (l : list A) (b b' : B) (s s' : S) :
  run h (f b a) s = (Ok b', s') ->
  run h (efold f (a :: l) b) s = run h (efold f l b') s'.
Proof. intros H. rewrite efold_cons. apply (run_ebind_ok _ _ _ _ _ _ H). Qed.

Lemma run_efold_app {S A B : Type} (h : handler S) (f : B -> A -> eprog B)
  (l1 l2 : list A) (b b1 : B) (s s1 : S) :
  run h (efold f l1 b) s = (Ok b1, s1) ->
  run h (efold f (l1 ++ l2) b) s = run h (efold f l2 b1) s1.
Proof.
  revert b s. induction l1 as [| a l1 IH]; intros b s H.
  - cbn [efold eret run] in H. injection H as -> ->. reflexivity.
  - rewrite efold_cons in H. apply run_ebind_inv in H.
    destruct H as (b' & s' & Ha & H).
    cbn [app]. rewrite (run_efold_cons _ _ _ _ _ _ _ _ Ha). apply IH, H.
Qed.

Lemma stat_keys_prefix (prefix k : string) :
  In k (stat_keys prefix) -> String.prefix prefix k = true.
Proof.
  unfold stat_keys. rewrite in_map_iff. intros [st [<- _]]. apply prefix_app.
Qed.

Lemma dict_get_stats_other (d : dict) (diag : diagram) (prefix : string)
  (exclude_infinite : bool) (max_finite_value : option float64) (k : string) :
  String.prefix prefix k = false ->
  dict_get (dict_update d (extract_persistence_stats
                             diag prefix exclude_infinite max_finite_value)) k
  = dict_get d k.
Proof.
  intros Hk. apply dict_get_update_other.
  rewrite keys_extract_persistence_stats. intros Hin.
  apply stat_keys_prefix in Hin. congruence.
Qed.

Lemma dict_get_all_missing (d : dict) (prefix st : string) :
  In st statistics ->
  dict_get (dict_update d (all_missing prefix)) (prefix ++ "_" ++ st)
  = Some (missing_value st).
Proof.
  intros Hst. rewrite dict_get_update_missing.
  - f_equal. apply missing_of_stat_key, Hst.
  - apply all_missing_entries.
  - rewrite keys_all_missing. unfold stat_keys. apply in_map_iff.
    exists st. split; [reflexivity | exact Hst].
Qed.

(** A turn of the loop for another pair leaves a key alone. *)
Lemma post_pair_features_keeps (class_map : list (list Z))
  (points : list point) (labels : list string) (exclude_infinite : bool)
  (all_stats : dict) (pair : string * string) (k : string) :
  other_prefixes pair k ->
  post any_answer
       (pair_features class_map points labels exclude_infinite all_stats pair)
       (fun r => exists d, r = Ok d /\ dict_get d k = dict_get all_stats k).
Proof.
  destruct pair as [a b]. intros [Hc Hw]. cbn [fst snd] in Hc, Hw.
  unfold pair_features. apply post_ebind.
  refine (post_mono any_answer _ _ _ _
            (post_cubical_features class_map a b exclude_infinite all_stats)).
  intros r (d1 & -> & diag & ->).
  refine (post_mono any_answer _ _ _ _
            (post_witness_features points labels a b exclude_infinite _)).
  intros r (d2 & -> & diag' & ->). eexists. split; [reflexivity |].
  rewrite dict_get_stats_other by exact Hw.
  apply dict_get_stats_other, Hc.
Qed.

Lemma post_features_loop_keeps (class_map : list (list Z))
  (points : list point) (labels : list string) (exclude_infinite : bool)
  (pairs : list (string * string)) (all_stats : dict) (k : string) :
  Forall (fun pair => other_prefixes pair k) pairs ->
  post any_answer
       (efold (pair_features class_map points labels exclude_infinite)
              pairs all_stats)
       (fun r => exists d, r = Ok d /\ dict_get d k = dict_get all_stats k).
Proof.
  intros Hpairs. revert all_stats.
  induction Hpairs as [| pair pairs Hpair _ IH]; intros all_stats.
  - exists all_stats. split; reflexivity.
  - rewrite efold_cons. apply post_ebind.
    refine (post_mono any_answer _ _ _ _
              (post_pair_features_keeps class_map points labels
                                        exclude_infinite all_stats pair k
                                        Hpair)).
    intros r (d & -> & Hd).
    refine (post_mono any_answer _ _ _ _ (IH d)).
    intros r (d' & -> & Hd'). exists d'. split; [reflexivity |].
    rewrite Hd', Hd. reflexivity.
Qed.

(** The pairs that come later in [cell_pairs] write under other prefixes. *)
Lemma later_pairs_other_keys (k : nat) (type1 type2 complexType st : string) :
  nth_error cell_pairs k = Some (type1, type2) ->
  complexType = "cubical" \/ complexType = "witness" ->
  Forall (fun pair =>
            other_prefixes pair (field_name complexType type1 type2 st))
         (skipn (S k) cell_pairs).
Proof.
  intros Hk Hc. unfold cell_pairs in *.
  destruct k as [| [| [| k]]]; cbn [nth_error] in Hk;
    try (destruct k; discriminate);
    injection Hk as <- <-; destruct Hc as [-> | ->];
    cbn [skipn]; repeat constructor.
Qed.

Lemma split_at_nth {A : Type} (l : list A) (k : nat) (a : A) :
  nth_error l k = Some a -> l = (firstn k l ++ a :: skipn (S k) l)%list.
Proof.
  revert k. induction l as [| x l IH]; intros [| k] H; try discriminate.
  - injection H as ->. reflexivity.
  - cbn [firstn skipn app]. f_equal. apply IH, H.
Qed.

Lemma run_compute_all_features_loop {S : Type} (h : handler S) (s s1 s2 : S)
  (img_dir : string) (exclude_infinite : bool) (points : list point)
  (labels : list string) (class_map : list (list Z)) :
  run h (read_img img_dir) s = (Ok (points, labels), s1) ->
  run h (compute_kde points labels) s1 = (Ok class_map, s2) ->
  run h (compute_all_features img_dir exclude_infinite) s =
  run h (efold (pair_features class_map points labels exclude_infinite)
               cell_pairs []) s2.
Proof.
  intros Hread Hkde. unfold compute_all_features.
  rewrite (run_ebind_ok _ _ _ _ _ _ Hread).
  rewrite (run_ebind_ok _ _ _ _ _ _ Hkde).
  apply run_ebind_eret.
Qed.

Lemma field_name_cubical (type1 type2 st : string) :
  field_name "cubical" type1 type2 st
  = ("cubical_" ++ type1 ++ "_" ++ type2) ++ "_" ++ st.
Proof. unfold field_name. rewrite !string_app_assoc. reflexivity. Qed.

Lemma field_name_witness (type1 type2 st : string) :
  field_name "witness" type1 type2 st
  = ("witness_" ++ type1 ++ "_" ++ type2) ++ "_" ++ st.
Proof. unfold field_name. rewrite !string_app_assoc. reflexivity. Qed.

(** What the record holds after a turn of the loop whose cubical, or
    witness, computation raised. *)
Lemma run_loop_after_cubical_raise {S : Type} (h : handler S)
  (class_map : list (list Z)) (points : list point) (labels : list string)
  (exclude_infinite : bool) (type1 type2 : string)
  (rest : list (string * string)) (d : dict) (s s' : S) (e : exn)
  (st : string) :
  run h (compute_cubical_complex_pair class_map type1 type2) s = (Raise e, s') ->
  Forall (fun pair => other_prefixes pair (field_name "cubical" type1 type2 st))
         rest ->
  In st statistics ->
  exists stats s3,
    run h (efold (pair_features class_map points labels exclude_infinite)
                 ((type1, type2) :: rest) d) s = (Ok stats, s3) /\
    dict_get stats (field_name "cubical" type1 type2 st)
    = Some (missing_value st).
Proof.
  intros Hraise Hrest Hst.
  destruct (run_cubical_features_raise h class_map type1 type2
              exclude_infinite d s s' e Hraise) as [sa Ha].
  destruct (run_of_post h _ _ sa
              (post_witness_features points labels type1 type2
                 exclude_infinite
                 (dict_update d (all_missing ("cubical_" ++ type1 ++ "_"
                                                         ++ type2)))))
    as (db & sb & Hb & diag & Hdb).
  destruct (run_of_post h _ _ sb
              (post_features_loop_keeps class_map points labels
                 exclude_infinite rest db _ Hrest))
    as (stats & s3 & Hloop & Hkeep).
  exists stats, s3. split.
  - rewrite (run_efold_cons h _ (type1, type2) rest d db s sb);
      [exact Hloop |].
    unfold pair_features. rewrite (run_ebind_ok _ _ _ _ _ _ Ha). exact Hb.
  - rewrite Hkeep, Hdb. rewrite dict_get_stats_other by reflexivity.
    rewrite field_name_cubical.
    apply (dict_get_all_missing d ("cubical_" ++ type1 ++ "_" ++ type2) st Hst).
Qed.

Lemma run_loop_after_witness_raise {S : Type} (h : handler S)
  (class_map : list (list Z)) (points : list point) (labels : list string)
  (exclude_infinite : bool) (type1 type2 : string)
  (rest : list (string * string)) (d d' : dict) (s sw s' : S) (e : exn)
  (st : string) :
  run h (cubical_features class_map type1 type2 exclude_infinite d) s
    = (Ok d', sw) ->
  run h (compute_witness_complex_pair points labels type1 type2) sw
    = (Raise e, s') ->
  Forall (fun pair => other_prefixes pair (field_name "witness" type1 type2 st))
         rest ->
  In st statistics ->
  exists stats s3,
    run h (efold (pair_features class_map points labels exclude_infinite)
                 ((type1, type2) :: rest) d) s = (Ok stats, s3) /\
    dict_get stats (field_name "witness" type1 type2 st)
    = Some (missing_value st).
Proof.
  intros Hcubical Hraise Hrest Hst.
  destruct (run_witness_features_raise h points labels type1 type2
              exclude_infinite d' sw s' e Hraise) as [sb Hb].
  destruct (run_of_post h _ _ sb
              (post_features_loop_keeps
                 class_map points labels exclude_infinite rest
                 (dict_update d' (all_missing ("witness_" ++ type1 ++ "_"
                                                          ++ type2)))
                 _ Hrest))
    as (stats & s3 & Hloop & Hkeep).
  exists stats, s3. split.
  - rewrite (run_efold_cons
               h _ (type1, type2) rest d
               (dict_update d' (all_missing ("witness_" ++ type1 ++ "_"
                                                        ++ type2)))
               s sb); [exact Hloop |].
    unfold pair_features. rewrite (run_ebind_ok _ _ _ _ _ _ Hcubical).
    exact Hb.
  - rewrite Hkeep, field_name_witness.
    apply (dict_get_all_missing d' ("witness_" ++ type1 ++ "_" ++ type2) st Hst).
Qed.

Lemma dict_get_update_present (other d : dict) (k : string) :
  NoDup (keys other) -> In k (keys other) ->
  dict_get (dict_update d other) k = dict_get other k.
Proof.
  revert d. induction other as [| [k1 v1] other IH]; intros d Hnd Hin;
    [destruct Hin |].
  cbn [keys map fst] in Hnd, Hin.
  inversion Hnd as [| ? ? Hfresh Hnd']; subst.
  change (dict_update d ((k1, v1) :: other))
    with (dict_update (dict_set d k1 v1) other).
  cbn [dict_get]. destruct (String.eqb_spec k1 k) as [-> | Hne].
  - rewrite dict_get_update_other by exact Hfresh.
    rewrite dict_get_set, String.eqb_refl. reflexivity.
  - destruct Hin as [E | Hin]; [contradiction |]. apply IH; assumption.
Qed.

Lemma dict_get_stats_present (d : dict) (diag : diagram) (prefix : string)
  (exclude_infinite : bool) (max_finite_value : option float64) (st : string) :
  In st statistics ->
  dict_get (dict_update d (extract_persistence_stats
                             diag prefix exclude_infinite max_finite_value))
           (prefix ++ "_" ++ st)
  = dict_get (extract_persistence_stats diag prefix exclude_infinite
                                        max_finite_value)
             (prefix ++ "_" ++ st).
Proof.
  intros Hst. apply dict_get_update_present;
    rewrite keys_extract_persistence_stats.
  - apply NoDup_stat_keys.
  - unfold stat_keys. apply (in_map (fun st => prefix ++ "_" ++ st)), Hst.
Qed.

Lemma run_cubical_features_ok {S : Type} (h : handler S)
  (class_map : list (list Z)) (cell_type1 cell_type2 : string)
  (exclude_infinite : bool) (all_stats : dict) (s s1 : S)
  (cubical_complex : CubicalComplex_obj) (diag : diagram) :
  run h (compute_cubical_complex_pair class_map cell_type1 cell_type2) s
    = (Ok (cubical_complex, diag), s1) ->
  run h (cubical_features class_map cell_type1 cell_type2 exclude_infinite
                          all_stats) s
  = (Ok (dict_update all_stats
           (extract_persistence_stats
              diag ("cubical_" ++ cell_type1 ++ "_" ++ cell_type2)
              exclude_infinite None)), s1).
Proof.
  intros Hok. unfold cubical_features, try_except.
  rewrite run_bind, (run_ebind_ok _ _ _ _ _ _ Hok). reflexivity.
Qed.

Lemma run_witness_features_ok {S : Type} (h : handler S)
  (points : list point) (labels : list string)
  (cell_type1 cell_type2 : string)
  (exclude_infinite : bool) (all_stats : dict) (s s1 : S)
  (witness_complex : option EuclideanWitnessComplex_obj)
  (simplex_tree : option SimplexTree_obj) (diag : diagram) :
  run h (compute_witness_complex_pair points labels cell_type1 cell_type2) s
    = (Ok (witness_complex, simplex_tree, diag), s1) ->
  run h (witness_features points labels cell_type1 cell_type2
                          exclude_infinite all_stats) s
  = (Ok (dict_update all_stats
           (extract_persistence_stats
              diag ("witness_" ++ cell_type1 ++ "_" ++ cell_type2)
              exclude_infinite None)), s1).
Proof.
  intros Hok. unfold witness_features, try_except.
  rewrite run_bind, (run_ebind_ok _ _ _ _ _ _ Hok). reflexivity.
Qed.

Lemma run_loop_after_cubical_ok {S : Type} (h : handler S)
  (class_map : list (list Z)) (points : list point) (labels : list string)
  (exclude_infinite : bool) (type1 type2 : string)
  (rest : list (string * string)) (d : dict) (s s' : S)
  (cubical_complex : CubicalComplex_obj) (diag : diagram) (st : string) :
  run h (compute_cubical_complex_pair class_map type1 type2) s
    = (Ok (cubical_complex, diag), s') ->
  Forall (fun pair => other_prefixes pair (field_name "cubical" type1 type2 st))
         rest ->
  In st statistics ->
  exists stats s3,
    run h (efold (pair_features class_map points labels exclude_infinite)
                 ((type1, type2) :: rest) d) s = (Ok stats, s3) /\
    dict_get stats (field_name "cubical" type1 type2 st)
    = dict_get (extract_persistence_stats
                  diag ("cubical_" ++ type1 ++ "_" ++ type2)
                  exclude_infinite None)
               (("cubical_" ++ type1 ++ "_" ++ type2) ++ "_" ++ st).
Proof.
  intros Hok Hrest Hst.
  pose proof (run_cubical_features_ok h class_map type1 type2
                exclude_infinite d s s' cubical_complex diag Hok) as Ha.
  destruct (run_of_post h _ _ s'
              (post_witness_features points labels type1 type2
                 exclude_infinite
                 (dict_update d (extract_persistence_stats
                                   diag ("cubical_" ++ type1 ++ "_" ++ type2)
                                   exclude_infinite None))))
    as (db & sb & Hb & diag' & Hdb).
  destruct (run_of_post h _ _ sb
              (post_features_loop_keeps class_map points labels
                 exclude_infinite rest db _ Hrest))
    as (stats & s3 & Hloop & Hkeep).
  exists stats, s3. split.
  - rewrite (run_efold_cons h _ (type1, type2) rest d db s sb);
      [exact Hloop |].
    unfold pair_features. rewrite (run_ebind_ok _ _ _ _ _ _ Ha). exact Hb.
  - rewrite Hkeep, Hdb. rewrite dict_get_stats_other by reflexivity.
    rewrite field_name_cubical.
    apply dict_get_stats_present, Hst.
Qed.

Lemma run_loop_after_witness_ok {S : Type} (h : handler S)
  (class_map : list (list Z)) (points : list point) (labels : list string)
  (exclude_infinite : bool) (type1 type2 : string)
  (rest : list (string * string)) (d d' : dict) (s sw s' : S)
  (witness_complex : option EuclideanWitnessComplex_obj)
  (simplex_tree : option SimplexTree_obj) (diag : diagram) (st : string) :
  run h (cubical_features class_map type1 type2 exclude_infinite d) s
    = (Ok d', sw) ->
  run h (compute_witness_complex_pair points labels type1 type2) sw
    = (Ok (witness_complex, simplex_tree, diag), s') ->
  Forall (fun pair => other_prefixes pair (field_name "witness" type1 type2 st))
         rest ->
  In st statistics ->
  exists stats s3,
    run h (efold (pair_features class_map points labels exclude_infinite)
                 ((type1, type2) :: rest) d) s = (Ok stats, s3) /\
    dict_get stats (field_name "witness" type1 type2 st)
    = dict_get (extract_persistence_stats
                  diag ("witness_" ++ type1 ++ "_" ++ type2)
                  exclude_infinite None)
               (("witness_" ++ type1 ++ "_" ++ type2) ++ "_" ++ st).
Proof.
  intros Hcubical Hok Hrest Hst.
  pose proof (run_witness_features_ok h points labels type1 type2
                exclude_infinite d' sw s' witness_complex simplex_tree diag
                Hok) as Hb.
  destruct (run_of_post h _ _ s'
              (post_features_loop_keeps
                 class_map points labels exclude_infinite rest
                 (dict_update d' (extract_persistence_stats
                                    diag ("witness_" ++ type1 ++ "_" ++ type2)
                                    exclude_infinite None))
                 _ Hrest))
    as (stats & s3 & Hloop & Hkeep).
  exists stats, s3. split.
  - rewrite (run_efold_cons
               h _ (type1, type2) rest d
               (dict_update d' (extract_persistence_stats
                                  diag ("witness_" ++ type1 ++ "_" ++ type2)
                                  exclude_infinite None))
               s s'); [exact Hloop |].
    unfold pair_features. rewrite (run_ebind_ok _ _ _ _ _ _ Hcubical).
    exact Hb.
  - rewrite Hkeep, field_name_witness.
    apply dict_get_stats_present, Hst.
Qed.

(** C8.  Once the file is read and the class map computed,
    [compute_all_features] returns its record whatever the libraries do
    afterwards, and every turn of the loop is taken: for each pair of
    [cell_pairs] the turns before it return, its cubical block returns, and
    its witness computation is started in the state the cubical block
    leaves, whether the cubical computation raised or not.  When the cubical
    computation of the pair raises, the exception is caught and the returned
    record holds the all-missing statistics under [cubical_{type1}_{type2}_];
    when it returns a diagram, the record holds the thirteen statistics of
    that diagram.  The same holds of the witness computation of the pair
    and [witness_{type1}_{type2}_].  So a failure costs the record the one
    block of the one pair, and every other block holds what its own
    computation gave. *)
Theorem pair_failure_isolated {S : Type} (h : handler S) (s s1 s2 : S)
  (img_dir : string) (exclude_infinite : bool) (points : list point)
  (labels : list string) (class_map : list (list Z)) :
  run h (read_img img_dir) s = (Ok (points, labels), s1) ->
  run h (compute_kde points labels) s1 = (Ok class_map, s2) ->
  exists stats s3,
    run h (compute_all_features img_dir exclude_infinite) s = (Ok stats, s3) /\
    forall k type1 type2,
      nth_error cell_pairs k = Some (type1, type2) ->
      exists dk sk d' sw,
        run h (efold (pair_features class_map points labels exclude_infinite)
                     (firstn k cell_pairs) []) s2 = (Ok dk, sk) /\
        run h (cubical_features class_map type1 type2 exclude_infinite dk) sk
          = (Ok d', sw) /\
        (forall e s',
            run h (compute_cubical_complex_pair class_map type1 type2) sk
              = (Raise e, s') ->
            forall st, In st statistics ->
              dict_get stats (field_name "cubical" type1 type2 st)
              = Some (missing_value st)) /\
        (forall e s',
            run h (compute_witness_complex_pair points labels type1 type2) sw
              = (Raise e, s') ->
            forall st, In st statistics ->
              dict_get stats (field_name "witness" type1 type2 st)
              = Some (missing_value st)) /\
        (forall cubical_complex diag s',
            run h (compute_cubical_complex_pair class_map type1 type2) sk
              = (Ok (cubical_complex, diag), s') ->
            forall st, In st statistics ->
              dict_get stats (field_name "cubical" type1 type2 st)
              = dict_get (extract_persistence_stats
                            diag ("cubical_" ++ type1 ++ "_" ++ type2)
                            exclude_infinite None)
                         (("cubical_" ++ type1 ++ "_" ++ type2) ++ "_" ++ st)) /\
        (forall witness_complex simplex_tree diag s',
            run h (compute_witness_complex_pair points labels type1 type2) sw
              = (Ok (witness_complex, simplex_tree, diag), s') ->
            forall st, In st statistics ->
              dict_get stats (field_name "witness" type1 type2 st)
              = dict_get (extract_persistence_stats
                            diag ("witness_" ++ type1 ++ "_" ++ type2)
                            exclude_infinite None)
                         (("witness_" ++ type1 ++ "_" ++ type2) ++ "_" ++ st)).
Proof.
  intros Hread Hkde.
  destruct (run_compute_all_features h s s1 s2 img_dir exclude_infinite
              points labels class_map Hread Hkde) as (stats & s3 & Hrun & _).
  exists stats, s3. split; [exact Hrun |].
  intros k type1 type2 Hk.
  destruct (run_of_post h _ _ s2
              (post_features_loop class_map points labels exclude_infinite
                                  (firstn k cell_pairs) []))
    as (dk & sk & Hbefore & _).
  destruct (run_of_post h _ _ sk
              (post_cubical_features class_map type1 type2 exclude_infinite
                                     dk))
    as (d' & sw & Hcubical & _).
  exists dk, sk, d', sw.
  split; [exact Hbefore |]. split; [exact Hcubical |].
  rewrite (run_compute_all_features_loop h s s1 s2 img_dir exclude_infinite
             points labels class_map Hread Hkde) in Hrun.
  rewrite (split_at_nth cell_pairs k _ Hk) in Hrun.
  rewrite (run_efold_app h _ _ _ _ _ _ _ Hbefore) in Hrun.
  split; [| split; [| split]].
  - intros e s' Hraise st Hst.
    destruct (run_loop_after_cubical_raise
                h class_map points labels exclude_infinite type1 type2
                (skipn (Datatypes.S k) cell_pairs) dk sk s' e st Hraise
                (later_pairs_other_keys k type1 type2 "cubical" st Hk
                                        (or_introl eq_refl)) Hst)
      as (stats' & s3' & Hrun' & Hget).
    rewrite Hrun in Hrun'. injection Hrun' as <- _. exact Hget.
  - intros e s' Hraise st Hst.
    destruct (run_loop_after_witness_raise
                h class_map points labels exclude_infinite type1 type2
                (skipn (Datatypes.S k) cell_pairs) dk d' sk sw s' e st
                Hcubical Hraise
                (later_pairs_other_keys k type1 type2 "witness" st Hk
                                        (or_intror eq_refl)) Hst)
      as (stats' & s3' & Hrun' & Hget).
    rewrite Hrun in Hrun'. injection Hrun' as <- _. exact Hget.
  - intros cubical_complex diag s' Hok st Hst.
    destruct (run_loop_after_cubical_ok
                h class_map points labels exclude_infinite type1 type2
                (skipn (Datatypes.S k) cell_pairs) dk sk s' cubical_complex
                diag st Hok
                (later_pairs_other_keys k type1 type2 "cubical" st Hk
                                        (or_introl eq_refl)) Hst)
      as (stats' & s3' & Hrun' & Hget).
    rewrite Hrun in Hrun'. injection Hrun' as <- _. exact Hget.
  - intros witness_complex simplex_tree diag s' Hok st Hst.
    destruct (run_loop_after_witness_ok
                h class_map points labels exclude_infinite type1 type2
                (skipn (Datatypes.S k) cell_pairs) dk d' sk sw s'
                witness_complex simplex_tree diag st Hcubical Hok
                (later_pairs_other_keys k type1 type2 "witness" st Hk
                                        (or_intror eq_refl)) Hst)
      as (stats' & s3' & Hrun' & Hget).
    rewrite Hrun in Hrun'. injection Hrun' as <- _. exact Hget.
Qed.

Lemma sample_cubical_raises (class_map : list (list Z)) :
  run (sample_library nine_cells_file true)
      (compute_cubical_complex_pair class_map "tumor" "immune") tt
  = (Raise "RuntimeError", tt).
Proof. reflexivity. Qed.

Lemma sample_cubical_raises_any (class_map : list (list Z))
  (type1 type2 : string) :
  In (type1, type2) cell_pairs ->
  run (sample_library nine_cells_file true)
      (compute_cubical_complex_pair class_map type1 type2) tt
  = (Raise "RuntimeError", tt).
Proof.
  intros [H | [H | [H | []]]]; injection H as <- <-; reflexivity.
Qed.

Lemma nine_cells_read (fails : bool) :
  run (sample_library nine_cells_file fails) (read_img "cells.csv") tt
  = (Ok (nine_points, nine_labels), tt).
Proof. reflexivity. Qed.

Lemma nine_cells_class_map (fails : bool) :
  exists class_map,
    run (sample_library nine_cells_file fails)
        (compute_kde nine_points nine_labels) tt
    = (Ok class_map, tt).
Proof.
  eexists. apply run_compute_kde.
  instantiate (1 := [ map (fun _ => Fin 1) grid_coords;
                      map (fun _ => Fin 1) grid_coords;
                      map (fun _ => Fin 1) grid_coords ]).
  vm_compute. reflexivity.
Qed.

Lemma nine_cells_witness (fails : bool) (type1 type2 : string) :
  In (type1, type2) cell_pairs ->
  exists witness_complex simplex_tree,
    run (sample_library nine_cells_file fails)
        (compute_witness_complex_pair nine_points nine_labels type1 type2) tt
    = (Ok (witness_complex, simplex_tree, [(0%Z, (Fin 0, Fin (1 / 10)))]), tt).
Proof.
  intros [H | [H | [H | []]]]; injection H as <- <-;
    do 2 eexists; reflexivity.
Qed.

Lemma pair_failure_isolated_example :
  exists stats s3,
    run (sample_library nine_cells_file true)
        (compute_all_features "cells.csv" true) tt = (Ok stats, s3) /\
    dict_get stats "cubical_tumor_immune_birth_min" = Some (PyFloat NaN) /\
    dict_get stats "cubical_tumor_immune_n_features" = Some (PyInt 0) /\
    dict_get stats "witness_tumor_immune_n_features" = Some (PyInt 1) /\
    dict_get stats "cubical_immune_stromal_n_features" = Some (PyInt 0) /\
    dict_get stats "witness_immune_stromal_n_features" = Some (PyInt 1).
Proof.
  destruct (nine_cells_class_map true) as [class_map Hkde].
  destruct (pair_failure_isolated (sample_library nine_cells_file true)
              tt tt tt "cells.csv" true _ _ class_map
              (nine_cells_read true) Hkde)
    as (stats & s3 & Hrun & Hturn).
  exists stats, s3. split; [exact Hrun |].
  destruct (Hturn 0 "tumor" "immune" eq_refl)
    as (dk & [] & d' & [] & _ & _ & Hcubical & _ & _ & Hwitness).
  destruct (Hturn 2 "immune" "stromal" eq_refl)
    as (dk2 & [] & d2 & [] & _ & _ & Hcubical2 & _ & _ & Hwitness2).
  destruct (nine_cells_witness true "tumor" "immune")
    as (witness_complex & simplex_tree & Hdiag);
    [left; reflexivity |].
  destruct (nine_cells_witness true "immune" "stromal")
    as (witness_complex2 & simplex_tree2 & Hdiag2);
    [right; right; left; reflexivity |].
  split; [| split; [| split; [| split]]].
  - apply (Hcubical "RuntimeError" tt (sample_cubical_raises class_map)
                    "birth_min").
    simpl. auto.
  - apply (Hcubical "RuntimeError" tt (sample_cubical_raises class_map)
                    "n_features").
    simpl. auto 20.
  - refine (eq_trans (Hwitness witness_complex simplex_tree _ tt Hdiag
                               "n_features" _) _);
      [simpl; auto 20 | reflexivity].
  - apply (Hcubical2 "RuntimeError" tt
                     (sample_cubical_raises_any class_map "immune" "stromal"
                        (or_intror (or_intror (or_introl eq_refl))))
                     "n_features").
    simpl. auto 20.
  - refine (eq_trans (Hwitness2 witness_complex2 simplex_tree2 _ tt Hdiag2
                                "n_features" _) _);
      [simpl; auto 20 | reflexivity].
Defined.

(** ** Features by homology dimension *)

Lemma stats_by_dimension_cons (diag_of : Z -> diagram) (prefix : string)
  (dim : Z) (dims : list Z) (exclude_infinite : bool) (d : dict) :
  stats_by_dimension diag_of prefix (dim :: dims) exclude_infinite d =
  stats_by_dimension diag_of prefix dims exclude_infinite
    (dict_update d (extract_persistence_stats
                      (diag_of dim) (prefix ++ "_h" ++ str_of_int dim)
                      exclude_infinite None)).
Proof. reflexivity. Qed.

(** The loop over the dimensions leaves every other key alone. *)
Lemma stats_by_dimension_other (diag_of : Z -> diagram) (prefix : string)
  (dims : list Z) (exclude_infinite : bool) (d : dict) (k : string) :
  ~ In k (dimension_keys prefix dims) ->
  dict_get (stats_by_dimension diag_of prefix dims exclude_infinite d) k
  = dict_get d k.
Proof.
  revert d. induction dims as [| dim dims IH]; intros d Hk.
  - reflexivity.
  - rewrite stats_by_dimension_cons.
    rewrite IH.
    + apply dict_get_update_other.
      rewrite keys_extract_persistence_stats. intros Hin. apply Hk.
      unfold dimension_keys. cbn [flat_map]. apply in_or_app. left. exact Hin.
    + intros Hin. apply Hk. unfold dimension_keys. cbn [flat_map].
      apply in_or_app. right. exact Hin.
Qed.

Lemma dimension_keys_prefix (prefix : string) (dims : list Z) (k : string) :
  In k (dimension_keys prefix dims) -> String.prefix prefix k = true.
Proof.
  unfold dimension_keys. rewrite in_flat_map. intros [dim [_ Hk]].
  unfold stat_keys in Hk. apply in_map_iff in Hk. destruct Hk as [st [<- _]].
  rewrite string_app_assoc. apply prefix_app.
Qed.

Lemma stats_by_dimension_other_prefix (diag_of : Z -> diagram)
  (prefix : string) (dims : list Z) (exclude_infinite : bool) (d : dict)
  (k : string) :
  String.prefix prefix k = false ->
  dict_get (stats_by_dimension diag_of prefix dims exclude_infinite d) k
  = dict_get d k.
Proof.
  intros Hk. apply stats_by_dimension_other. intros Hin.
  apply dimension_keys_prefix in Hin. congruence.
Qed.


Lemma post_cubical_by_dimension (class_map : list (list Z))
  (cell_type1 cell_type2 : string) (dims : list Z) (exclude_infinite : bool)
  (all_stats : dict) :
  post any_answer
       (cubical_features_by_dimension class_map cell_type1 cell_type2 dims
                                      exclude_infinite all_stats)
       (fun r => exists diag_of,
            r = Ok (stats_by_dimension
                      diag_of ("cubical_" ++ cell_type1 ++ "_" ++ cell_type2)
                      dims exclude_infinite all_stats)).
Proof.
  unfold cubical_features_by_dimension.
  apply post_try_except, post_ebind, post_forall.
  intros [[c diag] | e].
  - simpl. eexists. reflexivity.
  - simpl. intros _ _. eexists. reflexivity.
Qed.

Lemma post_witness_by_dimension (points : list point) (labels : list string)
  (cell_type1 cell_type2 : string) (dims : list Z) (exclude_infinite : bool)
  (all_stats : dict) :
  post any_answer
       (witness_features_by_dimension points labels cell_type1 cell_type2 dims
                                      exclude_infinite all_stats)
       (fun r => exists diag_of,
            r = Ok (stats_by_dimension
                      diag_of ("witness_" ++ cell_type1 ++ "_" ++ cell_type2)
                      dims exclude_infinite all_stats)).
Proof.
  unfold witness_features_by_dimension.
  apply post_try_except, post_ebind, post_forall.
  intros [[[w t] diag] | e].
  - simpl. eexists. reflexivity.
  - simpl. intros _ _. eexists. reflexivity.
Qed.












(* ================================================================= *)
(** * Further properties of the code *)

(** ** read_img: errors and the shape of its result *)


Lemma run_pd_read_csv {S : Type} (h : handler S) (s s' : S) (path : string)
  (file : list (list field)) :
  h (csv_records path) s = (Ok file, s') ->
  run h (pd_read_csv path) s =
  (match file with
   | [] => Raise "EmptyDataError: No columns to parse from file"
   | header :: data =>
       if forallb (fun row => length row <=? table_width header data) data
       then Ok {| columns := map as_str header;
                  rows := map (fun row =>
                                 skipn (table_width header data - length header)
                                       (pad_row (table_width header data) row))
                              data |}
       else Raise "ParserError: Error tokenizing data"
   end, s').
Proof.
  intros Hfile. unfold pd_read_csv, call. cbn [ebind bind run].
  rewrite Hfile. destruct file as [| header data]; [reflexivity |].
  cbv zeta.
  destruct (forallb (fun row => length row <=? table_width header data) data);
    reflexivity.
Qed.




(** X2.  A file whose first record does not have three fields is refused: the
    assignment of the three column names raises (or the parser does, when
    a later record is longer than the header and than the first record
    after it). *)
Theorem read_img_wrong_column_count {S : Type} (h : handler S) (s s' : S)
  (path : string) (header : list field) (data : list (list field)) :
  h (csv_records path) s = (Ok (header :: data), s') ->
  length header <> 3 ->
  exists e, run h (read_img path) s = (Raise e, s').
Proof.
  intros Hfile Hheader. unfold read_img.
  pose proof (run_pd_read_csv h s s' path _ Hfile) as Hdf.
  cbn match in Hdf.
  destruct (forallb (fun row => length row <=? table_width header data) data).
  - rewrite (run_ebind_ok _ _ _ _ _ _ Hdf).
    unfold set_columns. cbn [columns rows length].
    rewrite length_map.
    destruct (Nat.eqb_spec 3 (length header)) as [E | _]; [congruence |].
    eexists. reflexivity.
  - eexists. apply (run_ebind_raise _ _ _ _ _ _ Hdf).
Qed.

Lemma read_img_wrong_column_count_example :
  exists e,
    run (sample_library two_column_file false) (read_img "cells.csv") tt
    = (Raise e, tt).
Proof.
  apply (read_img_wrong_column_count
           (sample_library two_column_file false) tt tt "cells.csv"
           [txt "x"; txt "y"]
           [[num (1 / 10) "0.1"; num (2 / 10) "0.2"]]).
  - reflexivity.
  - simpl. lia.
Defined.

Lemma rmap_row_point_raise (data : list (list field)) :
  existsb (fun row => negb (numeric_row row)) data = true ->
  rmap row_point data = Raise "ValueError: could not convert string to float".
Proof.
  induction data as [| row data IH]; simpl; [discriminate |].
  unfold row_point at 1, numeric_row at 1.
  destruct (as_float64 (nth 0 row missing_field)) as [x |]; [| reflexivity].
  destruct (as_float64 (nth 1 row missing_field)) as [y |]; [| reflexivity].
  cbn [negb orb rbind]. intros H. rewrite (IH H). reflexivity.
Qed.

(** X3.  A file of three columns in which some record has a first or second
    field that is not a number is refused with a [ValueError]. *)
Theorem read_img_non_numeric {S : Type} (h : handler S) (s s' : S)
  (path : string) (header : list field) (data : list (list field)) :
  h (csv_records path) s = (Ok (header :: data), s') ->
  length header = 3 ->
  forallb (fun row => length row =? 3) data = true ->
  existsb (fun row => negb (numeric_row row)) data = true ->
  run h (read_img path) s
  = (Raise "ValueError: could not convert string to float", s').
Proof.
  intros Hfile Hheader Hrows Hbad. unfold read_img.
  rewrite (run_ebind_ok _ _ _ _ _ _
             (run_pd_read_csv_cells h s s' path header data Hfile Hheader
                                    Hrows)).
  unfold set_columns. cbn [columns rows length].
  rewrite length_map, Hheader. cbn [Nat.eqb].
  rewrite ebind_lift_ok. cbn [rows].
  rewrite (rmap_row_point_raise data Hbad). reflexivity.
Qed.

Lemma read_img_non_numeric_example :
  run (sample_library bad_coordinate_file false) (read_img "cells.csv") tt
  = (Raise "ValueError: could not convert string to float", tt).
Proof.
  apply (read_img_non_numeric
           (sample_library bad_coordinate_file false) tt tt "cells.csv"
           [txt "x"; txt "y"; txt "type"]
           [ [num (1 / 10) "0.1"; num (2 / 10) "0.2"; txt "tumor"];
             [txt "abc"; num (4 / 10) "0.4"; txt "immune"] ]);
    reflexivity.
Defined.

(** ** Selecting the points of a type *)

Lemma select_by_label (points : list point) (labels : list string)
  (label : string) :
  length points = length labels ->
  select_rows points (label_mask labels label) =
  Ok (map fst (filter (fun pl => String.eqb (snd pl) label)
                      (combine points labels))).
Proof.
  revert labels. induction points as [| pt points IH];
    intros [| l labels] Hlen; try discriminate.
  - reflexivity.
  - simpl in Hlen. injection Hlen as Hlen.
    cbn [label_mask map select_rows combine filter snd].
    fold (label_mask labels label). rewrite (IH labels Hlen). cbn [rbind].
    destruct (String.eqb l label); reflexivity.
Qed.

Lemma select_rows_mismatch {A : Type} (xs : list A) (mask : list bool) :
  length xs <> length mask ->
  select_rows xs mask
  = Raise "IndexError: boolean index did not match indexed array".
Proof.
  revert mask. induction xs as [| x xs IH]; intros [| b mask] Hlen;
    try reflexivity.
  - contradiction.
  - cbn [select_rows]. rewrite IH; [reflexivity |].
    simpl in Hlen. intros E. apply Hlen. f_equal. exact E.
Qed.

(** X4.  When the two arrays differ in length, selecting the points of a type
    raises an [IndexError]: neither the class map nor the witness complex
    of a pair is computed, and no library is called. *)
Theorem length_mismatch_raises (points : list point) (labels : list string)
  (cell_type1 cell_type2 : string) :
  length points <> length labels ->
  compute_kde points labels
  = Ret (Raise "IndexError: boolean index did not match indexed array") /\
  compute_witness_complex_pair points labels cell_type1 cell_type2
  = Ret (Raise "IndexError: boolean index did not match indexed array").
Proof.
  intros Hlen.
  assert (Hsel : forall label,
             select_rows points (label_mask labels label)
             = Raise "IndexError: boolean index did not match indexed array").
  { intros label. apply select_rows_mismatch.
    unfold label_mask. rewrite length_map. exact Hlen. }
  split.
  - unfold compute_kde, compute_densities, ordered_celltype.
    cbn [emap]. unfold density_row. rewrite Hsel. reflexivity.
  - unfold compute_witness_complex_pair. rewrite Hsel. reflexivity.
Qed.

Lemma length_mismatch_raises_example :
  compute_witness_complex_pair six_points ["tumor"] "tumor" "immune"
  = Ret (Raise "IndexError: boolean index did not match indexed array").
Proof.
  destruct (length_mismatch_raises six_points ["tumor"] "tumor" "immune")
    as [_ H].
  - simpl. lia.
  - exact H.
Defined.

Lemma combine_fst_snd {A B : Type} (l : list (A * B)) :
  combine (map fst l) (map snd l) = l.
Proof.
  induction l as [| [a b] l IH]; simpl; [reflexivity | rewrite IH; reflexivity].
Qed.

Lemma filter_filter_implies {A : Type} (f g : A -> bool) (l : list A) :
  (forall a, f a = true -> g a = true) ->
  filter f (filter g l) = filter f l.
Proof.
  intros Hfg. induction l as [| a l IH]; simpl; [reflexivity |].
  destruct (g a) eqn:Hg; simpl.
  - rewrite IH. reflexivity.
  - rewrite IH. destruct (f a) eqn:Hf; [| reflexivity].
    rewrite (Hfg a Hf) in Hg. discriminate.
Qed.

Lemma select_known_rows (points : list point) (labels : list string)
  (label : string) :
  length points = length labels ->
  in_vocabulary label = true ->
  select_rows (map fst (known_rows points labels))
              (label_mask (map snd (known_rows points labels)) label)
  = select_rows points (label_mask labels label).
Proof.
  intros Hlen Hvoc.
  rewrite select_by_label by (rewrite !length_map; reflexivity).
  rewrite (select_by_label points labels label Hlen).
  rewrite combine_fst_snd. unfold known_rows.
  rewrite filter_filter_implies; [reflexivity |].
  intros [pt l] E. cbn [snd] in *. apply String.eqb_eq in E. subst l.
  exact Hvoc.
Qed.

(** X5.  Rows whose label is not exactly [immune], [stromal] or [tumor] have no
    influence: the class map, and the witness complex of a pair of
    vocabulary types, are computed as if those rows were not there. *)
Theorem unknown_labels_ignored (points : list point) (labels : list string)
  (cell_type1 cell_type2 : string) :
  length points = length labels ->
  in_vocabulary cell_type1 = true ->
  in_vocabulary cell_type2 = true ->
  let known := known_rows points labels in
  compute_kde (map fst known) (map snd known) = compute_kde points labels /\
  compute_witness_complex_pair (map fst known) (map snd known)
                               cell_type1 cell_type2
  = compute_witness_complex_pair points labels cell_type1 cell_type2.
Proof.
  intros Hlen H1 H2 known. subst known. split.
  - unfold compute_kde, compute_densities, ordered_celltype.
    cbn [emap]. unfold density_row.
    rewrite !select_known_rows by (exact Hlen || reflexivity).
    reflexivity.
  - unfold compute_witness_complex_pair.
    rewrite !select_known_rows by assumption. reflexivity.
Qed.

Lemma unknown_labels_ignored_example :
  compute_witness_complex_pair
    [ (Fin 0, Fin 0); (Fin 1, Fin 0); (Fin 5, Fin 5); (Fin 6, Fin 5) ]
    [ "tumor"; "tumor"; "immune"; "immune" ] "tumor" "immune"
  = compute_witness_complex_pair six_points mixed_labels "tumor" "immune".
Proof.
  exact (proj2 (unknown_labels_ignored six_points mixed_labels
                                       "tumor" "immune"
                                       eq_refl eq_refl eq_refl)).
Defined.

(** ** compute_kde: the class map *)

Local Opaque grid_res.

Lemma length_reshape {A : Type} (rows cols : nat) (l : list A) :
  length (reshape rows cols l) = rows.
Proof.
  revert l. induction rows as [| rows IH]; intros l; simpl;
    [reflexivity | rewrite IH; reflexivity].
Qed.

Lemma reshape_rows_length {A : Type} (rows cols : nat) (l : list A) :
  length l = rows * cols ->
  Forall (fun row => length row = cols) (reshape rows cols l).
Proof.
  revert l. induction rows as [| rows IH]; intros l Hlen; cbn [reshape].
  - constructor.
  - constructor.
    + rewrite length_firstn. lia.
    + apply IH. rewrite length_skipn. lia.
Qed.

Lemma in_firstn {A : Type} (n : nat) (l : list A) (x : A) :
  In x (firstn n l) -> In x l.
Proof.
  intros H. rewrite <- (firstn_skipn n l). apply in_or_app. left. exact H.
Qed.

Lemma in_skipn {A : Type} (n : nat) (l : list A) (x : A) :
  In x (skipn n l) -> In x l.
Proof.
  intros H. rewrite <- (firstn_skipn n l). apply in_or_app. right. exact H.
Qed.

Lemma cell_at_reshape_in {A : Type} (rows cols : nat) (l : list A)
  (p : nat * nat) (x : A) :
  cell_at (reshape rows cols l) p = Some x -> In x l.
Proof.
  unfold cell_at. revert l p.
  induction rows as [| rows IH]; intros l [r c]; cbn [reshape fst snd].
  - destruct r; discriminate.
  - destruct r as [| r]; cbn [nth_error].
    + intros H. apply nth_error_In in H. apply in_firstn in H. exact H.
    + intros H. apply (in_skipn cols). apply (IH _ (r, c)). exact H.
Qed.

Lemma argmax_from_bound (ip : list float64) (mp : float64) (max_ind i : nat) :
  max_ind < i -> argmax_from mp max_ind i ip < i + length ip.
Proof.
  revert mp max_ind i. induction ip as [| x ip IH]; intros mp max_ind i Hlt;
    cbn [argmax_from length].
  - lia.
  - destruct (fle x mp).
    + specialize (IH mp max_ind (S i)). lia.
    + destruct (np_isnan x); [lia |].
      specialize (IH x i (S i)). lia.
Qed.

Lemma np_argmax_lt (l : list float64) :
  l <> [] -> np_argmax l < length l.
Proof.
  destruct l as [| x ip]; [contradiction |]. intros _.
  cbn [np_argmax length]. destruct (np_isnan x); [lia |].
  pose proof (argmax_from_bound ip x 0 1). lia.
Qed.

Lemma length_argmax_axis0 (densities : list (list float64)) :
  length (argmax_axis0 densities) = grid_res * grid_res.
Proof.
  unfold argmax_axis0. rewrite length_map, length_seq.
  apply length_grid_coords.
Qed.

Lemma in_argmax_axis0 (densities : list (list float64)) (c : Z) :
  densities <> [] ->
  In c (argmax_axis0 densities) ->
  (0 <= c < Z.of_nat (length densities))%Z.
Proof.
  intros Hne Hin. unfold argmax_axis0 in Hin. apply in_map_iff in Hin.
  destruct Hin as [k [<- _]].
  assert (Hcol : np_argmax (column densities k) < length densities).
  { rewrite <- (length_map (fun row => nth k row NaN) densities).
    apply np_argmax_lt. unfold column. destruct densities; [contradiction |].
    discriminate. }
  lia.
Qed.

(** X6.  Whenever [compute_kde] returns, whatever the estimator answered, the
    class map is a grid of [grid_res] rows of [grid_res] cells, each cell
    holding one of the type indices 0, 1, 2. *)
Theorem class_map_is_density_grid {S : Type} (h : handler S) (s s' : S)
  (points : list point) (labels : list string) (class_map : list (list Z)) :
  run h (compute_kde points labels) s = (Ok class_map, s') ->
  length class_map = grid_res /\
  Forall (fun row => length row = grid_res) class_map /\
  density_grid class_map.
Proof.
  intros Hrun. unfold compute_kde in Hrun.
  apply run_ebind_inv in Hrun. destruct Hrun as (densities & s1 & Hd & Hrun).
  cbn [eret run] in Hrun. injection Hrun as <- _.
  split; [apply length_reshape |]. split.
  - apply reshape_rows_length, length_argmax_axis0.
  - intros p c Hc. apply cell_at_reshape_in in Hc.
    apply run_emap_ok in Hd. apply Forall2_length in Hd.
    cbn in Hd.
    assert (Hne : densities <> []) by (intros E; subst; discriminate).
    pose proof (in_argmax_axis0 densities c Hne Hc) as Hrange.
    rewrite <- Hd in Hrange. simpl in Hrange. lia.
Qed.

Lemma class_map_is_density_grid_example :
  exists class_map,
    run (sample_library two_cells_file false)
        (compute_kde [(Fin (3 / 10), Fin (4 / 10))] ["immune"]) tt
    = (Ok class_map, tt) /\
    length class_map = grid_res /\ density_grid class_map.
Proof.
  destruct (sample_compute_kde false) as [class_map Hkde].
  destruct (class_map_is_density_grid _ _ _ _ _ _ Hkde) as (Hlen & _ & Hgrid).
  exists class_map. split; [exact Hkde |]. split; assumption.
Defined.

Lemma column_all_zero (n k rows : nat) :
  k < n ->
  Forall (fun x => x = Fin 0) (column (repeat (repeat (Fin 0) n) rows) k).
Proof.
  intros Hk. unfold column. apply Forall_map, Forall_forall.
  intros row Hrow. apply repeat_spec in Hrow. subst row.
  apply nth_error_nth, nth_error_repeat, Hk.
Qed.

(** X7.  When no point carries a label of the vocabulary (an empty image, for
    instance), [compute_kde] calls no estimator and returns the class map
    that assigns type 0 (immune) to every cell. *)
Theorem compute_kde_no_points (points : list point) (labels : list string) :
  (forall label, In label ordered_celltype ->
                 select_rows points (label_mask labels label) = Ok []) ->
  exists class_map,
    compute_kde points labels = Ret (Ok class_map) /\
    length class_map = grid_res /\
    forall r c, r < grid_res -> c < grid_res ->
                cell_at class_map (r, c) = Some 0%Z.
Proof.
  intros Hnone.
  exists (reshape grid_res grid_res
            (argmax_axis0 (repeat (repeat (Fin 0) (length grid_coords)) 3))).
  split; [| split].
  - unfold compute_kde, compute_densities, ordered_celltype.
    cbn [emap]. unfold density_row.
    rewrite !Hnone by (unfold ordered_celltype; simpl; tauto).
    reflexivity.
  - apply length_reshape.
  - intros r c Hr Hc. rewrite cell_at_reshape by assumption.
    assert (Hk : r * grid_res + c < length grid_coords)
      by (rewrite length_grid_coords; nia).
    rewrite nth_error_argmax_axis0 by exact Hk.
    rewrite np_argmax_all_zero; [reflexivity |].
    apply column_all_zero, Hk.
Qed.

Local Transparent grid_res.

Lemma compute_kde_no_points_example :
  exists class_map,
    compute_kde [] [] = Ret (Ok class_map) /\
    cell_at class_map (0, 0) = Some 0%Z.
Proof.
  destruct (compute_kde_no_points [] []) as (cm & Hrun & _ & Hcells).
  - intros label _. reflexivity.
  - exists cm. split; [exact Hrun |].
    apply Hcells; unfold grid_res; lia.
Defined.

Local Opaque grid_res.

(** *** The first maximum *)

Lemma fle_refl (x : float64) : np_isnan x = false -> fle x x = true.
Proof.
  destruct x as [| | | r]; simpl; try discriminate; try reflexivity.
  intros _. destruct (Rle_dec r r) as [_ | Hn]; [reflexivity | exfalso; lra].
Qed.

Lemma not_fle_flt (x mp : float64) :
  np_isnan x = false -> np_isnan mp = false ->
  fle x mp = false -> flt mp x = true.
Proof.
  destruct x as [| | | a], mp as [| | | b]; simpl;
    try discriminate; try reflexivity.
  intros _ _. destruct (Rle_dec a b); [discriminate |].
  intros _. destruct (Rlt_dec b a); [reflexivity | exfalso; lra].
Qed.

Lemma fle_flt_trans (a b c : float64) :
  fle a b = true -> flt b c = true -> flt a c = true.
Proof.
  destruct a as [| | | x], b as [| | | y], c as [| | | z]; simpl;
    try discriminate; try reflexivity.
  destruct (Rle_dec x y); [| discriminate].
  destruct (Rlt_dec y z); [| discriminate].
  intros _ _. destruct (Rlt_dec x z); [reflexivity | exfalso; lra].
Qed.

Lemma flt_trans (a b c : float64) :
  flt a b = true -> flt b c = true -> flt a c = true.
Proof.
  destruct a as [| | | x], b as [| | | y], c as [| | | z]; simpl;
    try discriminate; try reflexivity.
  destruct (Rlt_dec x y); [| discriminate].
  destruct (Rlt_dec y z); [| discriminate].
  intros _ _. destruct (Rlt_dec x z); [reflexivity | exfalso; lra].
Qed.

Lemma flt_fle (a b : float64) : flt a b = true -> fle a b = true.
Proof.
  destruct a as [| | | x], b as [| | | y]; simpl;
    try discriminate; try reflexivity.
  destruct (Rlt_dec x y); [| discriminate].
  intros _. destruct (Rle_dec x y); [reflexivity | exfalso; lra].
Qed.

Lemma fle_trans_lt (a b c : float64) :
  fle a b = true -> flt b c = true -> fle a c = true.
Proof. intros H1 H2. apply flt_fle. apply (fle_flt_trans a b c); assumption. Qed.

(** Where the scan ends when no value is [nan]: at the start position, with
    nothing larger behind it; or at a later value that is larger than the
    start value, at least as large as every value, and larger than every
    value before it. *)
Lemma argmax_from_first_max (ip : list float64) (mp : float64)
  (max_ind i : nat) :
  np_isnan mp = false ->
  Forall (fun x => np_isnan x = false) ip ->
  let r := argmax_from mp max_ind i ip in
  (r = max_ind /\ Forall (fun x => fle x mp = true) ip) \/
  (exists j m,
      r = i + j /\ nth_error ip j = Some m /\ flt mp m = true /\
      Forall (fun x => fle x m = true) ip /\
      forall j' x, j' < j -> nth_error ip j' = Some x -> flt x m = true).
Proof.
  revert mp max_ind i.
  induction ip as [| x ip IH]; intros mp max_ind i Hmp Hip; cbn [argmax_from].
  - left. split; [reflexivity | constructor].
  - inversion Hip as [| ? ? Hx Hip']; subst.
    destruct (fle x mp) eqn:Hle.
    + destruct (IH mp max_ind (S i) Hmp Hip')
        as [[E Hall] | (j & m & E & Hj & Hlt & Hall & Hbefore)].
      * left. split; [exact E | constructor; assumption].
      * right. exists (S j), m. split; [lia |]. split; [exact Hj |].
        split; [exact Hlt |]. split.
        -- constructor; [apply (fle_trans_lt x mp m); assumption | exact Hall].
        -- intros [| j'] y Hj' Hy; simpl in Hy.
           ++ injection Hy as <-. apply (fle_flt_trans x mp m); assumption.
           ++ apply (Hbefore j' y); [lia | exact Hy].
    + rewrite Hx.
      pose proof (not_fle_flt x mp Hx Hmp Hle) as Hgt.
      destruct (IH x i (S i) Hx Hip')
        as [[E Hall] | (j & m & E & Hj & Hlt & Hall & Hbefore)].
      * right. exists 0, x. split; [lia |]. split; [reflexivity |].
        split; [exact Hgt |]. split.
        -- constructor; [apply fle_refl, Hx | exact Hall].
        -- intros j' y Hj'. lia.
      * right. exists (S j), m. split; [lia |]. split; [exact Hj |].
        split; [apply (flt_trans mp x m); assumption |]. split.
        -- constructor; [apply flt_fle, Hlt | exact Hall].
        -- intros [| j'] y Hj' Hy; simpl in Hy.
           ++ injection Hy as <-. exact Hlt.
           ++ apply (Hbefore j' y); [lia | exact Hy].
Qed.

Lemma np_argmax_first_max (l : list float64) :
  l <> [] ->
  Forall (fun x => np_isnan x = false) l ->
  exists m,
    nth_error l (np_argmax l) = Some m /\
    Forall (fun x => fle x m = true) l /\
    forall j x, j < np_argmax l -> nth_error l j = Some x -> flt x m = true.
Proof.
  destruct l as [| x0 ip]; [contradiction |]. intros _ Hl.
  inversion Hl as [| ? ? Hx0 Hip]; subst.
  cbn [np_argmax]. rewrite Hx0.
  destruct (argmax_from_first_max ip x0 0 1 Hx0 Hip)
    as [[E Hall] | (j & m & E & Hj & Hlt & Hall & Hbefore)].
  - rewrite E. exists x0. split; [reflexivity |]. split.
    + constructor; [apply fle_refl, Hx0 | exact Hall].
    + intros j x Hj. lia.
  - rewrite E. exists m. split; [exact Hj |]. split.
    + constructor; [apply flt_fle, Hlt | exact Hall].
    + intros [| j'] y Hj' Hy; simpl in Hy.
      * injection Hy as <-. exact Hlt.
      * apply (Hbefore j' y); [lia | exact Hy].
Qed.

(** X8.  The type assigned to a cell has the largest density at that cell, and
    every type of lower index has a strictly smaller one: ties go to the
    first type in the order immune, stromal, tumor.  (For densities none of
    which is [nan] at the cell.) *)
Theorem assigned_type_is_first_maximum {S : Type} (h : handler S) (s s' : S)
  (points : list point) (labels : list string)
  (densities : list (list float64)) (r c : nat) :
  run h (compute_densities points labels) s = (Ok densities, s') ->
  r < grid_res -> c < grid_res ->
  let k := r * grid_res + c in
  let class_map := reshape grid_res grid_res (argmax_axis0 densities) in
  Forall (fun x => np_isnan x = false) (column densities k) ->
  run h (compute_kde points labels) s = (Ok class_map, s') /\
  exists t m,
    cell_at class_map (r, c) = Some (Z.of_nat t) /\
    nth_error (column densities k) t = Some m /\
    Forall (fun x => fle x m = true) (column densities k) /\
    forall j x, j < t -> nth_error (column densities k) j = Some x ->
                flt x m = true.
Proof.
  intros Hrun Hr Hc k class_map Hfine.
  split; [apply run_compute_kde, Hrun |].
  assert (Hk : k < length grid_coords)
    by (rewrite length_grid_coords; subst k; nia).
  assert (Hne : column densities k <> []).
  { apply run_emap_ok in Hrun. apply Forall2_length in Hrun.
    unfold column. destruct densities; [discriminate | discriminate]. }
  destruct (np_argmax_first_max _ Hne Hfine) as (m & Hm & Hall & Hbefore).
  exists (np_argmax (column densities k)), m.
  split; [| split; [exact Hm | split; [exact Hall | exact Hbefore]]].
  subst class_map. rewrite cell_at_reshape by assumption.
  apply nth_error_argmax_axis0, Hk.
Qed.

Local Transparent grid_res.

Lemma sample_column_fine :
  Forall (fun x => np_isnan x = false)
         (column [ map (fun _ => Fin 1) grid_coords;
                   repeat (Fin 0) (length grid_coords);
                   map (fun _ => Fin 1) grid_coords ] (0 * grid_res + 0)).
Proof. vm_compute. repeat constructor. Qed.

Lemma assigned_type_is_first_maximum_example :
  exists t m,
    nth_error (column [ map (fun _ => Fin 1) grid_coords;
                        repeat (Fin 0) (length grid_coords);
                        map (fun _ => Fin 1) grid_coords ] (0 * grid_res + 0)) t
    = Some m /\
    forall j x,
      j < t ->
      nth_error (column [ map (fun _ => Fin 1) grid_coords;
                          repeat (Fin 0) (length grid_coords);
                          map (fun _ => Fin 1) grid_coords ]
                        (0 * grid_res + 0)) j = Some x ->
      flt x m = true.
Proof.
  destruct (assigned_type_is_first_maximum
              (sample_library [] false) tt tt six_points six_labels _ 0 0
              sample_densities) as (_ & t & m & _ & Hm & _ & Hbefore).
  - unfold grid_res. lia.
  - unfold grid_res. lia.
  - exact sample_column_fine.
  - exists t, m. split; assumption.
Defined.

Local Opaque grid_res.

(** *** A failing estimator *)

Lemma post_emap_raise {A B : Type} (C : forall q, answer q -> Prop)
  (f : A -> eprog B) (l : list A) (a : A) :
  In a l ->
  post C (f a) (fun r => exists e, r = Raise e) ->
  post C (emap f l) (fun r => exists e, r = Raise e).
Proof.
  intros Hin Ha. induction l as [| a0 l IH]; [destruct Hin |].
  cbn [emap]. apply post_ebind.
  destruct Hin as [-> | Hin].
  - refine (post_mono C _ _ _ _ Ha). intros r [e ->]. exists e. reflexivity.
  - apply post_forall. intros [b | e]; [| exists e; reflexivity].
    apply post_ebind.
    refine (post_mono C _ _ _ _ (IH Hin)). intros r [e ->].
    exists e. reflexivity.
Qed.

Lemma post_density_row_raise (points : list point) (labels : list string)
  (label : string) (pt : point) (pts : list point) :
  select_rows points (label_mask labels label) = Ok (pt :: pts) ->
  post estimator_fails (density_row points labels label)
       (fun r => exists e, r = Raise e).
Proof.
  intros Hsel. unfold density_row. rewrite Hsel, ebind_lift_ok.
  cbn [length Nat.ltb Nat.leb]. unfold call, ebind. cbn [bind post].
  intros x [e ->]. cbn [bind post]. exists e. reflexivity.
Qed.

Lemma run_raise_of_post {S A : Type} (h : handler S)
  (C : forall q, answer q -> Prop) (p : eprog A) (s : S) :
  obeys h C ->
  post C p (fun r => exists e, r = Raise e) ->
  exists e s', run h p s = (Raise e, s').
Proof.
  intros Hh Hp. destruct (run_post h C p _ s Hh Hp) as [e He].
  destruct (run h p s) as [r s']. cbn [fst] in He. subst r.
  exists e, s'. reflexivity.
Qed.

(** X9.  The class map is computed outside the [try] statements.  So when the
    estimator refuses the points of a type (scipy does for a single point),
    [compute_all_features] and [compute_features_by_dimension] raise: no
    record is returned, not even for the pairs that could be computed. *)
Theorem estimator_failure_is_fatal {S : Type} (h : handler S) (s s1 : S)
  (img_dir : string) (dimensions : list Z) (exclude_infinite : bool)
  (points : list point) (labels : list string)
  (label : string) (pt : point) (pts : list point) :
  obeys h estimator_fails ->
  run h (read_img img_dir) s = (Ok (points, labels), s1) ->
  In label ordered_celltype ->
  select_rows points (label_mask labels label) = Ok (pt :: pts) ->
  exists e s',
    run h (compute_all_features img_dir exclude_infinite) s = (Raise e, s') /\
    run h (compute_features_by_dimension img_dir dimensions exclude_infinite) s
    = (Raise e, s').
Proof.
  intros Hh Hread Hlabel Hsel.
  assert (Hkde : post estimator_fails (compute_kde points labels)
                      (fun r => exists e, r = Raise e)).
  { unfold compute_kde. apply post_ebind.
    refine (post_mono estimator_fails _ _ _ _
              (post_emap_raise estimator_fails _ _ label Hlabel
                 (post_density_row_raise points labels label pt pts Hsel))).
    intros r [e ->]. exists e. reflexivity. }
  destruct (run_raise_of_post h _ _ s1 Hh Hkde) as (e & s' & Hrun).
  exists e, s'. split.
  - unfold compute_all_features. rewrite (run_ebind_ok _ _ _ _ _ _ Hread).
    apply (run_ebind_raise _ _ _ _ _ _ Hrun).
  - unfold compute_features_by_dimension.
    rewrite (run_ebind_ok _ _ _ _ _ _ Hread).
    apply (run_ebind_raise _ _ _ _ _ _ Hrun).
Qed.

Lemma singular_library_fails (file : list (list field)) :
  obeys (singular_library file) estimator_fails.
Proof.
  intros q s. destruct q; simpl; trivial.
  eexists. reflexivity.
Qed.

Lemma estimator_failure_is_fatal_example :
  exists e s',
    run (singular_library two_cells_file)
        (compute_all_features "cells.csv" true) tt = (Raise e, s').
Proof.
  destruct (estimator_failure_is_fatal
              (singular_library two_cells_file) tt tt "cells.csv" [0; 1]%Z
              true [(Fin (3 / 10), Fin (4 / 10))] ["immune"] "immune"
              (Fin (3 / 10), Fin (4 / 10)) []
              (singular_library_fails two_cells_file))
    as (e & s' & Hrun & _).
  - reflexivity.
  - left. reflexivity.
  - reflexivity.
  - exists e, s'. exact Hrun.
Defined.

(** *** The grid *)

Lemma nth_error_flat_map_const {A B : Type} (f : A -> list B) (l : list A)
  (n r c : nat) (a : A) :
  (forall a', length (f a') = n) ->
  nth_error l r = Some a -> c < n ->
  nth_error (flat_map f l) (r * n + c) = nth_error (f a) c.
Proof.
  intros Hf. revert r. induction l as [| x l IH]; intros r Hr Hc.
  - destruct r; discriminate.
  - cbn [flat_map]. destruct r as [| r]; cbn [nth_error] in Hr.
    + injection Hr as ->. cbn [Nat.mul Nat.add].
      apply nth_error_app1. rewrite Hf. exact Hc.
    + rewrite nth_error_app2 by (rewrite Hf; cbn [Nat.mul]; lia).
      rewrite Hf. replace (S r * n + c - n) with (r * n + c)
        by (cbn [Nat.mul]; lia).
      apply IH; assumption.
Qed.

Lemma nth_error_linspace01 (n i : nat) :
  i < n ->
  nth_error (linspace01 n) i = Some (Fin (INR i / INR (n - 1))).
Proof.
  intros Hi. unfold linspace01. rewrite nth_error_map, nth_error_seq.
  destruct (Nat.ltb_spec i n) as [_ | Hge]; [reflexivity | lia].
Qed.

Local Transparent grid_res grid_coords.

(** X10.  Cell (r, c) of the class map is the grid point with abscissa c / 99 and
    ordinate r / 99: rows run along y, columns along x, and the grid covers
    the unit square, borders included. *)
Theorem grid_point_of_cell (r c : nat) :
  r < grid_res -> c < grid_res ->
  exists x y : R,
    nth_error grid_coords (r * grid_res + c) = Some (Fin x, Fin y) /\
    (x * 99 = INR c)%R /\ (y * 99 = INR r)%R /\
    (0 <= x <= 1)%R /\ (0 <= y <= 1)%R.
Proof.
  intros Hr Hc.
  assert (H99 : INR (grid_res - 1) = 99%R)
    by (rewrite INR_IZR_INZ; reflexivity).
  assert (Hbound : forall i, i < grid_res ->
                             (0 <= INR i / 99 <= 1)%R /\
                             (INR i / 99 * 99 = INR i)%R).
  { intros i Hi. pose proof (pos_INR i) as Hpos.
    assert (Hle : (INR i <= 99)%R).
    { rewrite <- H99. apply le_INR. unfold grid_res in *. lia. }
    split; [split |].
    - apply Rmult_le_pos; lra.
    - apply (Rmult_le_reg_r 99); lra.
    - field. }
  exists (INR c / 99)%R, (INR r / 99)%R.
  split; [| split; [apply Hbound, Hc | split; [apply Hbound, Hr |
                    split; [apply Hbound, Hc | apply Hbound, Hr]]]].
  unfold grid_coords.
  rewrite (nth_error_flat_map_const _ _ grid_res r c (Fin (INR r / 99))).
  - rewrite nth_error_map, (nth_error_linspace01 grid_res c Hc), H99.
    reflexivity.
  - intros a. rewrite length_map. apply length_linspace01.
  - rewrite (nth_error_linspace01 grid_res r Hr), H99. reflexivity.
  - exact Hc.
Qed.

Lemma grid_point_of_cell_example :
  exists x y : R,
    nth_error grid_coords (99 * grid_res + 99) = Some (Fin x, Fin y) /\
    (x * 99 = INR 99)%R /\ (y * 99 = INR 99)%R.
Proof.
  destruct (grid_point_of_cell 99 99) as (x & y & H & Hx & Hy & _).
  - unfold grid_res. lia.
  - unfold grid_res. lia.
  - exists x, y. repeat split; assumption.
Defined.

Local Opaque grid_res grid_coords.

(** ** compute_cubical_complex_pair *)

Lemma type_to_idx_unknown (cell_type : string) :
  in_vocabulary cell_type = false -> type_to_idx cell_type = Raise "KeyError".
Proof.
  unfold in_vocabulary, type_to_idx, ordered_celltype. cbn [existsb].
  destruct (String.eqb cell_type "immune"); [discriminate |].
  destruct (String.eqb cell_type "stromal"); [discriminate |].
  destruct (String.eqb cell_type "tumor"); [discriminate |].
  reflexivity.
Qed.

(** X11.  The index under which [compute_cubical_complex_pair] looks a type up
    in the class map is the position of the type in [ordered_celltype],
    that is, the row of [densities] that [compute_kde] fills for it; a name
    outside the three has no index. *)
Theorem type_index_is_density_row (cell_type : string) (i : nat) :
  type_to_idx cell_type = Ok (Z.of_nat i) <->
  nth_error ordered_celltype i = Some cell_type.
Proof.
  unfold type_to_idx, ordered_celltype. split.
  - destruct (String.eqb_spec cell_type "immune") as [-> | _].
    { intros H. injection H as H. destruct i; [reflexivity | lia]. }
    destruct (String.eqb_spec cell_type "stromal") as [-> | _].
    { intros H. injection H as H.
      destruct i as [| [| i]]; [lia | reflexivity | lia]. }
    destruct (String.eqb_spec cell_type "tumor") as [-> | _].
    { intros H. injection H as H.
      destruct i as [| [| [| i]]]; [lia | lia | reflexivity | lia]. }
    discriminate.
  - destruct i as [| [| [| i]]]; cbn [nth_error]; intros H;
      try (injection H as <-; reflexivity).
    destruct i; discriminate.
Qed.

(** X12.  A type name outside the vocabulary makes the cubical computation raise
    a [KeyError] before any library is called. *)
Theorem unknown_cell_type_key_error (class_map : list (list Z))
  (cell_type1 cell_type2 : string) :
  in_vocabulary cell_type1 = false \/ in_vocabulary cell_type2 = false ->
  compute_cubical_complex_pair class_map cell_type1 cell_type2
  = Ret (Raise "KeyError").
Proof.
  intros H. unfold compute_cubical_complex_pair.
  destruct (type_to_idx cell_type1) as [idx1 |] eqn:E1.
  - destruct H as [H | H].
    + rewrite (type_to_idx_unknown _ H) in E1. discriminate.
    + rewrite ebind_lift_ok, (type_to_idx_unknown _ H). reflexivity.
  - destruct (in_vocabulary cell_type1) eqn:V1.
    + exfalso. revert E1. unfold in_vocabulary, ordered_celltype in V1.
      cbn [existsb] in V1. unfold type_to_idx.
      destruct (String.eqb cell_type1 "immune"); [discriminate |].
      destruct (String.eqb cell_type1 "stromal"); [discriminate |].
      destruct (String.eqb cell_type1 "tumor"); discriminate.
    + rewrite (type_to_idx_unknown _ V1) in E1. injection E1 as <-.
      reflexivity.
Qed.

Lemma unknown_cell_type_key_error_example :
  compute_cubical_complex_pair three_type_grid "tumor" "Immune"
  = Ret (Raise "KeyError").
Proof.
  apply (unknown_cell_type_key_error three_type_grid "tumor" "Immune").
  right. reflexivity.
Defined.

(** *** The shape of the field *)

Lemma length_enumerate {A : Type} (l : list A) :
  length (enumerate l) = length l.
Proof. unfold enumerate. rewrite length_combine, length_seq. lia. Qed.

Lemma row_lengths_map {A B : Type} (f : A -> B) (g : list (list A)) :
  map (@length B) (map (map f) g) = map (@length A) g.
Proof.
  rewrite map_map. apply map_ext. intros row. apply length_map.
Qed.

Lemma map_snd_enumerate {A B : Type} (f : A -> B) (l : list A) :
  map (fun x => f (snd x)) (enumerate l) = map f l.
Proof.
  unfold enumerate. generalize 0.
  induction l as [| a l IH]; intros k; [reflexivity |].
  change (length (a :: l)) with (S (length l)).
  cbn [seq combine map snd]. f_equal. apply IH.
Qed.

Lemma row_lengths_distance_transform_bf (input : list (list Z)) :
  map (@length float64) (distance_transform_bf input)
  = map (@length Z) input.
Proof.
  unfold distance_transform_bf. generalize (background input) as bg.
  intros bg. rewrite map_map.
  rewrite <- (map_snd_enumerate (@length Z) input).
  apply map_ext. intros [i row]. cbn [fst snd].
  rewrite length_map. apply length_enumerate.
Qed.

Lemma length_map2 {A B C : Type} (f : A -> B -> C) (l1 : list A)
  (l2 : list B) :
  length l1 = length l2 -> length (map2 f l1 l2) = length l1.
Proof.
  revert l2. induction l1 as [| a l1 IH]; intros [| b l2] H;
    try discriminate; simpl; [reflexivity |].
  f_equal. apply IH. simpl in H. lia.
Qed.

Lemma row_lengths_map2 {A B C : Type} (f : A -> B -> C)
  (a : list (list A)) (b : list (list B)) :
  map (@length A) a = map (@length B) b ->
  map (@length C) (map2 (map2 f) a b) = map (@length A) a.
Proof.
  revert b. induction a as [| ra a IH]; intros [| rb b] H;
    try discriminate; [reflexivity |].
  cbn [map map2] in *. injection H as Hr H. f_equal.
  - apply length_map2, Hr.
  - apply IH, H.
Qed.

Lemma row_lengths_masks (class_map : list (list Z)) (l : list Z)
  (a : list (list float64)) :
  map (@length float64) a = map (@length Z) class_map ->
  map (@length float64)
      (fold_left (fun a idx => mask_assign a class_map idx PInf) l a)
  = map (@length Z) class_map.
Proof.
  revert a. induction l as [| idx l IH]; intros a Ha; cbn [fold_left].
  - exact Ha.
  - apply IH. unfold mask_assign.
    rewrite row_lengths_map2 by exact Ha. exact Ha.
Qed.

Lemma row_lengths_sedt3 (class_map : list (list Z)) (idx1 idx2 : Z) :
  map (@length float64) (sedt3 class_map idx1 idx2)
  = map (@length Z) class_map.
Proof.
  unfold sedt3. apply row_lengths_masks.
  assert (H2 : map (@length float64)
                   (distance_transform_bf
                      (complement (indicator class_map idx2)))
               = map (@length Z) class_map).
  { rewrite row_lengths_distance_transform_bf. unfold complement, indicator.
    rewrite !row_lengths_map. reflexivity. }
  assert (H1 : map (@length float64)
                   (distance_transform_bf (indicator class_map idx1))
               = map (@length Z) class_map).
  { rewrite row_lengths_distance_transform_bf. unfold indicator.
    apply row_lengths_map. }
  rewrite row_lengths_map2 by (rewrite H2, H1; reflexivity).
  exact H2.
Qed.

Lemma length_concat_rows {A : Type} (a : list (list A)) (n : nat) :
  Forall (fun len => len = n) (map (@length A) a) ->
  length (concat a) = length a * n.
Proof.
  induction a as [| row a IH]; intros H; [reflexivity |].
  cbn [map] in H. inversion H as [| ? ? Hrow Hrest]; subst.
  cbn [concat length Nat.mul]. rewrite length_app, IH by exact Hrest.
  reflexivity.
Qed.

(** X13.  For two type names of the vocabulary, the first library call of the
    cubical computation builds a complex whose dimensions are the shape of
    the class map and whose cells are the flattened field; for a class map
    of rows of equal length there are rows times columns of them, as gudhi
    requires. *)
Theorem cubical_request_shape (class_map : list (list Z))
  (cell_type1 cell_type2 : string) (idx1 idx2 : Z) (cols : nat) :
  type_to_idx cell_type1 = Ok idx1 ->
  type_to_idx cell_type2 = Ok idx2 ->
  Forall (fun row => length row = cols) class_map ->
  let cells := concat (sedt3 class_map idx1 idx2) in
  (exists k,
      compute_cubical_complex_pair class_map cell_type1 cell_type2
      = Call (CubicalComplex (shape class_map) cells) k) /\
  length cells = length class_map * cols.
Proof.
  intros H1 H2 Hrect cells. subst cells.
  pose proof (row_lengths_sedt3 class_map idx1 idx2) as Hrows.
  split.
  - unfold compute_cubical_complex_pair. rewrite H1, H2.
    rewrite !ebind_lift_ok. cbv zeta.
    replace (shape (sedt3 class_map idx1 idx2)) with (shape class_map).
    + unfold call at 1, ebind at 1. cbn [bind]. eexists. reflexivity.
    + unfold shape. f_equal.
      * apply (f_equal (@length nat)) in Hrows.
        rewrite !length_map in Hrows. symmetry. exact Hrows.
      * f_equal. destruct (sedt3 class_map idx1 idx2) as [| r0 f],
          class_map as [| c0 cm]; try discriminate; [reflexivity |].
        cbn [map hd] in *. injection Hrows as Hr _. symmetry. exact Hr.
  - rewrite (length_concat_rows _ cols).
    + apply (f_equal (@length nat)) in Hrows.
      rewrite !length_map in Hrows. rewrite Hrows. reflexivity.
    + rewrite Hrows. apply Forall_map. exact Hrect.
Qed.

Lemma cubical_request_shape_example :
  (exists k,
      compute_cubical_complex_pair three_type_grid "tumor" "immune"
      = Call (CubicalComplex (shape three_type_grid)
                             (concat (sedt3 three_type_grid 2 0))) k) /\
  length (concat (sedt3 three_type_grid 2 0)) = length three_type_grid * 2.
Proof.
  apply (cubical_request_shape three_type_grid "tumor" "immune" 2 0 2);
    [reflexivity | reflexivity | repeat constructor].
Defined.

(** *** The field on the cells of the pair *)

Lemma cell_at_forallb {A : Type} (f : A -> bool) (g : list (list A))
  (p : nat * nat) (c : A) :
  forallb (forallb f) g = true -> cell_at g p = Some c -> f c = true.
Proof.
  unfold cell_at. intros H Hc.
  destruct (nth_error g (fst p)) as [row |] eqn:Er; [| discriminate].
  rewrite forallb_forall in H. specialize (H row (nth_error_In _ _ Er)).
  rewrite forallb_forall in H. exact (H c (nth_error_In _ _ Hc)).
Qed.

Lemma min_sq_dist_ext (p : nat * nat) (bg bg' : list (nat * nat)) :
  (forall q, In q bg <-> In q bg') ->
  min_sq_dist p bg = min_sq_dist p bg'.
Proof.
  intros H.
  destruct (min_sq_dist p bg) as [d |] eqn:E;
    destruct (min_sq_dist p bg') as [d' |] eqn:E'.
  - apply min_sq_dist_spec in E, E'.
    destruct E as [[q [Hq Eq]] Hall], E' as [[q' [Hq' Eq']] Hall'].
    f_equal. apply Z.le_antisymm.
    + rewrite Eq'. apply Hall, H, Hq'.
    + rewrite Eq. apply Hall', H, Hq.
  - apply min_sq_dist_spec in E. destruct E as [[q [Hq _]] _].
    apply H in Hq. destruct bg'; [destruct Hq | discriminate].
  - apply min_sq_dist_spec in E'. destruct E' as [[q [Hq _]] _].
    apply H in Hq. destruct bg; [destruct Hq | discriminate].
  - reflexivity.
Qed.

Lemma sq_dist_nonneg (p q : nat * nat) : (0 <= sq_dist p q)%Z.
Proof.
  unfold sq_dist. cbv zeta.
  apply Z.add_nonneg_nonneg; apply Z.square_nonneg.
Qed.

Lemma no_third_type (idx1 idx2 c : Z) :
  c = idx1 \/ c = idx2 ->
  existsb (Z.eqb c) (other_idx idx1 idx2) = false.
Proof.
  intros H12. apply Bool.not_true_is_false. intros E.
  apply other_idx_spec in E. destruct E as (_ & H1 & H2).
  destruct H12; contradiction.
Qed.

(** X14.  On a class map that holds no other type than the two of the pair, the
    field handed to gudhi is 0 at every cell: the distance from a cell of
    the first type to the second type and its depth inside the first type
    are then the same number. *)
Theorem two_type_field_vanishes (class_map : list (list Z)) (idx1 idx2 : Z)
  (p : nat * nat) (c : Z) :
  idx1 <> idx2 ->
  (forall q t, cell_at class_map q = Some t -> t = idx1 \/ t = idx2) ->
  cell_at class_map p = Some c ->
  cell_at (sedt3 class_map idx1 idx2) p = Some (Fin 0).
Proof.
  intros Hne Htwo Hc. rewrite (cell_at_sedt3 _ _ _ _ _ Hc).
  rewrite (no_third_type _ _ _ (Htwo p c Hc)).
  assert (Hbg : min_sq_dist p
                  (background (complement (indicator class_map idx2)))
                = min_sq_dist p (background (indicator class_map idx1))).
  { apply min_sq_dist_ext. intros q.
    rewrite in_background_complement, in_background_indicator. split.
    - intros H. exists idx2. split; [exact H | congruence].
    - intros [t [H Ht]]. destruct (Htwo q t H); [contradiction | congruence]. }
  unfold bf_distance. rewrite Hbg.
  destruct (Htwo p c Hc) as [-> | ->].
  - rewrite Z.eqb_refl.
    replace (Z.eqb idx1 idx2) with false
      by (symmetry; apply Z.eqb_neq; exact Hne).
    cbn [Z.sub Z.eqb Z.opp Z.add Z.pos_sub].
    destruct (min_sq_dist p (background (indicator class_map idx1)));
      cbn [fsub fneg fadd]; do 2 f_equal; lra.
  - rewrite Z.eqb_refl.
    replace (Z.eqb idx2 idx1) with false
      by (symmetry; apply Z.eqb_neq; congruence).
    cbn [Z.sub Z.eqb Z.opp Z.add Z.pos_sub fsub fneg fadd].
    do 2 f_equal. lra.
Qed.

Lemma two_type_field_vanishes_example :
  cell_at (sedt3 two_type_grid 2 0) (0, 1) = Some (Fin 0).
Proof.
  apply (two_type_field_vanishes two_type_grid 2 0 (0, 1) 2).
  - lia.
  - intros q t H.
    pose proof (cell_at_forallb (fun t => Z.eqb t 2 || Z.eqb t 0)%bool
                                two_type_grid q t eq_refl H) as Ht.
    apply Bool.orb_true_iff in Ht. rewrite !Z.eqb_eq in Ht. exact Ht.
  - reflexivity.
Defined.

(** X15.  At a cell of the first type, on a class map with a cell of the second
    type, the field is a finite number, never negative, and positive exactly
    when some cell of a third type lies strictly nearer than every cell of
    the second type. *)
Theorem field_positive_iff_third_type_nearer (class_map : list (list Z))
  (idx1 idx2 : Z) (p : nat * nat) :
  idx1 <> idx2 ->
  (exists q, cell_at class_map q = Some idx2) ->
  cell_at class_map p = Some idx1 ->
  exists v : R,
    cell_at (sedt3 class_map idx1 idx2) p = Some (Fin v) /\
    (0 <= v)%R /\
    ((0 < v)%R <->
     exists q t, cell_at class_map q = Some t /\ t <> idx1 /\ t <> idx2 /\
                 forall q2, cell_at class_map q2 = Some idx2 ->
                            (euclidean p q < euclidean p q2)%R).
Proof.
  intros Hne [q2 Hq2] Hc. rewrite (cell_at_sedt3 _ _ _ _ _ Hc).
  rewrite (no_third_type idx1 idx2 idx1 (or_introl eq_refl)).
  assert (Hbg2 : In q2 (background (complement (indicator class_map idx2))))
    by (apply in_background_complement; exact Hq2).
  assert (Hbg1 : In q2 (background (indicator class_map idx1)))
    by (apply in_background_indicator; exists idx2; split;
        [exact Hq2 | congruence]).
  destruct (min_sq_dist_some p q2 _ Hbg2) as [m2 Hm2].
  destruct (min_sq_dist_some p q2 _ Hbg1) as [m1 Hm1].
  unfold bf_distance. rewrite Hm2, Hm1, Z.eqb_refl.
  replace (Z.eqb idx1 idx2) with false
    by (symmetry; apply Z.eqb_neq; exact Hne).
  cbn [Z.sub Z.eqb Z.opp Z.add Z.pos_sub fsub fneg fadd].
  apply min_sq_dist_spec in Hm2, Hm1.
  destruct Hm2 as [[n2 [Hn2 E2]] Hall2], Hm1 as [[n1 [Hn1 E1]] Hall1].
  assert (H1pos : (0 <= m1)%Z) by (rewrite E1; apply sq_dist_nonneg).
  assert (Hle : (m1 <= m2)%Z) by (rewrite E2; apply Hall1;
    apply in_background_indicator; exists idx2; split;
    [apply in_background_complement, Hn2 | congruence]).
  eexists. split; [reflexivity |]. split.
  { apply IZR_le in Hle. apply sqrt_le_1_alt in Hle. lra. }
  split.
  - intros Hpos.
    assert (Hlt : (m1 < m2)%Z).
    { destruct (Z.eq_dec m1 m2) as [E | E]; [| lia].
      rewrite E in Hpos. lra. }
    apply in_background_indicator in Hn1. destruct Hn1 as [t [Ht Ht1]].
    exists n1, t. split; [exact Ht |]. split; [exact Ht1 |]. split.
    + intros ->. apply in_background_complement in Ht.
      specialize (Hall2 n1 Ht). lia.
    + intros q Hq. unfold euclidean. apply sqrt_lt_1_alt. split.
      * apply IZR_le, sq_dist_nonneg.
      * apply IZR_lt. rewrite <- E1.
        apply in_background_complement in Hq. specialize (Hall2 q Hq). lia.
  - intros (q & t & Ht & Ht1 & Ht2 & Hnear).
    assert (Hlt : (m1 < m2)%Z).
    { apply in_background_complement in Hn2. specialize (Hnear n2 Hn2).
      unfold euclidean in Hnear. apply sqrt_lt_0_alt in Hnear.
      apply lt_IZR in Hnear. rewrite E2.
      apply Z.le_lt_trans with (sq_dist p q); [| exact Hnear].
      apply Hall1, in_background_indicator. exists t.
      split; assumption. }
    assert (Hs : (sqrt (IZR m1) < sqrt (IZR m2))%R).
    { apply sqrt_lt_1_alt. split; [apply IZR_le, H1pos | apply IZR_lt, Hlt]. }
    lra.
Qed.

Lemma field_positive_iff_third_type_nearer_example :
  exists v : R,
    cell_at (sedt3 three_type_grid 2 0) (1, 1) = Some (Fin v) /\
    (0 <= v)%R /\
    ((0 < v)%R <->
     exists q t, cell_at three_type_grid q = Some t /\ t <> 2%Z /\ t <> 0%Z /\
                 forall q2, cell_at three_type_grid q2 = Some 0%Z ->
                            (euclidean (1%nat, 1%nat) q
                             < euclidean (1%nat, 1%nat) q2)%R).
Proof.
  apply (field_positive_iff_third_type_nearer three_type_grid 2 0 (1, 1)).
  - lia.
  - exists (0, 0). reflexivity.
  - reflexivity.
Defined.

(** ** What the pipeline asks of its libraries *)

Lemma all_requests_bind {A B : Type} (P : request -> Prop) (p : prog A)
  (f : A -> prog B) (Q : A -> Prop) :
  all_requests P p -> post any_answer p Q ->
  (forall a, Q a -> all_requests P (f a)) ->
  all_requests P (bind p f).
Proof.
  induction p as [a | q k IH]; cbn [bind all_requests post]; intros Hp Hq Hf.
  - apply Hf, Hq.
  - destruct Hp as [Hq0 Hk]. split; [exact Hq0 |].
    intros x. apply IH; [apply Hk | apply Hq; exact I | exact Hf].
Qed.

Lemma all_requests_ebind {A B : Type} (P : request -> Prop) (p : eprog A)
  (f : A -> eprog B) (Q : A -> Prop) :
  all_requests P p ->
  post any_answer p (fun r => forall a, r = Ok a -> Q a) ->
  (forall a, Q a -> all_requests P (f a)) ->
  all_requests P (ebind p f).
Proof.
  intros Hp Hq Hf. unfold ebind.
  apply (all_requests_bind P p _ (fun r => forall a, r = Ok a -> Q a));
    [exact Hp | exact Hq |].
  intros [a | e] Ha; [apply Hf, Ha; reflexivity | exact I].
Qed.

Lemma all_requests_ebind_any {A B : Type} (P : request -> Prop) (p : eprog A)
  (f : A -> eprog B) :
  all_requests P p -> (forall a, all_requests P (f a)) ->
  all_requests P (ebind p f).
Proof.
  intros Hp Hf.
  apply (all_requests_ebind P p f (fun _ => True)); [exact Hp | | auto].
  apply post_forall. auto.
Qed.

Lemma all_requests_try_except {A : Type} (P : request -> Prop)
  (body : eprog A) (handler : exn -> eprog A) :
  all_requests P body -> (forall e, all_requests P (handler e)) ->
  all_requests P (try_except body handler).
Proof.
  intros Hb Hh. unfold try_except.
  apply (all_requests_bind P body _ (fun _ => True));
    [exact Hb | apply post_true |].
  intros [a | e] _; [exact I | apply Hh].
Qed.

Lemma all_requests_call {A : Type} (P : request -> Prop) (q : request)
  (get : answer q -> result A) :
  P q -> all_requests P (call q get).
Proof. intros H. unfold call. cbn [all_requests]. split; [exact H | auto]. Qed.

Lemma all_requests_efold {A B : Type} (P : request -> Prop)
  (f : B -> A -> eprog B) (l : list A) (b : B) :
  (forall b a, In a l -> all_requests P (f b a)) ->
  all_requests P (efold f l b).
Proof.
  revert b. induction l as [| a l IH]; intros b H.
  - exact I.
  - rewrite efold_cons. apply all_requests_ebind_any.
    + apply H. left. reflexivity.
    + intros b'. apply IH. intros b0 a0 Hin. apply H. right. exact Hin.
Qed.

Lemma all_requests_emap {A B : Type} (P : request -> Prop)
  (f : A -> eprog B) (l : list A) :
  (forall a, all_requests P (f a)) -> all_requests P (emap f l).
Proof.
  intros H. induction l as [| a l IH]; [exact I |]. cbn [emap].
  apply all_requests_ebind_any; [apply H | intros b].
  apply all_requests_ebind_any; [exact IH | intros bs; exact I].
Qed.

(** *** Reading and classifying *)

Lemma read_img_requests (img_dir : string) :
  all_requests (library_contract img_dir) (read_img img_dir).
Proof.
  unfold read_img, pd_read_csv.
  apply all_requests_ebind_any.
  - apply all_requests_ebind_any.
    + apply all_requests_call. reflexivity.
    + intros [| header data]; [exact I |]. cbv zeta.
      destruct (forallb (fun row => length row <=? table_width header data)
                        data);
        exact I.
  - intros df. apply all_requests_ebind_any; [exact I | intros df'].
    apply all_requests_ebind_any; [exact I | intros points].
    apply all_requests_ebind_any; [exact I | intros labels; exact I].
Qed.

Lemma density_row_requests (img_dir : string) (points : list point)
  (labels : list string) (label : string) :
  all_requests (library_contract img_dir) (density_row points labels label).
Proof.
  unfold density_row.
  apply all_requests_ebind_any; [exact I | intros pts].
  destruct pts as [| pt pts]; [exact I |].
  change (0 <? length (pt :: pts)) with true. cbv iota.
  apply all_requests_ebind_any.
  - apply all_requests_call. split; [discriminate | reflexivity].
  - intros kde. apply all_requests_ebind_any.
    + apply all_requests_call. reflexivity.
    + intros vals. exact I.
Qed.

Lemma compute_kde_requests (img_dir : string) (points : list point)
  (labels : list string) :
  all_requests (library_contract img_dir) (compute_kde points labels).
Proof.
  unfold compute_kde, compute_densities.
  apply all_requests_ebind_any.
  - apply all_requests_emap. intros label. apply density_row_requests.
  - intros densities. exact I.
Qed.

Lemma post_compute_kde_shape (points : list point) (labels : list string) :
  post any_answer (compute_kde points labels)
       (fun r => forall class_map,
            r = Ok class_map ->
            length class_map = grid_res /\
            Forall (fun row => length row = grid_res) class_map).
Proof.
  unfold compute_kde. apply post_ebind. apply post_forall.
  intros [densities | e].
  - cbn [eret post]. intros class_map H. injection H as <-. split.
    + apply length_reshape.
    + apply reshape_rows_length, length_argmax_axis0.
  - intros class_map H. discriminate.
Qed.

(** *** The field handed to gudhi *)

Lemma in_concat_cell_at {A : Type} (a : list (list A)) (v : A) :
  In v (concat a) -> exists p, cell_at a p = Some v.
Proof.
  intros H. apply in_concat in H. destruct H as [row [Hrow Hv]].
  apply In_nth_error in Hrow, Hv.
  destruct Hrow as [r Hr], Hv as [c Hc].
  exists (r, c). unfold cell_at. cbn [fst snd]. rewrite Hr. exact Hc.
Qed.

Lemma cell_at_same_shape {A B : Type} (a : list (list A)) (b : list (list B))
  (p : nat * nat) (v : A) :
  map (@length A) a = map (@length B) b ->
  cell_at a p = Some v -> exists c, cell_at b p = Some c.
Proof.
  unfold cell_at. intros Hshape Hv.
  destruct (nth_error a (fst p)) as [ra |] eqn:Ea; [| discriminate].
  pose proof (map_nth_error (@length A) _ _ Ea) as Hl.
  rewrite Hshape in Hl. rewrite nth_error_map in Hl.
  destruct (nth_error b (fst p)) as [rb |]; [| discriminate].
  cbn [option_map] in Hl. injection Hl as Hl.
  assert (Hlt : snd p < length rb).
  { rewrite Hl. apply nth_error_Some. rewrite Hv. discriminate. }
  apply nth_error_Some in Hlt.
  destruct (nth_error rb (snd p)) as [c |]; [| contradiction].
  exists c. reflexivity.
Qed.

Lemma cell_at_position {A : Type} (a : list (list A)) (p : nat * nat)
  (v : A) (n : nat) :
  length a = n -> Forall (fun row => length row = n) a ->
  cell_at a p = Some v -> fst p < n /\ snd p < n.
Proof.
  unfold cell_at. intros Hlen Hrows Hv.
  destruct (nth_error a (fst p)) as [row |] eqn:Er; [| discriminate].
  split.
  - rewrite <- Hlen. apply nth_error_Some. rewrite Er. discriminate.
  - rewrite Forall_forall in Hrows.
    rewrite <- (Hrows row (nth_error_In _ _ Er)).
    apply nth_error_Some. rewrite Hv. discriminate.
Qed.

Lemma min_sq_dist_incl (p : nat * nat) (bg bg' : list (nat * nat)) (m : Z) :
  incl bg bg' -> min_sq_dist p bg = Some m ->
  exists m', min_sq_dist p bg' = Some m' /\ (m' <= m)%Z.
Proof.
  intros Hincl Hm. apply min_sq_dist_spec in Hm.
  destruct Hm as [[q [Hq E]] _]. apply Hincl in Hq.
  destruct (min_sq_dist_some p q bg' Hq) as [m' Hm'].
  exists m'. split; [exact Hm' |].
  apply min_sq_dist_spec in Hm'. destruct Hm' as [_ Hall].
  rewrite E. apply Hall, Hq.
Qed.

Lemma sq_dist_grid (p q : nat * nat) :
  fst p < 100 -> snd p < 100 -> fst q < 100 -> snd q < 100 ->
  (IZR (sq_dist p q) <= DBL_MAX)%R.
Proof.
  intros H1 H2 H3 H4. unfold DBL_MAX. apply IZR_le.
  apply Z.le_trans with 20000%Z.
  - unfold sq_dist. cbv zeta.
    assert (Ha : (-100 < Z.of_nat (fst p) - Z.of_nat (fst q) < 100)%Z) by lia.
    assert (Hb : (-100 < Z.of_nat (snd p) - Z.of_nat (snd q) < 100)%Z) by lia.
    nia.
  - intros H. vm_compute in H. discriminate.
Qed.

Lemma bf_distance_not_negative (bg : list (nat * nat)) (p : nat * nat)
  (v : Z) :
  exists r, bf_distance bg p v = Fin r /\ (0 <= r)%R.
Proof.
  unfold bf_distance. destruct (Z.eqb v 0).
  - exists 0%R. split; [reflexivity | lra].
  - destruct (min_sq_dist p bg); eexists; (split; [reflexivity |]);
      apply sqrt_pos.
Qed.

Lemma sedt3_cell_not_negative (class_map : list (list Z)) (idx1 idx2 : Z)
  (p : nat * nat) (c : Z) :
  idx1 <> idx2 ->
  (forall q t, cell_at class_map q = Some t -> fst q < 100 /\ snd q < 100) ->
  cell_at class_map p = Some c ->
  exists v, cell_at (sedt3 class_map idx1 idx2) p = Some v /\
            (v = PInf \/ exists r, v = Fin r /\ (0 <= r)%R).
Proof.
  intros Hne Hpos Hc. rewrite (cell_at_sedt3 _ _ _ _ _ Hc).
  eexists. split; [reflexivity |].
  destruct (existsb (Z.eqb c) (other_idx idx1 idx2)); [left; reflexivity |].
  right. destruct (Z.eqb_spec c idx1) as [-> | Hc1].
  - replace (Z.eqb idx1 idx2) with false
      by (symmetry; apply Z.eqb_neq; exact Hne).
    cbn [Z.sub Z.eqb Z.opp Z.add Z.pos_sub].
    assert (Hincl : incl (background (complement (indicator class_map idx2)))
                         (background (indicator class_map idx1))).
    { intros q Hq. apply in_background_complement in Hq.
      apply in_background_indicator. exists idx2.
      split; [exact Hq | congruence]. }
    unfold bf_distance. cbn [Z.eqb].
    destruct (min_sq_dist p (background (complement (indicator class_map idx2))))
      as [m2 |] eqn:E2.
    + destruct (min_sq_dist_incl _ _ _ _ Hincl E2) as [m1 [E1 Hle]].
      rewrite E1. cbn [fsub fneg fadd]. eexists. split; [reflexivity |].
      apply IZR_le in Hle. apply sqrt_le_1_alt in Hle. lra.
    + destruct (min_sq_dist p (background (indicator class_map idx1)))
        as [m1 |] eqn:E1.
      * cbn [fsub fneg fadd]. eexists. split; [reflexivity |].
        apply min_sq_dist_spec in E1. destruct E1 as [[q [Hq E1]] _].
        apply in_background_indicator in Hq. destruct Hq as [t [Ht _]].
        assert (Hle : (IZR m1 <= DBL_MAX)%R).
        { rewrite E1. apply sq_dist_grid;
            [apply (Hpos p idx1 Hc) | apply (Hpos p idx1 Hc)
             | apply (Hpos q t Ht) | apply (Hpos q t Ht)]. }
        apply sqrt_le_1_alt in Hle. lra.
      * cbn [fsub fneg fadd]. eexists. split; [reflexivity |]. lra.
  - destruct (bf_distance_not_negative
                (background (complement (indicator class_map idx2))) p
                (1 - (if Z.eqb c idx2 then 1 else 0))%Z) as [r [E Hr]].
    rewrite E. unfold bf_distance at 1. cbn [Z.eqb fsub fneg fadd].
    eexists. split; [reflexivity |]. lra.
Qed.

Lemma shape_sedt3 (class_map : list (list Z)) (idx1 idx2 : Z) :
  shape (sedt3 class_map idx1 idx2) = shape class_map.
Proof.
  pose proof (row_lengths_sedt3 class_map idx1 idx2) as Hrows.
  unfold shape. f_equal.
  - apply (f_equal (@length nat)) in Hrows.
    rewrite !length_map in Hrows. exact Hrows.
  - f_equal. destruct (sedt3 class_map idx1 idx2) as [| r0 f],
      class_map as [| c0 cm]; try discriminate; [reflexivity |].
    cbn [map hd] in *. injection Hrows as Hr _. exact Hr.
Qed.

Lemma shape_square {A : Type} (a : list (list A)) (n : nat) :
  length a = n -> Forall (fun row => length row = n) a -> shape a = [n; n].
Proof.
  intros Hlen Hrows. unfold shape. rewrite Hlen. f_equal. f_equal.
  destruct a as [| row a].
  - exact Hlen.
  - inversion Hrows; subst. assumption.
Qed.

Local Transparent grid_res.

Lemma grid_res_value : grid_res = 100.
Proof. reflexivity. Qed.

Local Opaque grid_res.

Lemma cell_pairs_indices (cell_type1 cell_type2 : string) :
  In (cell_type1, cell_type2) cell_pairs ->
  exists idx1 idx2,
    type_to_idx cell_type1 = Ok idx1 /\ type_to_idx cell_type2 = Ok idx2 /\
    idx1 <> idx2.
Proof.
  intros [H | [H | [H | []]]]; injection H as <- <-.
  - exists 2%Z, 0%Z. repeat split. lia.
  - exists 2%Z, 1%Z. repeat split. lia.
  - exists 0%Z, 1%Z. repeat split. lia.
Qed.

Lemma compute_cubical_complex_pair_requests (img_dir : string)
  (class_map : list (list Z)) (cell_type1 cell_type2 : string) :
  In (cell_type1, cell_type2) cell_pairs ->
  length class_map = grid_res ->
  Forall (fun row => length row = grid_res) class_map ->
  all_requests (library_contract img_dir)
    (compute_cubical_complex_pair class_map cell_type1 cell_type2).
Proof.
  intros Hin Hlen Hrows.
  destruct (cell_pairs_indices _ _ Hin) as (idx1 & idx2 & H1 & H2 & Hne).
  unfold compute_cubical_complex_pair. rewrite H1, H2, !ebind_lift_ok.
  cbv zeta. apply all_requests_ebind_any.
  - apply all_requests_call. cbn [library_contract].
    pose proof (row_lengths_sedt3 class_map idx1 idx2) as Hshape.
    split; [| split].
    + rewrite shape_sedt3. apply shape_square; assumption.
    + rewrite (length_concat_rows _ grid_res).
      * apply (f_equal (@length nat)) in Hshape.
        rewrite !length_map in Hshape. rewrite Hshape, Hlen. reflexivity.
      * rewrite Hshape. apply Forall_map. exact Hrows.
    + apply Forall_forall. intros v Hv.
      apply in_concat_cell_at in Hv. destruct Hv as [p Hp].
      destruct (cell_at_same_shape _ class_map p v Hshape Hp) as [c Hc].
      destruct (sedt3_cell_not_negative class_map idx1 idx2 p c Hne)
        as [v' [Hv' Hok]]; [| exact Hc |].
      * intros q t Ht. rewrite <- grid_res_value.
        exact (cell_at_position class_map q t grid_res Hlen Hrows Ht).
      * rewrite Hp in Hv'. injection Hv' as <-. exact Hok.
  - intros cubical_complex. apply all_requests_ebind_any.
    + apply all_requests_call. exact I.
    + intros diag. exact I.
Qed.

(** *** Sampling *)

Lemma nb_points_at_most_200 (len1 len2 : nat) : nb_points_of len1 len2 <= 200.
Proof.
  unfold nb_points_of, nb_points_rule. cbv zeta.
  destruct (Nat.leb_spec (Nat.max len1 len2) 2000) as [Hle | _]; [| lia].
  pose proof (Nat.div_mod_eq (Nat.max len1 len2) 10) as Hdiv.
  pose proof (Nat.mod_upper_bound (Nat.max len1 len2) 10) as Hmod.
  lia.
Qed.

Lemma compute_witness_complex_pair_requests (img_dir : string)
  (points : list point) (labels : list string)
  (cell_type1 cell_type2 : string) :
  all_requests (library_contract img_dir)
    (compute_witness_complex_pair points labels cell_type1 cell_type2).
Proof.
  unfold compute_witness_complex_pair.
  apply all_requests_ebind_any; [exact I | intros points_type1].
  apply all_requests_ebind_any; [exact I | intros points_type2].
  destruct (Nat.ltb_spec (length points_type1) 3) as [_ | Hlen1];
    [exact I |].
  destruct (Nat.ltb_spec (length points_type2) 3) as [_ | Hlen2];
    [exact I |].
  cbn [orb]. cbv zeta.
  pose proof (nb_points_bounds _ _ Hlen1 Hlen2) as Hb.
  pose proof (nb_points_at_most_200 (length points_type1)
                                    (length points_type2)) as H200.
  apply all_requests_ebind_any.
  { apply all_requests_call. cbn [library_contract]. lia. }
  intros landmarks. apply all_requests_ebind_any.
  { apply all_requests_call. cbn [library_contract]. lia. }
  intros witnesses. apply all_requests_ebind_any.
  { apply all_requests_call. exact I. }
  intros witness_complex. apply all_requests_ebind_any.
  { apply all_requests_call. split; reflexivity. }
  intros simplex_tree. apply all_requests_ebind_any.
  { apply all_requests_call. exact I. }
  intros diag. exact I.
Qed.

(** *** The two pipelines *)

Lemma print_then_requests {A : Type} (img_dir : string) (msg : string)
  (a : A) :
  all_requests (library_contract img_dir)
    (call (print msg) (fun x => Ok x) ;;; eret a)%prog.
Proof.
  apply all_requests_ebind_any; [apply all_requests_call; exact I |].
  intros _. exact I.
Qed.

Lemma pair_features_requests (img_dir : string) (class_map : list (list Z))
  (points : list point) (labels : list string) (exclude_infinite : bool)
  (all_stats : dict) (pair : string * string) :
  In pair cell_pairs ->
  length class_map = grid_res ->
  Forall (fun row => length row = grid_res) class_map ->
  all_requests (library_contract img_dir)
    (pair_features class_map points labels exclude_infinite all_stats pair).
Proof.
  destruct pair as [cell_type1 cell_type2]. intros Hin Hlen Hrows.
  unfold pair_features. apply all_requests_ebind_any.
  - unfold cubical_features. apply all_requests_try_except.
    + apply all_requests_ebind_any.
      * apply compute_cubical_complex_pair_requests; assumption.
      * intros [cubical_complex cubical_diag]. exact I.
    + intros e. apply print_then_requests.
  - intros all_stats'. unfold witness_features.
    apply all_requests_try_except.
    + apply all_requests_ebind_any.
      * apply compute_witness_complex_pair_requests.
      * intros [[witness_complex simplex_tree] witness_diag]. exact I.
    + intros e. apply print_then_requests.
Qed.

Lemma pair_features_by_dimension_requests (img_dir : string)
  (class_map : list (list Z)) (points : list point) (labels : list string)
  (dimensions : list Z) (exclude_infinite : bool) (all_stats : dict)
  (pair : string * string) :
  In pair cell_pairs ->
  length class_map = grid_res ->
  Forall (fun row => length row = grid_res) class_map ->
  all_requests (library_contract img_dir)
    (pair_features_by_dimension class_map points labels dimensions
                                exclude_infinite all_stats pair).
Proof.
  destruct pair as [cell_type1 cell_type2]. intros Hin Hlen Hrows.
  unfold pair_features_by_dimension. apply all_requests_ebind_any.
  - unfold cubical_features_by_dimension. apply all_requests_try_except.
    + apply all_requests_ebind_any.
      * apply compute_cubical_complex_pair_requests; assumption.
      * intros [cubical_complex cubical_diag]. exact I.
    + intros e. apply print_then_requests.
  - intros all_stats'. unfold witness_features_by_dimension.
    apply all_requests_try_except.
    + apply all_requests_ebind_any.
      * apply compute_witness_complex_pair_requests.
      * intros [[witness_complex simplex_tree] witness_diag]. exact I.
    + intros e. apply print_then_requests.
Qed.

(** X16.  Whatever the file holds and whatever the libraries answer, every call
    the two pipelines make is well formed: the one file read is of the path
    given; a density estimator is built with bandwidth 0.5 and only from a
    point set that is not empty, and is evaluated on the grid; the cubical
    complex is built with dimensions 100 x 100 from 10000 cells, each of
    them [+inf] or a finite number that is not negative (never [nan], never
    [-inf]); a sample is asked for at least 3, at most 200 and never more
    points than the set holds; and a simplex tree is built with
    [max_alpha_square = 0.1] and [limit_dimension = 2]. *)
Theorem library_requests_well_formed (img_dir : string)
  (dimensions : list Z) (exclude_infinite : bool) :
  all_requests (library_contract img_dir)
    (compute_all_features img_dir exclude_infinite) /\
  all_requests (library_contract img_dir)
    (compute_features_by_dimension img_dir dimensions exclude_infinite).
Proof.
  split.
  - unfold compute_all_features.
    apply all_requests_ebind_any; [apply read_img_requests |].
    intros [points labels].
    apply (all_requests_ebind _ _ _
             (fun class_map =>
                length class_map = grid_res /\
                Forall (fun row => length row = grid_res) class_map));
      [apply compute_kde_requests | apply post_compute_kde_shape |].
    intros class_map [Hlen Hrows].
    apply all_requests_ebind_any; [| intros all_stats; exact I].
    apply all_requests_efold. intros all_stats pair Hin.
    apply pair_features_requests; assumption.
  - unfold compute_features_by_dimension.
    apply all_requests_ebind_any; [apply read_img_requests |].
    intros [points labels].
    apply (all_requests_ebind _ _ _
             (fun class_map =>
                length class_map = grid_res /\
                Forall (fun row => length row = grid_res) class_map));
      [apply compute_kde_requests | apply post_compute_kde_shape |].
    intros class_map [Hlen Hrows].
    apply all_requests_ebind_any; [| intros all_stats; exact I].
    apply all_requests_efold. intros all_stats pair Hin.
    apply pair_features_by_dimension_requests; assumption.
Qed.

(** ** More on extract_persistence_stats *)

Lemma length_retained (exclude_infinite : bool)
  (max_finite_value : option float64) (diag : diagram) :
  length (retained exclude_infinite max_finite_value diag)
  = length (if exclude_infinite
            then filter (fun iv => negb (np_isinf (snd (snd iv)))) diag
            else diag).
Proof.
  induction diag as [| [dim [birth death]] diag IH].
  - destruct exclude_infinite; reflexivity.
  - unfold retained in *. cbn [flat_map policy]. rewrite length_app, IH.
    destruct exclude_infinite; cbn [filter snd].
    + destruct (np_isinf death); reflexivity.
    + destruct (np_isinf death); [destruct max_finite_value |]; reflexivity.
Qed.

Lemma dict_get_all_missing_n_features (prefix : string) :
  dict_get (all_missing prefix) (prefix ++ "_n_features") = Some (PyInt 0).
Proof.
  unfold all_missing, statistics. cbn [map append].
  rewrite !dict_get_prepend. reflexivity.
Qed.

Lemma dict_get_summary_n_features (prefix : string)
  (births deaths : list float64) :
  dict_get (summary prefix births deaths) (prefix ++ "_n_features")
  = Some (PyInt (Z.of_nat (length births))).
Proof. unfold summary. rewrite !dict_get_prepend. reflexivity. Qed.

(** X17.  [n_features] is the number of intervals that enter the statistics: with
    [exclude_infinite], those whose death is neither [+inf] nor [-inf] (an
    interval with a [nan] death counts); without it, all of them, whether a
    replacement value is given or not. *)
Theorem n_features_counts_kept (diag : diagram) (prefix : string)
  (exclude_infinite : bool) (max_finite_value : option float64) :
  dict_get (extract_persistence_stats diag prefix exclude_infinite
                                      max_finite_value)
           (prefix ++ "_n_features")
  = Some (PyInt (Z.of_nat
       (length (if exclude_infinite
                then filter (fun iv => negb (np_isinf (snd (snd iv)))) diag
                else diag)))).
Proof.
  rewrite extract_persistence_stats_retained.
  rewrite <- (length_retained exclude_infinite max_finite_value diag).
  destruct (retained exclude_infinite max_finite_value diag) as [| bd kept].
  - apply dict_get_all_missing_n_features.
  - rewrite dict_get_summary_n_features, length_map. reflexivity.
Qed.

Lemma retained_of_pairs (exclude_infinite : bool)
  (max_finite_value : option float64) (diag : diagram) :
  retained exclude_infinite max_finite_value diag
  = retained exclude_infinite max_finite_value
             (map (fun bd => (0%Z, bd)) (map snd diag)).
Proof.
  unfold retained. induction diag as [| [dim [birth death]] diag IH].
  - reflexivity.
  - cbn [map flat_map snd]. rewrite IH. reflexivity.
Qed.

(** X18.  The homology dimension of an interval plays no part: two diagrams with
    the same (birth, death) pairs in the same order give the same record. *)
Theorem dimension_plays_no_part (diag diag' : diagram) (prefix : string)
  (exclude_infinite : bool) (max_finite_value : option float64) :
  map snd diag = map snd diag' ->
  extract_persistence_stats diag prefix exclude_infinite max_finite_value
  = extract_persistence_stats diag' prefix exclude_infinite max_finite_value.
Proof.
  intros H. rewrite !extract_persistence_stats_retained.
  rewrite (retained_of_pairs _ _ diag), (retained_of_pairs _ _ diag'), H.
  reflexivity.
Qed.

Lemma dimension_plays_no_part_example :
  extract_persistence_stats [(0%Z, (Fin 0, Fin 1))] "cubical_tumor_immune"
                            true None
  = extract_persistence_stats [(1%Z, (Fin 0, Fin 1))] "cubical_tumor_immune"
                              true None.
Proof.
  apply (dimension_plays_no_part [(0%Z, (Fin 0, Fin 1))]
                                 [(1%Z, (Fin 0, Fin 1))]).
  reflexivity.
Defined.

(** *** Statistics of a diagram whose infinite deaths are kept *)

Lemma fold_fmax_pinf (xs : list float64) :
  Forall number_or_pinf xs -> fold_left fmax xs PInf = PInf.
Proof.
  induction xs as [| x xs IH]; intros H; [reflexivity |].
  inversion H as [| ? ? Hx Hxs]; subst. cbn [fold_left].
  destruct x; try contradiction; apply IH, Hxs.
Qed.

Lemma fmax_number_or_pinf (a b : float64) :
  number_or_pinf a -> number_or_pinf b -> number_or_pinf (fmax a b).
Proof.
  intros Ha Hb. unfold fmax. destruct (fle b a || np_isnan a); assumption.
Qed.

Lemma fold_fmax_reaches_pinf (xs : list float64) (a : float64) :
  number_or_pinf a -> Forall number_or_pinf xs -> In PInf xs ->
  fold_left fmax xs a = PInf.
Proof.
  revert a. induction xs as [| x xs IH]; intros a Ha H Hin; [destruct Hin |].
  inversion H as [| ? ? Hx Hxs]; subst. cbn [fold_left].
  destruct Hin as [-> | Hin].
  - replace (fmax a PInf) with PInf; [apply fold_fmax_pinf, Hxs |].
    destruct a; try contradiction; reflexivity.
  - apply IH; [apply fmax_number_or_pinf; assumption | exact Hxs | exact Hin].
Qed.

Lemma np_max_pinf (xs : list float64) :
  Forall number_or_pinf xs -> In PInf xs -> np_max xs = PInf.
Proof.
  destruct xs as [| x xs]; intros H Hin; [destruct Hin |].
  inversion H as [| ? ? Hx Hxs]; subst. cbn [np_max].
  destruct Hin as [-> | Hin].
  - apply fold_fmax_pinf, Hxs.
  - apply fold_fmax_reaches_pinf; assumption.
Qed.

Lemma fold_fadd_pinf (xs : list float64) :
  Forall number_or_pinf xs -> fold_left fadd xs PInf = PInf.
Proof.
  induction xs as [| x xs IH]; intros H; [reflexivity |].
  inversion H as [| ? ? Hx Hxs]; subst. cbn [fold_left].
  destruct x; try contradiction; apply IH, Hxs.
Qed.

Lemma fold_fadd_reaches_pinf (xs : list float64) (a : float64) :
  number_or_pinf a -> Forall number_or_pinf xs -> In PInf xs ->
  fold_left fadd xs a = PInf.
Proof.
  revert a. induction xs as [| x xs IH]; intros a Ha H Hin; [destruct Hin |].
  inversion H as [| ? ? Hx Hxs]; subst. cbn [fold_left].
  destruct Hin as [-> | Hin].
  - replace (fadd a PInf) with PInf; [apply fold_fadd_pinf, Hxs |].
    destruct a; try contradiction; reflexivity.
  - apply IH; [| exact Hxs | exact Hin].
    destruct a, x; try contradiction; exact I.
Qed.

Lemma np_mean_pinf (xs : list float64) :
  Forall number_or_pinf xs -> In PInf xs -> np_mean xs = PInf.
Proof.
  intros H Hin. unfold np_mean, np_sum.
  rewrite fold_fadd_reaches_pinf; [| exact I | exact H | exact Hin].
  cbn [fdiv]. destruct (Rlt_dec (INR (length xs)) 0) as [Hneg |];
    [| reflexivity].
  pose proof (pos_INR (length xs)). lra.
Qed.

Lemma fold_fadd_nan (xs : list float64) : fold_left fadd xs NaN = NaN.
Proof. induction xs as [| x xs IH]; [reflexivity | exact IH]. Qed.

Lemma fold_fadd_reaches_nan (xs : list float64) (a : float64) :
  In NaN xs -> fold_left fadd xs a = NaN.
Proof.
  revert a. induction xs as [| x xs IH]; intros a Hin; [destruct Hin |].
  cbn [fold_left]. destruct Hin as [-> | Hin].
  - replace (fadd a NaN) with NaN by (destruct a; reflexivity).
    apply fold_fadd_nan.
  - apply IH, Hin.
Qed.

Lemma np_std_pinf (xs : list float64) :
  Forall number_or_pinf xs -> In PInf xs -> np_std xs = NaN.
Proof.
  intros H Hin. unfold np_std. cbv zeta. rewrite (np_mean_pinf xs H Hin).
  unfold np_sum. rewrite fold_fadd_reaches_nan; [reflexivity |].
  rewrite map_map. apply in_map_iff. exists PInf.
  split; [reflexivity | exact Hin].
Qed.

Lemma retained_all (diag : diagram) : retained false None diag = map snd diag.
Proof.
  unfold retained. induction diag as [| [dim [birth death]] diag IH].
  - reflexivity.
  - cbn [flat_map policy map snd]. rewrite IH.
    destruct (np_isinf death); reflexivity.
Qed.

Lemma lifetimes_of_pairs (kept : list (float64 * float64)) :
  map2 fsub (map snd kept) (map fst kept)
  = map (fun bd => fsub (snd bd) (fst bd)) kept.
Proof.
  induction kept as [| bd kept IH]; [reflexivity |].
  cbn [map map2]. rewrite IH. reflexivity.
Qed.

(** X19.  Without [exclude_infinite] and without a replacement value, on a
    diagram whose births are numbers and whose deaths are numbers or [+inf],
    one class that never dies is enough to make the maximum of the deaths
    and of the lifetimes [+inf] and their standard deviations [nan]; their
    means are no numbers either: [+inf], or [nan].  (With the arithmetic of
    the reals the mean is [+inf]; in float64 it is [nan] when the finite
    values overflow to [-inf] on the way.)  Every interval is counted. *)
Theorem kept_infinite_death_statistics (diag : diagram) (prefix : string) :
  Forall (fun iv => is_number (fst (snd iv)) /\
                    number_or_pinf (snd (snd iv))) diag ->
  (exists dim birth, In (dim, (birth, PInf)) diag) ->
  let stats := extract_persistence_stats diag prefix false None in
  dict_get stats (prefix ++ "_death_max") = Some (PyFloat PInf) /\
  (dict_get stats (prefix ++ "_death_mean") = Some (PyFloat PInf) \/
   dict_get stats (prefix ++ "_death_mean") = Some (PyFloat NaN)) /\
  dict_get stats (prefix ++ "_death_std") = Some (PyFloat NaN) /\
  dict_get stats (prefix ++ "_lifetime_max") = Some (PyFloat PInf) /\
  (dict_get stats (prefix ++ "_lifetime_mean") = Some (PyFloat PInf) \/
   dict_get stats (prefix ++ "_lifetime_mean") = Some (PyFloat NaN)) /\
  dict_get stats (prefix ++ "_lifetime_std") = Some (PyFloat NaN) /\
  dict_get stats (prefix ++ "_n_features")
  = Some (PyInt (Z.of_nat (length diag))).
Proof.
  intros Hdiag (dim & birth & Hin) stats. subst stats.
  rewrite extract_persistence_stats_retained, retained_all.
  assert (Hd : Forall number_or_pinf (map snd (map snd diag))).
  { rewrite map_map. apply Forall_map.
    refine (Forall_impl _ _ Hdiag). intros iv [_ H]. exact H. }
  assert (Hdin : In PInf (map snd (map snd diag))).
  { rewrite map_map. apply in_map_iff.
    exists (dim, (birth, PInf)). split; [reflexivity | exact Hin]. }
  assert (Hl : Forall number_or_pinf
                 (map (fun bd => fsub (snd bd) (fst bd)) (map snd diag))).
  { rewrite map_map. apply Forall_map.
    refine (Forall_impl _ _ Hdiag). intros [d [b e]] [Hb He].
    cbn [fst snd] in *. destruct b, e; try contradiction; exact I. }
  assert (Hlin : In PInf
                   (map (fun bd => fsub (snd bd) (fst bd)) (map snd diag))).
  { rewrite map_map. apply in_map_iff.
    exists (dim, (birth, PInf)). split; [| exact Hin].
    rewrite Forall_forall in Hdiag. destruct (Hdiag _ Hin) as [Hb _].
    cbn [fst snd] in *. destruct birth; try contradiction. reflexivity. }
  destruct (map snd diag) as [| bd kept] eqn:E.
  { destruct Hdin. }
  rewrite <- E in *. unfold summary. cbv zeta.
  rewrite lifetimes_of_pairs.
  rewrite (np_max_pinf _ Hd Hdin), (np_mean_pinf _ Hd Hdin),
    (np_std_pinf _ Hd Hdin), (np_max_pinf _ Hl Hlin),
    (np_mean_pinf _ Hl Hlin), (np_std_pinf _ Hl Hlin).
  rewrite !length_map.
  split; [rewrite !dict_get_prepend; reflexivity |].
  split; [left; rewrite !dict_get_prepend; reflexivity |].
  split; [rewrite !dict_get_prepend; reflexivity |].
  split; [rewrite !dict_get_prepend; reflexivity |].
  split; [left; rewrite !dict_get_prepend; reflexivity |].
  split; rewrite !dict_get_prepend; reflexivity.
Qed.

Lemma kept_infinite_death_statistics_example :
  let stats := extract_persistence_stats essential_diagram "witness_tumor_immune"
                                         false None in
  dict_get stats "witness_tumor_immune_death_max" = Some (PyFloat PInf) /\
  dict_get stats "witness_tumor_immune_lifetime_std" = Some (PyFloat NaN).
Proof.
  destruct (kept_infinite_death_statistics essential_diagram
                                           "witness_tumor_immune")
    as (Hmax & _ & _ & _ & _ & Hstd & _).
  - repeat constructor.
  - exists 0%Z, (Fin 0). left. reflexivity.
  - split; [exact Hmax | exact Hstd].
Defined.

(** ** What the record holds when a computation succeeds *)

(** X20.  Once the file is read and the class map computed: when, in the turn of
    the loop for a pair, the cubical computation returns a diagram, the
    record that [compute_all_features] returns holds under
    [cubical_{type1}_{type2}_] the thirteen statistics of that very diagram,
    taken with the caller's [exclude_infinite] and no replacement value;
    no later turn of the loop and not the witness computation of the same
    pair overwrites them.  The same holds of the witness computation and
    [witness_{type1}_{type2}_]. *)
Theorem pair_success_recorded {S : Type} (h : handler S) (s s1 s2 : S)
  (img_dir : string) (exclude_infinite : bool) (points : list point)
  (labels : list string) (class_map : list (list Z)) :
  run h (read_img img_dir) s = (Ok (points, labels), s1) ->
  run h (compute_kde points labels) s1 = (Ok class_map, s2) ->
  exists stats s3,
    run h (compute_all_features img_dir exclude_infinite) s = (Ok stats, s3) /\
    forall k type1 type2 dk sk,
      nth_error cell_pairs k = Some (type1, type2) ->
      run h (efold (pair_features class_map points labels exclude_infinite)
                   (firstn k cell_pairs) []) s2 = (Ok dk, sk) ->
      (forall cubical_complex diag s',
          run h (compute_cubical_complex_pair class_map type1 type2) sk
            = (Ok (cubical_complex, diag), s') ->
          forall st, In st statistics ->
            dict_get stats (field_name "cubical" type1 type2 st)
            = dict_get (extract_persistence_stats
                          diag ("cubical_" ++ type1 ++ "_" ++ type2)
                          exclude_infinite None)
                       (("cubical_" ++ type1 ++ "_" ++ type2) ++ "_" ++ st)) /\
      (forall d' sw witness_complex simplex_tree diag s',
          run h (cubical_features class_map type1 type2 exclude_infinite dk) sk
            = (Ok d', sw) ->
          run h (compute_witness_complex_pair points labels type1 type2) sw
            = (Ok (witness_complex, simplex_tree, diag), s') ->
          forall st, In st statistics ->
            dict_get stats (field_name "witness" type1 type2 st)
            = dict_get (extract_persistence_stats
                          diag ("witness_" ++ type1 ++ "_" ++ type2)
                          exclude_infinite None)
                       (("witness_" ++ type1 ++ "_" ++ type2) ++ "_" ++ st)).
Proof.
  intros Hread Hkde.
  destruct (run_compute_all_features h s s1 s2 img_dir exclude_infinite
              points labels class_map Hread Hkde) as (stats & s3 & Hrun & _).
  exists stats, s3. split; [exact Hrun |].
  intros k type1 type2 dk sk Hk Hbefore.
  rewrite (run_compute_all_features_loop h s s1 s2 img_dir exclude_infinite
             points labels class_map Hread Hkde) in Hrun.
  rewrite (split_at_nth cell_pairs k _ Hk) in Hrun.
  rewrite (run_efold_app h _ _ _ _ _ _ _ Hbefore) in Hrun.
  split.
  - intros cubical_complex diag s' Hok st Hst.
    destruct (run_loop_after_cubical_ok
                h class_map points labels exclude_infinite type1 type2
                (skipn (Datatypes.S k) cell_pairs) dk sk s' cubical_complex
                diag st Hok
                (later_pairs_other_keys k type1 type2 "cubical" st Hk
                                        (or_introl eq_refl)) Hst)
      as (stats' & s3' & Hrun' & Hget).
    rewrite Hrun in Hrun'. injection Hrun' as <- _. exact Hget.
  - intros d' sw witness_complex simplex_tree diag s' Hcubical Hok st Hst.
    destruct (run_loop_after_witness_ok
                h class_map points labels exclude_infinite type1 type2
                (skipn (Datatypes.S k) cell_pairs) dk d' sk sw s'
                witness_complex simplex_tree diag st Hcubical Hok
                (later_pairs_other_keys k type1 type2 "witness" st Hk
                                        (or_intror eq_refl)) Hst)
      as (stats' & s3' & Hrun' & Hget).
    rewrite Hrun in Hrun'. injection Hrun' as <- _. exact Hget.
Qed.

Lemma sample_cubical_returns (class_map : list (list Z)) :
  exists cubical_complex,
    run (sample_library two_cells_file false)
        (compute_cubical_complex_pair class_map "tumor" "immune") tt
    = (Ok (cubical_complex,
           [(0%Z, (Fin 0, PInf)); (1%Z, (Fin 0, Fin 1))]), tt).
Proof. eexists. reflexivity. Qed.

Lemma pair_success_recorded_example :
  exists stats s3,
    run (sample_library two_cells_file false)
        (compute_all_features "cells.csv" true) tt = (Ok stats, s3) /\
    dict_get stats "cubical_tumor_immune_n_features" = Some (PyInt 1) /\
    dict_get stats "cubical_tumor_immune_death_max" = Some (PyFloat (Fin 1)).
Proof.
  destruct (sample_compute_kde false) as [class_map Hkde].
  destruct (pair_success_recorded (sample_library two_cells_file false)
              tt tt tt "cells.csv" true _ _ class_map
              (sample_read_img false) Hkde)
    as (stats & s3 & Hrun & Hok).
  exists stats, s3. split; [exact Hrun |].
  destruct (Hok 0 "tumor" "immune" [] tt eq_refl eq_refl) as [Hcubical _].
  destruct (sample_cubical_returns class_map) as [cubical_complex Hdiag].
  split.
  - refine (eq_trans (Hcubical cubical_complex _ tt Hdiag "n_features" _) _);
      [simpl; auto 20 | reflexivity].
  - refine (eq_trans (Hcubical cubical_complex _ tt Hdiag "death_max" _) _);
      [simpl; auto 20 | reflexivity].
Defined.

(** ** Features by homology dimension: names and values *)

Lemma to_int_not_nil (n : Z) :
  Z.to_int n <> Decimal.Pos Decimal.Nil /\
  Z.to_int n <> Decimal.Neg Decimal.Nil.
Proof.
  pose proof (DecimalZ.to_of (Z.to_int n)) as H. rewrite DecimalZ.of_to in H.
  split; intros E; rewrite E in H; discriminate.
Qed.

Lemma str_of_int_inj (a b : Z) : str_of_int a = str_of_int b -> a = b.
Proof.
  unfold str_of_int. intros H.
  destruct (to_int_not_nil a) as [Ha1 Ha2], (to_int_not_nil b) as [Hb1 Hb2].
  pose proof (NilZero.isi _ Ha1 Ha2) as Ia.
  pose proof (NilZero.isi _ Hb1 Hb2) as Ib.
  rewrite H in Ia. rewrite Ia in Ib. injection Ib as Ib.
  apply DecimalZ.to_int_inj, Ib.
Qed.

Lemma no_underscore_uint (d : Decimal.uint) :
  no_underscore (NilEmpty.string_of_uint d) = true.
Proof. induction d; simpl; assumption || reflexivity. Qed.

Lemma no_underscore_str_of_int (n : Z) : no_underscore (str_of_int n) = true.
Proof.
  unfold str_of_int, NilZero.string_of_int, NilZero.string_of_uint.
  destruct (Z.to_int n) as [d | d]; destruct d; try reflexivity;
    simpl; apply no_underscore_uint.
Qed.

Lemma split_at_underscore (a b x y : string) :
  no_underscore a = true -> no_underscore b = true ->
  a ++ "_" ++ x = b ++ "_" ++ y -> a = b /\ x = y.
Proof.
  revert b. induction a as [| c a IH]; intros [| c' b] Ha Hb H.
  - injection H as H. split; [reflexivity | exact H].
  - simpl in H, Hb. injection H as Hc _. subst c'. discriminate.
  - simpl in H, Ha. injection H as Hc _. subst c. discriminate.
  - simpl in H, Ha, Hb. injection H as -> H.
    apply andb_prop in Ha, Hb.
    destruct (IH b (proj2 Ha) (proj2 Hb) H) as [-> ->].
    split; reflexivity.
Qed.

Lemma string_app_inv_head (p a b : string) : p ++ a = p ++ b -> a = b.
Proof.
  induction p as [| c p IH]; simpl; intros H; [exact H |].
  injection H as H. apply IH, H.
Qed.

(** X21.  The names of the by-dimension record are unambiguous: under one prefix,
    two names coincide only for the same dimension and the same
    statistic. *)
Theorem dimension_names_unambiguous (prefix : string) (dim dim' : Z)
  (st st' : string) :
  prefix ++ "_h" ++ str_of_int dim ++ "_" ++ st
  = prefix ++ "_h" ++ str_of_int dim' ++ "_" ++ st' ->
  dim = dim' /\ st = st'.
Proof.
  intros H. apply string_app_inv_head in H. injection H as H.
  destruct (split_at_underscore _ _ _ _ (no_underscore_str_of_int dim)
              (no_underscore_str_of_int dim') H) as [Hd Hs].
  split; [apply str_of_int_inj, Hd | exact Hs].
Qed.

Lemma dimension_names_unambiguous_example :
  (1 = 1)%Z /\ "birth_min" = "birth_min".
Proof.
  apply (dimension_names_unambiguous "cubical_tumor_immune" 1 1
                                     "birth_min" "birth_min").
  reflexivity.
Defined.

Lemma in_dimension_keys (prefix : string) (dims : list Z) (dim : Z)
  (st : string) :
  In ((prefix ++ "_h" ++ str_of_int dim) ++ "_" ++ st)
     (dimension_keys prefix dims) ->
  In dim dims.
Proof.
  unfold dimension_keys. rewrite in_flat_map. intros [dim' [Hdim' Hk]].
  unfold stat_keys in Hk. apply in_map_iff in Hk. destruct Hk as [st' [E _]].
  rewrite !string_app_assoc in E. apply string_app_inv_head in E.
  injection E as E.
  destruct (split_at_underscore _ _ _ _ (no_underscore_str_of_int dim')
              (no_underscore_str_of_int dim) E) as [Hd _].
  apply str_of_int_inj in Hd. subst dim'. exact Hdim'.
Qed.

(** After the loop over the dimensions, the statistics under a dimension
    of the list are those of the diagram of that dimension. *)
Lemma stats_by_dimension_present (diag_of : Z -> diagram) (prefix : string)
  (dims : list Z) (exclude_infinite : bool) (d : dict) (dim : Z)
  (st : string) :
  In dim dims -> In st statistics ->
  dict_get (stats_by_dimension diag_of prefix dims exclude_infinite d)
           ((prefix ++ "_h" ++ str_of_int dim) ++ "_" ++ st)
  = dict_get (extract_persistence_stats
                (diag_of dim) (prefix ++ "_h" ++ str_of_int dim)
                exclude_infinite None)
             ((prefix ++ "_h" ++ str_of_int dim) ++ "_" ++ st).
Proof.
  revert d. induction dims as [| dim0 dims IH]; intros d Hin Hst;
    [destruct Hin |].
  rewrite stats_by_dimension_cons.
  destruct (in_dec Z.eq_dec dim dims) as [Hlater | Hnot].
  - apply IH; assumption.
  - destruct Hin as [-> | Hin]; [| contradiction].
    rewrite stats_by_dimension_other.
    + apply dict_get_stats_present, Hst.
    + intros Hk. apply Hnot, (in_dimension_keys _ _ _ _ Hk).
Qed.

Lemma dimension_key_eq (complexType type1 type2 : string) (dim : Z)
  (st : string) :
  dimension_key complexType type1 type2 dim st
  = ((complexType ++ "_" ++ type1 ++ "_" ++ type2) ++ "_h" ++ str_of_int dim)
      ++ "_" ++ st.
Proof. unfold dimension_key. rewrite !string_app_assoc. reflexivity. Qed.

Lemma dimension_key_field_name (complexType type1 type2 : string) (dim : Z)
  (st : string) :
  dimension_key complexType type1 type2 dim st
  = field_name complexType type1 type2 ("h" ++ str_of_int dim ++ "_" ++ st).
Proof.
  unfold dimension_key, field_name. reflexivity.
Qed.

Lemma post_pair_by_dimension_keeps_key (class_map : list (list Z))
  (points : list point) (labels : list string) (dims : list Z)
  (exclude_infinite : bool) (all_stats : dict) (pair : string * string)
  (k : string) :
  other_prefixes pair k ->
  post any_answer
       (pair_features_by_dimension class_map points labels dims
                                   exclude_infinite all_stats pair)
       (fun r => exists d, r = Ok d /\ dict_get d k = dict_get all_stats k).
Proof.
  destruct pair as [a b]. intros [Hc Hw]. cbn [fst snd] in Hc, Hw.
  unfold pair_features_by_dimension. apply post_ebind.
  refine (post_mono any_answer _ _ _ _
            (post_cubical_by_dimension class_map a b dims exclude_infinite
                                       all_stats)).
  intros r [diag_of ->].
  refine (post_mono any_answer _ _ _ _
            (post_witness_by_dimension points labels a b dims
                                       exclude_infinite _)).
  intros r [diag_of' ->]. eexists. split; [reflexivity |].
  rewrite stats_by_dimension_other_prefix by exact Hw.
  apply stats_by_dimension_other_prefix, Hc.
Qed.

Lemma post_loop_by_dimension_keeps_key (class_map : list (list Z))
  (points : list point) (labels : list string) (dims : list Z)
  (exclude_infinite : bool) (pairs : list (string * string))
  (all_stats : dict) (k : string) :
  Forall (fun pair => other_prefixes pair k) pairs ->
  post any_answer
       (efold (pair_features_by_dimension class_map points labels dims
                                          exclude_infinite) pairs all_stats)
       (fun r => exists d, r = Ok d /\ dict_get d k = dict_get all_stats k).
Proof.
  intros Hpairs. revert all_stats.
  induction Hpairs as [| pair pairs Hpair _ IH]; intros all_stats.
  - exists all_stats. split; reflexivity.
  - rewrite efold_cons. apply post_ebind.
    refine (post_mono any_answer _ _ _ _
              (post_pair_by_dimension_keeps_key
                 class_map points labels dims exclude_infinite all_stats
                 pair k Hpair)).
    intros r (d & -> & Hd).
    refine (post_mono any_answer _ _ _ _ (IH d)).
    intros r (d' & -> & Hd'). exists d'. split; [reflexivity |].
    rewrite Hd', Hd. reflexivity.
Qed.

Lemma post_loop_by_dimension_returns (class_map : list (list Z))
  (points : list point) (labels : list string) (dims : list Z)
  (exclude_infinite : bool) (pairs : list (string * string))
  (all_stats : dict) :
  post any_answer
       (efold (pair_features_by_dimension class_map points labels dims
                                          exclude_infinite) pairs all_stats)
       (fun r => exists d, r = Ok d /\ True).
Proof.
  refine (post_mono any_answer _ _ _ _
            (post_loop_by_dimension_keeps_key
               class_map points labels dims exclude_infinite pairs all_stats
               "" _)).
  - intros r (d & -> & _). exists d. split; [reflexivity | exact I].
  - apply Forall_forall. intros pair _. split; reflexivity.
Qed.

Lemma run_cubical_by_dimension_ok {S : Type} (h : handler S)
  (class_map : list (list Z)) (cell_type1 cell_type2 : string)
  (dims : list Z) (exclude_infinite : bool) (all_stats : dict) (s s1 : S)
  (cubical_complex : CubicalComplex_obj) (diag : diagram) :
  run h (compute_cubical_complex_pair class_map cell_type1 cell_type2) s
    = (Ok (cubical_complex, diag), s1) ->
  run h (cubical_features_by_dimension class_map cell_type1 cell_type2 dims
                                       exclude_infinite all_stats) s
  = (Ok (stats_by_dimension (filter_dim diag)
                            ("cubical_" ++ cell_type1 ++ "_" ++ cell_type2)
                            dims exclude_infinite all_stats), s1).
Proof.
  intros Hok. unfold cubical_features_by_dimension, try_except.
  rewrite run_bind, (run_ebind_ok _ _ _ _ _ _ Hok). reflexivity.
Qed.

Lemma run_witness_by_dimension_ok {S : Type} (h : handler S)
  (points : list point) (labels : list string)
  (cell_type1 cell_type2 : string) (dims : list Z)
  (exclude_infinite : bool) (all_stats : dict) (s s1 : S)
  (witness_complex : option EuclideanWitnessComplex_obj)
  (simplex_tree : option SimplexTree_obj) (diag : diagram) :
  run h (compute_witness_complex_pair points labels cell_type1 cell_type2) s
    = (Ok (witness_complex, simplex_tree, diag), s1) ->
  run h (witness_features_by_dimension points labels cell_type1 cell_type2
                                       dims exclude_infinite all_stats) s
  = (Ok (stats_by_dimension (filter_dim diag)
                            ("witness_" ++ cell_type1 ++ "_" ++ cell_type2)
                            dims exclude_infinite all_stats), s1).
Proof.
  intros Hok. unfold witness_features_by_dimension, try_except.
  rewrite run_bind, (run_ebind_ok _ _ _ _ _ _ Hok). reflexivity.
Qed.

Lemma run_compute_features_by_dimension_loop {S : Type} (h : handler S)
  (s s1 s2 : S) (img_dir : string) (dims : list Z) (exclude_infinite : bool)
  (points : list point) (labels : list string) (class_map : list (list Z)) :
  run h (read_img img_dir) s = (Ok (points, labels), s1) ->
  run h (compute_kde points labels) s1 = (Ok class_map, s2) ->
  run h (compute_features_by_dimension img_dir dims exclude_infinite) s =
  run h (efold (pair_features_by_dimension class_map points labels dims
                                           exclude_infinite)
               cell_pairs []) s2.
Proof.
  intros Hread Hkde. unfold compute_features_by_dimension.
  rewrite (run_ebind_ok _ _ _ _ _ _ Hread).
  rewrite (run_ebind_ok _ _ _ _ _ _ Hkde).
  apply run_ebind_eret.
Qed.

Lemma post_witness_by_dimension_returns (points : list point)
  (labels : list string) (cell_type1 cell_type2 : string) (dims : list Z)
  (exclude_infinite : bool) (all_stats : dict) :
  post any_answer
       (witness_features_by_dimension points labels cell_type1 cell_type2 dims
                                      exclude_infinite all_stats)
       (fun r => exists d,
            r = Ok d /\
            exists diag_of,
              d = stats_by_dimension
                    diag_of ("witness_" ++ cell_type1 ++ "_" ++ cell_type2)
                    dims exclude_infinite all_stats).
Proof.
  refine (post_mono any_answer _ _ _ _
            (post_witness_by_dimension points labels cell_type1 cell_type2
                                       dims exclude_infinite all_stats)).
  intros r [diag_of ->]. eexists. split; [reflexivity |].
  exists diag_of. reflexivity.
Qed.

Lemma run_by_dimension_after_cubical_ok {S : Type} (h : handler S)
  (class_map : list (list Z)) (points : list point) (labels : list string)
  (dims : list Z) (exclude_infinite : bool) (type1 type2 : string)
  (rest : list (string * string)) (d : dict) (s s' : S)
  (cubical_complex : CubicalComplex_obj) (diag : diagram) (dim : Z)
  (st : string) :
  run h (compute_cubical_complex_pair class_map type1 type2) s
    = (Ok (cubical_complex, diag), s') ->
  Forall (fun pair =>
            other_prefixes pair (dimension_key "cubical" type1 type2 dim st))
         rest ->
  In dim dims -> In st statistics ->
  exists stats s3,
    run h (efold (pair_features_by_dimension class_map points labels dims
                                             exclude_infinite)
                 ((type1, type2) :: rest) d) s = (Ok stats, s3) /\
    dict_get stats (dimension_key "cubical" type1 type2 dim st)
    = dict_get (extract_persistence_stats
                  (filter_dim diag dim)
                  (("cubical_" ++ type1 ++ "_" ++ type2)
                     ++ "_h" ++ str_of_int dim)
                  exclude_infinite None)
               ((("cubical_" ++ type1 ++ "_" ++ type2)
                   ++ "_h" ++ str_of_int dim) ++ "_" ++ st).
Proof.
  intros Hok Hrest Hdim Hst.
  pose proof (run_cubical_by_dimension_ok h class_map type1 type2 dims
                exclude_infinite d s s' cubical_complex diag Hok) as Ha.
  destruct (run_of_post h _ _ s'
              (post_witness_by_dimension_returns
                 points labels type1 type2 dims exclude_infinite
                 (stats_by_dimension
                    (filter_dim diag) ("cubical_" ++ type1 ++ "_" ++ type2)
                    dims exclude_infinite d)))
    as (db & sb & Hb & diag_of & Hdb).
  destruct (run_of_post h _ _ sb
              (post_loop_by_dimension_keeps_key
                 class_map points labels dims exclude_infinite rest db _
                 Hrest))
    as (stats & s3 & Hloop & Hkeep).
  exists stats, s3. split.
  - rewrite (run_efold_cons h _ (type1, type2) rest d db s sb);
      [exact Hloop |].
    unfold pair_features_by_dimension.
    rewrite (run_ebind_ok _ _ _ _ _ _ Ha). exact Hb.
  - rewrite Hkeep, Hdb.
    rewrite stats_by_dimension_other_prefix by reflexivity.
    rewrite dimension_key_eq.
    apply (stats_by_dimension_present
             (filter_dim diag) ("cubical_" ++ type1 ++ "_" ++ type2));
      assumption.
Qed.

Lemma run_by_dimension_after_witness_ok {S : Type} (h : handler S)
  (class_map : list (list Z)) (points : list point) (labels : list string)
  (dims : list Z) (exclude_infinite : bool) (type1 type2 : string)
  (rest : list (string * string)) (d d' : dict) (s sw s' : S)
  (witness_complex : option EuclideanWitnessComplex_obj)
  (simplex_tree : option SimplexTree_obj) (diag : diagram) (dim : Z)
  (st : string) :
  run h (cubical_features_by_dimension class_map type1 type2 dims
                                       exclude_infinite d) s
    = (Ok d', sw) ->
  run h (compute_witness_complex_pair points labels type1 type2) sw
    = (Ok (witness_complex, simplex_tree, diag), s') ->
  Forall (fun pair =>
            other_prefixes pair (dimension_key "witness" type1 type2 dim st))
         rest ->
  In dim dims -> In st statistics ->
  exists stats s3,
    run h (efold (pair_features_by_dimension class_map points labels dims
                                             exclude_infinite)
                 ((type1, type2) :: rest) d) s = (Ok stats, s3) /\
    dict_get stats (dimension_key "witness" type1 type2 dim st)
    = dict_get (extract_persistence_stats
                  (filter_dim diag dim)
                  (("witness_" ++ type1 ++ "_" ++ type2)
                     ++ "_h" ++ str_of_int dim)
                  exclude_infinite None)
               ((("witness_" ++ type1 ++ "_" ++ type2)
                   ++ "_h" ++ str_of_int dim) ++ "_" ++ st).
Proof.
  intros Hcubical Hok Hrest Hdim Hst.
  pose proof (run_witness_by_dimension_ok h points labels type1 type2 dims
                exclude_infinite d' sw s' witness_complex simplex_tree diag
                Hok) as Hb.
  destruct (run_of_post h _ _ s'
              (post_loop_by_dimension_keeps_key
                 class_map points labels dims exclude_infinite rest
                 (stats_by_dimension
                    (filter_dim diag) ("witness_" ++ type1 ++ "_" ++ type2)
                    dims exclude_infinite d')
                 _ Hrest))
    as (stats & s3 & Hloop & Hkeep).
  exists stats, s3. split.
  - rewrite (run_efold_cons
               h _ (type1, type2) rest d
               (stats_by_dimension
                  (filter_dim diag) ("witness_" ++ type1 ++ "_" ++ type2)
                  dims exclude_infinite d')
               s s'); [exact Hloop |].
    unfold pair_features_by_dimension.
    rewrite (run_ebind_ok _ _ _ _ _ _ Hcubical). exact Hb.
  - rewrite Hkeep, dimension_key_eq.
    apply (stats_by_dimension_present
             (filter_dim diag) ("witness_" ++ type1 ++ "_" ++ type2));
      assumption.
Qed.

Lemma later_pairs_other_dimension_keys (k : nat)
  (type1 type2 complexType : string) (dim : Z) (st : string) :
  nth_error cell_pairs k = Some (type1, type2) ->
  complexType = "cubical" \/ complexType = "witness" ->
  Forall (fun pair =>
            other_prefixes pair (dimension_key complexType type1 type2 dim st))
         (skipn (S k) cell_pairs).
Proof.
  intros Hk Hc. rewrite dimension_key_field_name.
  apply later_pairs_other_keys; assumption.
Qed.

(** X22.  Once the file is read and the class map computed,
    [compute_features_by_dimension] returns its record whatever the
    libraries do afterwards.  When, in the turn of the loop for a pair, the
    cubical computation returns a diagram, the record holds under
    [cubical_{type1}_{type2}_h{dim}_], for every requested dimension, the
    thirteen statistics of the intervals of that dimension alone; a
    dimension listed more than once changes nothing.  The same holds of the
    witness computation and [witness_{type1}_{type2}_h{dim}_]. *)
Theorem dimension_statistics_recorded {S : Type} (h : handler S)
  (s s1 s2 : S) (img_dir : string) (dimensions : list Z)
  (exclude_infinite : bool) (points : list point) (labels : list string)
  (class_map : list (list Z)) :
  run h (read_img img_dir) s = (Ok (points, labels), s1) ->
  run h (compute_kde points labels) s1 = (Ok class_map, s2) ->
  exists stats s3,
    run h (compute_features_by_dimension img_dir dimensions exclude_infinite) s
      = (Ok stats, s3) /\
    forall k type1 type2 dk sk,
      nth_error cell_pairs k = Some (type1, type2) ->
      run h (efold (pair_features_by_dimension class_map points labels
                                               dimensions exclude_infinite)
                   (firstn k cell_pairs) []) s2 = (Ok dk, sk) ->
      (forall cubical_complex diag s',
          run h (compute_cubical_complex_pair class_map type1 type2) sk
            = (Ok (cubical_complex, diag), s') ->
          forall dim st, In dim dimensions -> In st statistics ->
            dict_get stats (dimension_key "cubical" type1 type2 dim st)
            = dict_get (extract_persistence_stats
                          (filter_dim diag dim)
                          (("cubical_" ++ type1 ++ "_" ++ type2)
                             ++ "_h" ++ str_of_int dim)
                          exclude_infinite None)
                       ((("cubical_" ++ type1 ++ "_" ++ type2)
                           ++ "_h" ++ str_of_int dim) ++ "_" ++ st)) /\
      (forall d' sw witness_complex simplex_tree diag s',
          run h (cubical_features_by_dimension class_map type1 type2
                                               dimensions exclude_infinite dk)
              sk = (Ok d', sw) ->
          run h (compute_witness_complex_pair points labels type1 type2) sw
            = (Ok (witness_complex, simplex_tree, diag), s') ->
          forall dim st, In dim dimensions -> In st statistics ->
            dict_get stats (dimension_key "witness" type1 type2 dim st)
            = dict_get (extract_persistence_stats
                          (filter_dim diag dim)
                          (("witness_" ++ type1 ++ "_" ++ type2)
                             ++ "_h" ++ str_of_int dim)
                          exclude_infinite None)
                       ((("witness_" ++ type1 ++ "_" ++ type2)
                           ++ "_h" ++ str_of_int dim) ++ "_" ++ st)).
Proof.
  intros Hread Hkde.
  destruct (run_of_post h _ _ s2
              (post_loop_by_dimension_returns
                 class_map points labels dimensions exclude_infinite
                 cell_pairs []))
    as (stats & s3 & Hrun & _).
  rewrite <- (run_compute_features_by_dimension_loop
                h s s1 s2 img_dir dimensions exclude_infinite points labels
                class_map Hread Hkde) in Hrun.
  exists stats, s3. split; [exact Hrun |].
  intros k type1 type2 dk sk Hk Hbefore.
  rewrite (run_compute_features_by_dimension_loop
             h s s1 s2 img_dir dimensions exclude_infinite points labels
             class_map Hread Hkde) in Hrun.
  rewrite (split_at_nth cell_pairs k _ Hk) in Hrun.
  rewrite (run_efold_app h _ _ _ _ _ _ _ Hbefore) in Hrun.
  split.
  - intros cubical_complex diag s' Hok dim st Hdim Hst.
    destruct (run_by_dimension_after_cubical_ok
                h class_map points labels dimensions exclude_infinite
                type1 type2 (skipn (Datatypes.S k) cell_pairs) dk sk s'
                cubical_complex diag dim st Hok
                (later_pairs_other_dimension_keys
                   k type1 type2 "cubical" dim st Hk (or_introl eq_refl))
                Hdim Hst)
      as (stats' & s3' & Hrun' & Hget).
    rewrite Hrun in Hrun'. injection Hrun' as <- _. exact Hget.
  - intros d' sw witness_complex simplex_tree diag s' Hcubical Hok
           dim st Hdim Hst.
    destruct (run_by_dimension_after_witness_ok
                h class_map points labels dimensions exclude_infinite
                type1 type2 (skipn (Datatypes.S k) cell_pairs) dk d' sk sw s'
                witness_complex simplex_tree diag dim st Hcubical Hok
                (later_pairs_other_dimension_keys
                   k type1 type2 "witness" dim st Hk (or_intror eq_refl))
                Hdim Hst)
      as (stats' & s3' & Hrun' & Hget).
    rewrite Hrun in Hrun'. injection Hrun' as <- _. exact Hget.
Qed.

Lemma dimension_statistics_recorded_example :
  exists stats s3,
    run (sample_library two_cells_file false)
        (compute_features_by_dimension "cells.csv" [0; 1]%Z true) tt
      = (Ok stats, s3) /\
    dict_get stats "cubical_tumor_immune_h0_n_features" = Some (PyInt 0) /\
    dict_get stats "cubical_tumor_immune_h1_n_features" = Some (PyInt 1).
Proof.
  destruct (sample_compute_kde false) as [class_map Hkde].
  destruct (dimension_statistics_recorded
              (sample_library two_cells_file false) tt tt tt "cells.csv"
              [0; 1]%Z true _ _ class_map (sample_read_img false) Hkde)
    as (stats & s3 & Hrun & Hok).
  exists stats, s3. split; [exact Hrun |].
  destruct (Hok 0 "tumor" "immune" [] tt eq_refl eq_refl) as [Hcubical _].
  destruct (sample_cubical_returns class_map) as [cubical_complex Hdiag].
  split.
  - refine (eq_trans (Hcubical cubical_complex _ tt Hdiag 0%Z "n_features"
                               _ _) _);
      [simpl; auto | simpl; auto 20 | reflexivity].
  - refine (eq_trans (Hcubical cubical_complex _ tt Hdiag 1%Z "n_features"
                               _ _) _);
      [simpl; auto | simpl; auto 20 | reflexivity].
Defined.

(** *** Counts by dimension *)

Lemma dict_get_n_features_retained (diag : diagram) (prefix : string)
  (exclude_infinite : bool) (max_finite_value : option float64) :
  dict_get (extract_persistence_stats diag prefix exclude_infinite
                                      max_finite_value)
           (prefix ++ "_n_features")
  = Some (PyInt (Z.of_nat
       (length (retained exclude_infinite max_finite_value diag)))).
Proof.
  rewrite extract_persistence_stats_retained.
  destruct (retained exclude_infinite max_finite_value diag) as [| bd kept].
  - apply dict_get_all_missing_n_features.
  - rewrite dict_get_summary_n_features, length_map. reflexivity.
Qed.

Lemma length_retained_split (exclude_infinite : bool)
  (max_finite_value : option float64) (f g : interval -> bool)
  (diag : diagram) :
  (forall iv, In iv diag -> f iv = true -> g iv = false) ->
  length (retained exclude_infinite max_finite_value
                   (filter (fun iv => f iv || g iv) diag))
  = length (retained exclude_infinite max_finite_value (filter f diag))
    + length (retained exclude_infinite max_finite_value (filter g diag)).
Proof.
  unfold retained. induction diag as [| iv diag IH]; intros Hdisj;
    [reflexivity |].
  assert (IH' := IH (fun iv' Hin => Hdisj iv' (or_intror Hin))).
  cbn [filter].
  destruct (f iv) eqn:Ef.
  - rewrite (Hdisj iv (or_introl eq_refl) Ef). cbn [orb flat_map].
    rewrite !length_app, IH'. lia.
  - destruct (g iv); cbn [orb flat_map]; rewrite ?length_app, IH'; lia.
Qed.

Lemma length_retained_by_dimension (exclude_infinite : bool)
  (max_finite_value : option float64) (dims : list Z) (diag : diagram) :
  NoDup dims ->
  fold_right Nat.add 0
    (map (fun dim => length (retained exclude_infinite max_finite_value
                                      (filter_dim diag dim))) dims)
  = length (retained exclude_infinite max_finite_value
                     (filter (fun iv => existsb (Z.eqb (fst iv)) dims) diag)).
Proof.
  induction 1 as [| dim dims Hfresh _ IH].
  - cbn [map fold_right existsb].
    induction diag as [| iv diag IHd]; [reflexivity | exact IHd].
  - cbn [map fold_right existsb]. rewrite IH.
    rewrite (length_retained_split _ _ (fun iv => Z.eqb (fst iv) dim)
               (fun iv => existsb (Z.eqb (fst iv)) dims)).
    + reflexivity.
    + intros iv _ E. apply Z.eqb_eq in E.
      apply Bool.not_true_is_false. intros Hin.
      apply existsb_exists in Hin. destruct Hin as [dim' [Hdim' E']].
      apply Z.eqb_eq in E'. apply Hfresh. congruence.
Qed.

(** X23.  The counts by dimension add up to the pooled count: for a list of
    distinct dimensions that covers the diagram, [n_features] of the whole
    diagram is the sum over the list of [n_features] of the intervals of
    each dimension, under either policy for infinite deaths. *)
Theorem counts_by_dimension_add_up (diag : diagram) (prefix : string)
  (dims : list Z) (exclude_infinite : bool)
  (max_finite_value : option float64) :
  NoDup dims ->
  Forall (fun iv => In (fst iv) dims) diag ->
  count_of (extract_persistence_stats diag prefix exclude_infinite
                                      max_finite_value)
           (prefix ++ "_n_features")
  = fold_right Z.add 0%Z
      (map (fun dim =>
              count_of (extract_persistence_stats
                          (filter_dim diag dim)
                          (prefix ++ "_h" ++ str_of_int dim)
                          exclude_infinite max_finite_value)
                       ((prefix ++ "_h" ++ str_of_int dim) ++ "_n_features"))
           dims).
Proof.
  intros Hnd Hcover. unfold count_of.
  rewrite dict_get_n_features_retained.
  assert (Hall : filter (fun iv => existsb (Z.eqb (fst iv)) dims) diag = diag).
  { induction Hcover as [| iv diag Hiv _ IH]; [reflexivity |].
    cbn [filter].
    replace (existsb (Z.eqb (fst iv)) dims) with true; [rewrite IH; reflexivity |].
    symmetry. apply existsb_exists. exists (fst iv).
    split; [exact Hiv | apply Z.eqb_refl]. }
  rewrite <- Hall at 1.
  rewrite <- (length_retained_by_dimension _ _ dims diag Hnd).
  clear Hnd Hcover Hall. induction dims as [| dim dims IH]; [reflexivity |].
  cbn [map fold_right]. rewrite dict_get_n_features_retained, <- IH. lia.
Qed.

Lemma counts_by_dimension_add_up_example :
  count_of (extract_persistence_stats mixed_diagram "cubical_tumor_immune"
                                      false None)
           "cubical_tumor_immune_n_features"
  = (count_of (extract_persistence_stats
                 (filter_dim mixed_diagram 0) "cubical_tumor_immune_h0"
                 false None) "cubical_tumor_immune_h0_n_features"
     + (count_of (extract_persistence_stats
                    (filter_dim mixed_diagram 1) "cubical_tumor_immune_h1"
                    false None) "cubical_tumor_immune_h1_n_features"
        + 0))%Z.
Proof.
  apply (counts_by_dimension_add_up mixed_diagram "cubical_tumor_immune"
                                    [0; 1]%Z false None).
  - constructor; [simpl; intros [H | []]; discriminate |].
    constructor; [intros [] | constructor].
  - constructor; [simpl; auto |]. constructor; [simpl; auto | constructor].
Defined.

(** ** Which exceptions escape *)

Lemma run_compute_features_by_dimension {S : Type} (h : handler S)
  (s s1 s2 : S) (img_dir : string) (dims : list Z) (exclude_infinite : bool)
  (points : list point) (labels : list string) (class_map : list (list Z)) :
  run h (read_img img_dir) s = (Ok (points, labels), s1) ->
  run h (compute_kde points labels) s1 = (Ok class_map, s2) ->
  exists stats s3,
    run h (compute_features_by_dimension img_dir dims exclude_infinite) s
    = (Ok stats, s3).
Proof.
  intros Hread Hkde.
  destruct (run_of_post h _ _ s2
              (post_loop_by_dimension_returns
                 class_map points labels dims exclude_infinite cell_pairs []))
    as (stats & s3 & Hrun & _).
  exists stats, s3.
  rewrite (run_compute_features_by_dimension_loop
             h s s1 s2 img_dir dims exclude_infinite points labels class_map
             Hread Hkde).
  exact Hrun.
Qed.

(** X24.  The only exceptions that escape the two pipelines are those of reading
    the file and of computing the class map: a pipeline raises [e] exactly
    when [read_img] raises [e], or [read_img] returns and [compute_kde]
    raises [e]; the library is then left in the state in which that call
    left it.  Nothing raised by the computations of the pairs escapes. *)
Theorem escaping_exceptions {S : Type} (h : handler S) (s s' : S)
  (img_dir : string) (dimensions : list Z) (exclude_infinite : bool)
  (e : exn) :
  let fails :=
    run h (read_img img_dir) s = (Raise e, s') \/
    exists points labels s1,
      run h (read_img img_dir) s = (Ok (points, labels), s1) /\
      run h (compute_kde points labels) s1 = (Raise e, s') in
  (run h (compute_all_features img_dir exclude_infinite) s = (Raise e, s')
   <-> fails) /\
  (run h (compute_features_by_dimension img_dir dimensions exclude_infinite) s
   = (Raise e, s') <-> fails).
Proof.
  intros fails. subst fails.
  destruct (run h (read_img img_dir) s) as [[[points labels] | e0] s1] eqn:Hread.
  - destruct (run h (compute_kde points labels) s1) as [[class_map | e1] s2]
      eqn:Hkde.
    + destruct (run_compute_all_features h s s1 s2 img_dir exclude_infinite
                  points labels class_map Hread Hkde)
        as (stats & s3 & Hrun & _).
      destruct (run_compute_features_by_dimension
                  h s s1 s2 img_dir dimensions exclude_infinite
                  points labels class_map Hread Hkde)
        as (stats' & s3' & Hrun').
      rewrite Hrun, Hrun'.
      split; (split; [discriminate |]);
        (intros [H | (p & l & s0 & H & Hk)]; [discriminate |]);
        injection H as <- <- <-; rewrite Hkde in Hk; discriminate.
    + assert (Hall : run h (compute_all_features img_dir exclude_infinite) s
                     = (Raise e1, s2)).
      { unfold compute_all_features.
        rewrite (run_ebind_ok _ _ _ _ _ _ Hread).
        apply (run_ebind_raise _ _ _ _ _ _ Hkde). }
      assert (Hdim : run h (compute_features_by_dimension
                              img_dir dimensions exclude_infinite) s
                     = (Raise e1, s2)).
      { unfold compute_features_by_dimension.
        rewrite (run_ebind_ok _ _ _ _ _ _ Hread).
        apply (run_ebind_raise _ _ _ _ _ _ Hkde). }
      rewrite Hall, Hdim.
      split; (split;
        [intros H; injection H as <- <-; right; exists points, labels, s1;
         split; [reflexivity | exact Hkde]
        | intros [H | (p & l & s0 & H & Hk)]; [discriminate |];
          injection H as <- <- <-; rewrite Hkde in Hk;
          injection Hk as <- <-; reflexivity]).
  - assert (Hall : run h (compute_all_features img_dir exclude_infinite) s
                   = (Raise e0, s1)).
    { unfold compute_all_features.
      apply (run_ebind_raise _ _ _ _ _ _ Hread). }
    assert (Hdim : run h (compute_features_by_dimension
                            img_dir dimensions exclude_infinite) s
                   = (Raise e0, s1)).
    { unfold compute_features_by_dimension.
      apply (run_ebind_raise _ _ _ _ _ _ Hread). }
    rewrite Hall, Hdim.
    split; (split;
      [intros H; injection H as <- <-; left; reflexivity
      | intros [H | (p & l & s0 & H & _)];
        [injection H as <- <-; reflexivity | discriminate]]).
Qed.

(** ** Too few points, in the pooled record *)

Lemma dict_get_missing_statistic (prefix st : string)
  (exclude_infinite : bool) (max_finite_value : option float64) :
  In st statistics ->
  dict_get (extract_persistence_stats [] prefix exclude_infinite
                                      max_finite_value)
           (prefix ++ "_" ++ st)
  = Some (missing_value st).
Proof.
  intros Hst. cbn [extract_persistence_stats]. rewrite nan_stats_all_missing.
  rewrite <- (dict_of_distinct (all_missing prefix))
    by (rewrite keys_all_missing; apply NoDup_stat_keys).
  apply (dict_get_all_missing [] prefix st Hst).
Qed.

(** X25.  For a pair of [cell_pairs] one of whose labelled subsets holds fewer
    than 3 points, the record of [compute_all_features] holds the
    all-missing statistics under [witness_{type1}_{type2}_]: the twelve
    numeric fields are [nan] and [n_features] is 0, whatever the libraries
    answer to the other calls. *)
Theorem insufficient_pair_all_features {S : Type} (h : handler S)
  (s s1 s2 : S) (img_dir : string) (exclude_infinite : bool)
  (points : list point) (labels : list string) (class_map : list (list Z))
  (type1 type2 : string) (points_type1 points_type2 : list point) :
  run h (read_img img_dir) s = (Ok (points, labels), s1) ->
  run h (compute_kde points labels) s1 = (Ok class_map, s2) ->
  In (type1, type2) cell_pairs ->
  select_rows points (label_mask labels type1) = Ok points_type1 ->
  select_rows points (label_mask labels type2) = Ok points_type2 ->
  length points_type1 < 3 \/ length points_type2 < 3 ->
  exists stats s3,
    run h (compute_all_features img_dir exclude_infinite) s = (Ok stats, s3) /\
    forall st, In st statistics ->
      dict_get stats (field_name "witness" type1 type2 st)
      = Some (missing_value st).
Proof.
  intros Hread Hkde Hpair H1 H2 Hfew.
  destruct (run_compute_all_features h s s1 s2 img_dir exclude_infinite
              points labels class_map Hread Hkde) as (stats & s3 & Hrun & _).
  exists stats, s3. split; [exact Hrun |]. intros st Hst.
  apply In_nth_error in Hpair. destruct Hpair as [k Hk].
  rewrite (run_compute_all_features_loop h s s1 s2 img_dir exclude_infinite
             points labels class_map Hread Hkde) in Hrun.
  rewrite (split_at_nth cell_pairs k _ Hk) in Hrun.
  destruct (run_of_post h _ _ s2
              (post_features_loop class_map points labels exclude_infinite
                                  (firstn k cell_pairs) []))
    as (dk & sk & Hbefore & _).
  rewrite (run_efold_app h _ _ _ _ _ _ _ Hbefore) in Hrun.
  destruct (run_of_post h _ _ sk
              (post_cubical_features class_map type1 type2 exclude_infinite
                                     dk))
    as (d' & sw & Hcubical & _).
  assert (Hwitness :
            run h (compute_witness_complex_pair points labels type1 type2) sw
            = (Ok (None, None, []), sw)).
  { rewrite (witness_pair_insufficient points labels type1 type2
               points_type1 points_type2 H1 H2 Hfew). reflexivity. }
  destruct (run_loop_after_witness_ok
              h class_map points labels exclude_infinite type1 type2
              (skipn (Datatypes.S k) cell_pairs) dk d' sk sw sw
              None None [] st Hcubical Hwitness
              (later_pairs_other_keys k type1 type2 "witness" st Hk
                                      (or_intror eq_refl)) Hst)
    as (stats' & s3' & Hrun' & Hget).
  rewrite Hrun in Hrun'. injection Hrun' as <- _.
  rewrite Hget. apply dict_get_missing_statistic, Hst.
Qed.

Lemma insufficient_pair_all_features_example :
  exists stats s3,
    run (sample_library two_cells_file false)
        (compute_all_features "cells.csv" true) tt = (Ok stats, s3) /\
    dict_get stats "witness_tumor_immune_death_mean" = Some (PyFloat NaN) /\
    dict_get stats "witness_tumor_immune_n_features" = Some (PyInt 0).
Proof.
  destruct (sample_compute_kde false) as [class_map Hkde].
  destruct (insufficient_pair_all_features
              (sample_library two_cells_file false) tt tt tt "cells.csv"
              true _ _ class_map "tumor" "immune"
              [] [(Fin (3 / 10), Fin (4 / 10))]
              (sample_read_img false) Hkde)
    as (stats & s3 & Hrun & Hmissing).
  - left. reflexivity.
  - reflexivity.
  - reflexivity.
  - left. simpl. lia.
  - exists stats, s3. split; [exact Hrun |]. split.
    + apply (Hmissing "death_mean"). simpl. auto 20.
    + apply (Hmissing "n_features"). simpl. auto 20.
Defined.
